(** * Weather + air-quality analytics pipeline: a shallow embedding

    The model follows the Python sources module by module:

    - [Py]               the fragment of Python the pipeline relies on
                         (JSON values, dicts, exceptions, strings, floats);
    - [Db]               the table of src/db.py and its indexes;
    - [World]            the environment the pipeline talks to (clock, the
                         two HTTP services, the store) and its effects;
    - [WeatherClient]    src/clients/weather_client.py;
    - [AirQualityClient] src/clients/air_quality_client.py;
    - [WeatherETL]       src/etl/fetch_and_load_weather.py;
    - [Transformer]      src/etl/transform_to_analytics.py;
    - [Config]           the city list of src/config.py;
    - [Scheduling]       the load task of src/scheduling/airflow_dag_example.py.

    Then come the notions the statements are written with and the sample
    data, and last the properties, one module per subject.

    Conventions.  A text is modelled by its UTF-8 encoding, byte by byte.
    A Python float is modelled by the rational number it denotes ([Q]).
    Where the code computes with floats, the model rounds the result of
    each operation to the nearest double ([binary64]); a number that a
    cleaning step rounds for storage is modelled by the decimal it is
    rounded to.  A JSON text is modelled by the value it denotes; the JSON
    columns of a row are read as text, which is what the calls to
    [json.loads] expect.  Timestamps are microseconds since the epoch. *)

From Stdlib Require Import ZArith QArith Qround Qabs Qpower List String Ascii Bool Lia.
From Stdlib Require Import Lqa DecimalString.
Import ListNotations.

Local Open Scope string_scope.
Local Open Scope Z_scope.

(* ================================================================== *)
(** * The Python fragment                                              *)
(* ================================================================== *)

Module Py.

(** ** JSON values, as [json.loads] / [response.json()] produce them *)

#[local] Unset Elimination Schemes.
Inductive json : Type :=
| JNull
| JBool (b : bool)
| JInt (z : Z)
| JFloat (q : Q)
| JStr (s : string)
| JArr (l : list json)
| JObj (d : list (string * json)).
#[local] Set Elimination Schemes.

(** A Python [dict] with string keys: an association list in insertion
    order, keys pairwise distinct (kept so by [dict_set]). *)
Definition dict (V : Type) : Type := list (string * V).

Fixpoint dict_get {V} (k : string) (d : dict V) : option V :=
  match d with
  | [] => None
  | (k', v) :: d' => if String.eqb k k' then Some v else dict_get k d'
  end.

Definition dict_has {V} (k : string) (d : dict V) : bool :=
  match dict_get k d with Some _ => true | None => false end.

(** [d[k] = v]: overwrite in place, or append a new key at the end. *)
Fixpoint dict_set {V} (k : string) (v : V) (d : dict V) : dict V :=
  match d with
  | [] => [(k, v)]
  | (k', v') :: d' =>
      if String.eqb k k' then (k', v) :: d' else (k', v') :: dict_set k v d'
  end.

Definition dict_keys {V} (d : dict V) : list string := map fst d.
Definition dict_values {V} (d : dict V) : list V := map snd d.

(** ** Exceptions *)

Inductive exn_class : Type :=
| Timeout            (* requests.exceptions.Timeout *)
| RequestException   (* any other requests.exceptions.RequestException *)
| JSONDecodeError    (* json.JSONDecodeError *)
| ValueError
| AttributeError
| TypeError
| IndexError
| KeyError
| OverflowError
| DatabaseError.     (* psycopg2.Error *)

Record exn : Type := mkExn { exn_cls : exn_class; exn_msg : string }.

(** [isinstance(e, requests.exceptions.RequestException)]. *)
Definition is_RequestException (e : exn) : bool :=
  match exn_cls e with Timeout | RequestException => true | _ => false end.

Definition is_Timeout (e : exn) : bool :=
  match exn_cls e with Timeout => true | _ => false end.

Definition is_JSONDecodeError (e : exn) : bool :=
  match exn_cls e with JSONDecodeError => true | _ => false end.

Inductive res (A : Type) : Type :=
| Ok (a : A)
| Raise (e : exn).
Arguments Ok {A} a.
Arguments Raise {A} e.

Definition rbind {A B} (c : res A) (k : A -> res B) : res B :=
  match c with Ok a => k a | Raise e => Raise e end.

Notation "x <~ c ;; k" := (rbind c (fun x => k))
  (at level 61, c at next level, right associativity).

Fixpoint rmap {A B} (f : A -> res B) (l : list A) : res (list B) :=
  match l with
  | [] => Ok []
  | a :: l' => b <~ f a ;; bs <~ rmap f l' ;; Ok (b :: bs)
  end.

(** Computations that read and write a state [S] and may raise; the
    state reached when an exception is raised is kept. *)
Definition SE (S A : Type) : Type := S -> res A * S.

Definition ret {S A} (a : A) : SE S A := fun w => (Ok a, w).

Definition raise {S A} (e : exn) : SE S A := fun w => (Raise e, w).

Definition bind {S A B} (c : SE S A) (k : A -> SE S B) : SE S B :=
  fun w =>
    match c w with
    | (Ok a, w') => k a w'
    | (Raise e, w') => (Raise e, w')
    end.

(** [try: c  except Exception as e: h e] *)
Definition try_except {S A} (c : SE S A) (h : exn -> SE S A) : SE S A :=
  fun w =>
    match c w with
    | (Ok a, w') => (Ok a, w')
    | (Raise e, w') => h e w'
    end.

Definition lift {S A} (r : res A) : SE S A := fun w => (r, w).

Notation "x <- c ;; k" := (bind c (fun x => k))
  (at level 61, c at next level, right associativity).

(** ** Strings *)

Definition colon : ascii := ":"%char.
Definition comma : ascii := ","%char.

(** [s.split(c)[0]]: the text before the first occurrence of [c]. *)
Fixpoint before_char (c : ascii) (s : string) : string :=
  match s with
  | EmptyString => EmptyString
  | String a s' => if Ascii.eqb a c then EmptyString else String a (before_char c s')
  end.

(** [s.split(c)] *)
Fixpoint split_char (c : ascii) (s : string) : list string :=
  match s with
  | EmptyString => [EmptyString]
  | String a s' =>
      if Ascii.eqb a c then EmptyString :: split_char c s'
      else match split_char c s' with
           | [] => [String a EmptyString]
           | h :: t => String a h :: t
           end
  end.

(** [c in s] for a one-character [c]. *)
Fixpoint has_char (c : ascii) (s : string) : bool :=
  match s with
  | EmptyString => false
  | String a s' => Ascii.eqb a c || has_char c s'
  end.

(** [str.isspace] on a character, through its UTF-8 encoding.  The white
    space of Python is U+0009..U+000D, U+001C..U+0020, U+0085, U+00A0,
    U+1680, U+2000..U+200A, U+2028, U+2029, U+202F, U+205F and U+3000:
    one byte for the first two ranges, two bytes for the next two
    characters (C2 85, C2 A0), three bytes for the others (E1 9A 80,
    E2 80 80..8A, E2 80 A8, E2 80 A9, E2 80 AF, E2 81 9F, E3 80 80). *)
Definition is_space (a : ascii) : bool :=
  let n := nat_of_ascii a in
  ((9 <=? n) && (n <=? 13) || (28 <=? n) && (n <=? 32))%nat.

Definition is_space2 (a b : ascii) : bool :=
  let '(x, y) := (nat_of_ascii a, nat_of_ascii b) in
  ((x =? 194) && ((y =? 133) || (y =? 160)))%nat.

Definition is_space3 (a b c : ascii) : bool :=
  let '(x, y, z) := (nat_of_ascii a, nat_of_ascii b, nat_of_ascii c) in
  ((x =? 225) && (y =? 154) && (z =? 128)
   || (x =? 226) && (y =? 128)
      && ((128 <=? z) && (z <=? 138) || (z =? 168) || (z =? 169) || (z =? 175))
   || (x =? 226) && (y =? 129) && (z =? 159)
   || (x =? 227) && (y =? 128) && (z =? 128))%nat.

(** Dropping the characters at the front of a text whose encodings the
    tests [two] and [three] accept, besides the one-byte white space. *)
Fixpoint strip_front (two : ascii -> ascii -> bool)
         (three : ascii -> ascii -> ascii -> bool) (s : string) : string :=
  match s with
  | EmptyString => EmptyString
  | String a s1 =>
      if is_space a then strip_front two three s1
      else match s1 with
           | EmptyString => s
           | String b s2 =>
               if two a b then strip_front two three s2
               else match s2 with
                    | EmptyString => s
                    | String c s3 =>
                        if three a b c then strip_front two three s3 else s
                    end
           end
  end.

Fixpoint reversed (s : string) : string :=
  match s with
  | EmptyString => EmptyString
  | String a s' => reversed s' ++ String a EmptyString
  end.

(** [s.lstrip()] *)
Definition lstrip (s : string) : string := strip_front is_space2 is_space3 s.

(** [s.rstrip()]: the same from the end, where the bytes of a character
    come last byte first. *)
Definition rstrip (s : string) : string :=
  reversed (strip_front (fun a b => is_space2 b a) (fun a b c => is_space3 c b a)
                        (reversed s)).

(** [s.strip()] *)
Definition strip (s : string) : string := rstrip (lstrip s).

Fixpoint is_prefix (p s : string) : bool :=
  match p, s with
  | EmptyString, _ => true
  | String a p', String b s' => Ascii.eqb a b && is_prefix p' s'
  | String _ _, EmptyString => false
  end.

(** [p in s] on strings: substring test. *)
Fixpoint is_substring (p s : string) : bool :=
  is_prefix p s ||
  match s with
  | EmptyString => false
  | String _ s' => is_substring p s'
  end.

(** [str(z)] for an [int]. *)
Definition str_of_Z (z : Z) : string := NilZero.string_of_int (Z.to_int z).

(** ** Numbers, truth values, comparisons *)

Definition type_name (v : json) : string :=
  match v with
  | JNull => "NoneType"
  | JBool _ => "bool"
  | JInt _ => "int"
  | JFloat _ => "float"
  | JStr _ => "str"
  | JArr _ => "list"
  | JObj _ => "dict"
  end.

(** The numeric value of an [int], [float] or [bool] ([bool] is an [int]). *)
Definition num_of (v : json) : option Q :=
  match v with
  | JBool b => Some (if b then 1%Q else 0%Q)
  | JInt z => Some (inject_Z z)
  | JFloat q => Some q
  | _ => None
  end.

Definition Qltb (a b : Q) : bool := negb (Qle_bool b a).

(** [bool(v)] *)
Definition py_truthy (v : json) : bool :=
  match v with
  | JNull => false
  | JBool b => b
  | JInt z => negb (z =? 0)
  | JFloat q => negb (Qeq_bool q 0)
  | JStr s => negb (String.eqb s "")
  | JArr l => match l with [] => false | _ => true end
  | JObj d => match d with [] => false | _ => true end
  end.

Definition is_None (v : json) : bool :=
  match v with JNull => true | _ => false end.

(** [a == b] *)
Fixpoint py_eq (a b : json) {struct a} : bool :=
  match a, b with
  | JNull, JNull => true
  | JStr s, JStr t => String.eqb s t
  | JArr l, JArr m =>
      (fix go (l m : list json) : bool :=
         match l, m with
         | [], [] => true
         | x :: l', y :: m' => py_eq x y && go l' m'
         | _, _ => false
         end) l m
  | JObj d, JObj e =>
      Nat.eqb (List.length d) (List.length e) &&
      (fix go (d : list (string * json)) : bool :=
         match d with
         | [] => true
         | (k, v) :: d' =>
             match dict_get k e with
             | Some v' => py_eq v v'
             | None => false
             end && go d'
         end) d
  | _, _ =>
      match num_of a, num_of b with
      | Some x, Some y => Qeq_bool x y
      | _, _ => false
      end
  end.

Inductive order_op : Type := OpLt | OpGt.

Definition op_symbol (op : order_op) : string :=
  match op with OpLt => "<" | OpGt => ">" end.

Definition holds (op : order_op) (c : comparison) : bool :=
  match op, c with
  | OpLt, Lt => true
  | OpGt, Gt => true
  | _, _ => false
  end.

Definition unorderable (op : order_op) (a b : json) : exn :=
  mkExn TypeError
    ("'" ++ op_symbol op ++ "' not supported between instances of '"
         ++ type_name a ++ "' and '" ++ type_name b ++ "'").

(** [a < b] and [a > b]: numbers by value, strings and lists
    lexicographically, anything else is a [TypeError]. *)
Fixpoint py_order (op : order_op) (a b : json) {struct a} : res bool :=
  match a, b with
  | JStr s, JStr t => Ok (holds op (String.compare s t))
  | JArr l, JArr m =>
      (fix go (l m : list json) : res bool :=
         match l, m with
         | [], [] => Ok false
         | [], _ :: _ => Ok (holds op Lt)
         | _ :: _, [] => Ok (holds op Gt)
         | x :: l', y :: m' => if py_eq x y then go l' m' else py_order op x y
         end) l m
  | _, _ =>
      match num_of a, num_of b with
      | Some x, Some y => Ok (holds op (Qcompare x y))
      | _, _ => Raise (unorderable op a b)
      end
  end.

Definition py_lt := py_order OpLt.
Definition py_gt := py_order OpGt.

(** [max(l)] for a non-empty [l]: keep the first item and replace it by
    each later item that compares greater. *)
Fixpoint py_max_from (cur : json) (l : list json) : res json :=
  match l with
  | [] => Ok cur
  | x :: l' =>
      g <~ py_gt x cur ;;
      py_max_from (if g then x else cur) l'
  end.

Definition py_max (l : list json) : res json :=
  match l with
  | [] => Raise (mkExn ValueError "max() arg is an empty sequence")
  | x :: l' => py_max_from x l'
  end.

(** ** Containers *)

Definition not_iterable (v : json) : exn :=
  mkExn TypeError ("argument of type '" ++ type_name v ++ "' is not iterable").

(** [k in v] for a string [k]. *)
Definition py_in (k : string) (v : json) : res bool :=
  match v with
  | JObj d => Ok (dict_has k d)
  | JArr l => Ok (existsb (py_eq (JStr k)) l)
  | JStr s => Ok (is_substring k s)
  | _ => Raise (not_iterable v)
  end.

Definition no_attribute (v : json) (attr : string) : exn :=
  mkExn AttributeError
    ("'" ++ type_name v ++ "' object has no attribute '" ++ attr ++ "'").

(** [v.get(k, default)] *)
Definition py_get_default (v : json) (k : string) (default : json) : res json :=
  match v with
  | JObj d => Ok (match dict_get k d with Some x => x | None => default end)
  | _ => Raise (no_attribute v "get")
  end.

(** [v.get(k)] *)
Definition py_get (v : json) (k : string) : res json :=
  py_get_default v k JNull.

Definition not_subscriptable (v : json) : exn :=
  mkExn TypeError ("'" ++ type_name v ++ "' object is not subscriptable").

(** [v[k]] for a string [k]. *)
Definition py_item (v : json) (k : string) : res json :=
  match v with
  | JObj d =>
      match dict_get k d with
      | Some x => Ok x
      | None => Raise (mkExn KeyError ("'" ++ k ++ "'"))
      end
  | JArr _ => Raise (mkExn TypeError "list indices must be integers or slices, not str")
  | JStr _ => Raise (mkExn TypeError "string indices must be integers, not 'str'")
  | _ => Raise (not_subscriptable v)
  end.

(** [v[0]] *)
Definition py_item0 (v : json) : res json :=
  match v with
  | JArr (x :: _) => Ok x
  | JArr [] => Raise (mkExn IndexError "list index out of range")
  | JStr (String a _) => Ok (JStr (String a EmptyString))
  | JStr EmptyString => Raise (mkExn IndexError "string index out of range")
  | JObj _ => Raise (mkExn KeyError "0")
  | _ => Raise (not_subscriptable v)
  end.

Fixpoint chars (s : string) : list json :=
  match s with
  | EmptyString => []
  | String a s' => JStr (String a EmptyString) :: chars s'
  end.

(** The items a [for] loop over [v] visits. *)
Definition py_iter (v : json) : res (list json) :=
  match v with
  | JArr l => Ok l
  | JStr s => Ok (chars s)
  | JObj d => Ok (map JStr (dict_keys d))
  | _ => Raise (mkExn TypeError ("'" ++ type_name v ++ "' object is not iterable"))
  end.

(** [v.copy()] *)
Definition py_copy (v : json) : res json :=
  match v with
  | JObj _ | JArr _ => Ok v
  | _ => Raise (no_attribute v "copy")
  end.

(** [v[k] = x] *)
Definition py_setitem (v : json) (k : string) (x : json) : res json :=
  match v with
  | JObj d => Ok (JObj (dict_set k x d))
  | _ => Raise (mkExn TypeError
                  ("'" ++ type_name v ++ "' object does not support item assignment"))
  end.

(** ** Rounding *)

(** Round to the nearest integer, ties to the even one. *)
Definition round_half_even (q : Q) : Z :=
  let f := Qfloor q in
  match Qcompare (q - inject_Z f) (1 # 2) with
  | Lt => f
  | Gt => f + 1
  | Eq => if Z.even f then f else f + 1
  end.

(** [round(q, n)] on a float, for n = 1, 2, 3 through the scale 10^n. *)
Definition round_to (scale : positive) (q : Q) : Q :=
  Qred (round_half_even (q * inject_Z (Zpos scale)) # scale).

Definition no_round (v : json) : exn :=
  mkExn TypeError ("type " ++ type_name v ++ " doesn't define __round__ method").

(** [round(v, n)], n > 0: an [int] stays as it is, a [float] is rounded. *)
Definition py_round_to (scale : positive) (v : json) : res json :=
  match v with
  | JInt z => Ok (JInt z)
  | JBool b => Ok (JInt (if b then 1 else 0))
  | JFloat q => Ok (JFloat (round_to scale q))
  | _ => Raise (no_round v)
  end.

(** [round(v)] *)
Definition py_round (v : json) : res json :=
  match v with
  | JInt z => Ok (JInt z)
  | JBool b => Ok (JInt (if b then 1 else 0))
  | JFloat q => Ok (JInt (round_half_even q))
  | _ => Raise (no_round v)
  end.

(** ** Float arithmetic

    The result of an operation on floats is the exact result rounded to
    the nearest double (IEEE 754 binary64: 53 significant bits, ties to
    the even significand, gradual underflow).  [binary64] leaves overflow
    out: it is used by itself where the exact result lies between two
    doubles (a quotient of counts, a percentage, a mean, half a double, a
    double rounded to two decimals); [to_float] below adds the
    infinities. *)

Definition pow2 (e : Z) : Q := Qpower 2 e.

(** The exponent of the binade of [q > 0]: the greatest [e] with [2^e <= q]. *)
Definition exponent_of (q : Q) : Z :=
  let e := Z.log2 (Qnum q) - Z.log2 (Zpos (Qden q)) in
  if Qle_bool (pow2 e) q then e else e - 1.

(** The exponent of the unit in the last place of the doubles around [q]. *)
Definition ulp_exponent (q : Q) : Z := Z.max (exponent_of q - 52) (-1074).

Definition nearest_double (q : Q) : Q :=
  let ulp := pow2 (ulp_exponent q) in
  Qred (inject_Z (round_half_even (q / ulp)) * ulp)%Q.

Definition binary64 (q : Q) : Q :=
  match Qnum q with
  | Z0 => 0%Q
  | Zpos _ => nearest_double q
  | Zneg _ => (- nearest_double (- q))%Q
  end.

(** [a / b] on two ints: the quotient, correctly rounded. *)
Definition int_true_div (a b : Z) : Q := binary64 (inject_Z a / inject_Z b).

(** [x * y] on floats. *)
Definition float_mul (x y : Q) : Q := binary64 (x * y).

(** [round(x, n)] on a float, through the scale 10^n: the decimal with n
    places nearest to the value of [x], as the double nearest to it. *)
Definition float_round (scale : positive) (x : Q) : Q := binary64 (round_to scale x).

(** ** Floats that may overflow

    The sum or the difference of two doubles can leave the range of the
    doubles: the result is then an infinity.  No operation below yields a
    NaN. *)
Inductive float : Type :=
| Finite (q : Q)
| PlusInfinity
| MinusInfinity.

(** The exact result [q] of an operation, as the float returned. *)
Definition to_float (q : Q) : float :=
  let r := binary64 q in
  if Qle_bool (pow2 1024) r then PlusInfinity
  else if Qle_bool r (- pow2 1024) then MinusInfinity
  else Finite r.

Definition float_add (x y : Q) : float := to_float (x + y).
Definition float_sub (x y : Q) : float := to_float (x - y).

(** [x / 2] and [x * 0.5] *)
Definition float_half (x : float) : float :=
  match x with
  | Finite q => to_float (q / 2)
  | _ => x
  end.

(** [abs(x)] *)
Definition float_abs (x : float) : float :=
  match x with
  | Finite q => Finite (Qabs q)
  | _ => PlusInfinity
  end.

(** [a > x] and [a < x] for a finite [a]. *)
Definition float_gt (a : Q) (x : float) : bool :=
  match x with
  | Finite q => Qltb q a
  | PlusInfinity => false
  | MinusInfinity => true
  end.

Definition float_lt (a : Q) (x : float) : bool :=
  match x with
  | Finite q => Qltb a q
  | PlusInfinity => true
  | MinusInfinity => false
  end.

(** [round(x, n)] on a float that may be infinite, which [round] returns
    as it is. *)
Definition float_round_to (scale : positive) (x : float) : float :=
  match x with
  | Finite q => Finite (float_round scale q)
  | _ => x
  end.

(** The double nearest to the square root of [q], for [q >= 0]. *)
Definition sqrt_double (q : Q) : Q :=
  match Qnum q with
  | Zpos _ =>
      let u := Z.max (exponent_of q / 2 - 52) (-1074) in
      let y := (q / pow2 (2 * u))%Q in
      let n := Z.sqrt (Qfloor y) in
      let half := (inject_Z n + (1 # 2))%Q in
      let m := match Qcompare y (half * half) with
               | Lt => n
               | Gt => n + 1
               | Eq => if Z.even n then n else n + 1
               end in
      Qred (inject_Z m * pow2 u)
  | _ => 0%Q
  end.

(** ** The statistics module on a list of floats *)

Module statistics.

Definition Qsum (l : list Q) : Q := fold_right Qplus 0%Q l.

Definition exact_mean (data : list Q) : Q :=
  (Qsum data / inject_Z (Z.of_nat (List.length data)))%Q.

(** [statistics.mean]: the exact mean, as the nearest double. *)
Definition mean (data : list Q) : Q := binary64 (exact_mean data).

Fixpoint insert_sorted (x : Q) (l : list Q) : list Q :=
  match l with
  | [] => [x]
  | y :: l' => if Qle_bool x y then x :: l else y :: insert_sorted x l'
  end.

(** [sorted(data)] *)
Definition sorted (data : list Q) : list Q := fold_right insert_sorted [] data.

(** [statistics.median] *)
Definition median (data : list Q) : float :=
  let data := sorted data in
  let n := List.length data in
  let i := Nat.div n 2 in
  if Nat.odd n then Finite (nth i data 0%Q)
  else float_half (float_add (nth (i - 1) data 0%Q) (nth i data 0%Q)).

(** The exact sample variance: the sum of the squared deviations from the
    exact mean over [n - 1]. *)
Definition sample_variance (data : list Q) : Q :=
  let c := exact_mean data in
  (Qsum (map (fun x => (x - c) * (x - c)) data)
   / inject_Z (Z.of_nat (List.length data) - 1))%Q.

(** [statistics.stdev] on two values or more: the square root of the
    exact sample variance, as the nearest double (Python 3.11 and later),
    or an [OverflowError] when no double is large enough. *)
Definition stdev (data : list Q) : res Q :=
  let r := sqrt_double (sample_variance data) in
  if Qle_bool (pow2 1024) r
  then Raise (mkExn OverflowError "integer division result too large for a float")
  else Ok r.

End statistics.

(** ** Text *)

(** [str(v)], as an f-string renders [v].  The rendering of floats, lists
    and dicts is left to [repr]. *)
Definition py_str (repr : json -> string) (v : json) : string :=
  match v with
  | JStr s => s
  | JNull => "None"
  | JBool b => if b then "True" else "False"
  | JInt z => str_of_Z z
  | _ => repr v
  end.

(** Equality of two values as stored data (no numeric coercion). *)
Definition Q_eqb (p q : Q) : bool :=
  (Qnum p =? Qnum q) && Pos.eqb (Qden p) (Qden q).

Fixpoint json_eqb (a b : json) {struct a} : bool :=
  match a, b with
  | JNull, JNull => true
  | JBool x, JBool y => Bool.eqb x y
  | JInt x, JInt y => x =? y
  | JFloat x, JFloat y => Q_eqb x y
  | JStr x, JStr y => String.eqb x y
  | JArr l, JArr m =>
      (fix go (l m : list json) : bool :=
         match l, m with
         | [], [] => true
         | x :: l', y :: m' => json_eqb x y && go l' m'
         | _, _ => false
         end) l m
  | JObj d, JObj e =>
      (fix go (d e : list (string * json)) : bool :=
         match d, e with
         | [], [] => true
         | (k, x) :: d', (k', y) :: e' => String.eqb k k' && json_eqb x y && go d' e'
         | _, _ => false
         end) d e
  | _, _ => false
  end.

(** JSON text.  A well-formed text is represented by the value it
    denotes; any other text by its characters and the decoder's message. *)
Inductive jtext : Type :=
| Encoded (j : json)
| Malformed (raw : string) (why : string).

Definition json_dumps (j : json) : jtext := Encoded j.

Definition json_loads (t : jtext) : res json :=
  match t with
  | Encoded j => Ok j
  | Malformed _ why => Raise (mkExn JSONDecodeError why)
  end.

(** [bool(t)] for a text: the empty string is false. *)
Definition text_truthy (t : jtext) : bool :=
  match t with
  | Encoded _ => true
  | Malformed raw _ => negb (String.eqb raw "")
  end.

(** ** More of strings and containers *)

(** [s.upper()], on the ASCII letters. *)
Definition upper_char (a : ascii) : ascii :=
  let n := nat_of_ascii a in
  if ((97 <=? n) && (n <=? 122))%nat then ascii_of_nat (n - 32) else a.

Fixpoint upper (s : string) : string :=
  match s with
  | EmptyString => EmptyString
  | String a s' => String (upper_char a) (upper s')
  end.

(** [v.upper()] *)
Definition py_upper (v : json) : res string :=
  match v with
  | JStr s => Ok (upper s)
  | _ => Raise (no_attribute v "upper")
  end.

(** [v in range(lo, hi)]: a number equal to one of the integers
    lo, ..., hi - 1; anything else is not in the range. *)
Definition in_range (v : json) (lo hi : Z) : bool :=
  match num_of v with
  | Some q =>
      Qeq_bool q (inject_Z (Qfloor q)) && (lo <=? Qfloor q) && (Qfloor q <? hi)
  | None => false
  end.

(** [len(v)] (for a str: of an ASCII text). *)
Definition py_len (v : json) : res Z :=
  match v with
  | JArr l => Ok (Z.of_nat (List.length l))
  | JObj d => Ok (Z.of_nat (List.length d))
  | JStr s => Ok (Z.of_nat (String.length s))
  | _ => Raise (mkExn TypeError ("object of type '" ++ type_name v ++ "' has no len()"))
  end.

End Py.

(* ================================================================== *)
(** * The store (src/db.py)                                            *)
(* ================================================================== *)

Module Db.
Import Py.

(** A row of [raw.weather_observations], column by column.  Column values
    are kept as the Python values bound to the statement; timestamps are
    microseconds since the epoch. *)
Record row : Type := mkRow {
  id : Z;
  city : json;
  country : json;
  latitude : json;
  longitude : json;
  observation_time : Z;
  weather_data : jtext;
  air_quality_data : option jtext;
  created_at : Z;
  updated_at : Z
}.

Definition table : Type := list row.

(** The natural key of a row. *)
Definition key_of (r : row) : json * Z := (city r, observation_time r).

(** An index of the table: its name, the columns it covers and whether
    it is a unique index. *)
Record index : Type := mkIndex {
  index_name : string;
  indexed_columns : list string;
  is_unique : bool
}.

(** The indexes [init_db] leaves on [raw.weather_observations]: the
    primary key of [id SERIAL PRIMARY KEY] and those of its three
    [CREATE INDEX IF NOT EXISTS] statements, none of which says UNIQUE. *)
Definition init_db_indexes : list index :=
  [mkIndex "weather_observations_pkey" ["id"] true;
   mkIndex "idx_weather_city_time" ["city"; "observation_time"] false;
   mkIndex "idx_weather_observation_time" ["observation_time"] false;
   mkIndex "idx_weather_created_at" ["created_at"] false].

Definition covers (columns target : list string) : bool :=
  forallb (fun c => existsb (String.eqb c) columns) target.

(** The arbiter Postgres infers for [ON CONFLICT (target)]: a unique index
    over exactly the columns of the target, in any order. *)
Definition arbiter (indexes : list index) (target : list string) : option index :=
  find (fun i => is_unique i
                 && covers (indexed_columns i) target
                 && covers target (indexed_columns i))
       indexes.

(** Without an arbiter the statement is rejected when it is planned
    (SQLSTATE 42P10), whatever the table holds. *)
Definition conflict_fault (indexes : list index) (target : list string) : option string :=
  match arbiter indexes target with
  | Some _ => None
  | None => Some "there is no unique or exclusion constraint matching the ON CONFLICT specification"
  end.

End Db.

(* ================================================================== *)
(** * The environment and the monad of effects                         *)
(* ================================================================== *)

Module World.
Import Py.

(** What [response.json()] finds in the body.  A body that is not JSON
    makes it raise requests' JSONDecodeError, a RequestException. *)
Inductive body : Type :=
| JsonBody (j : json)
| BadBody (why : string).

(** What one [requests.get(url, params=..., timeout=30)] does.  A response
    carries its status code, its body and the text [raise_for_status()]
    raises with when the status is an error status. *)
Inductive outcome : Type :=
| Response (status : Z) (b : body) (http_error : string)
| TimedOut (msg : string)
| Failed (msg : string).

(** Everything outside a run of the pipeline: the clock, the two services,
    the store's indexes, faults and clock, and the platform's renderings. *)
Record Env : Type := mkEnv {
  utcnow : nat -> Z;                      (* k-th reading of datetime.utcnow() *)
  isoformat : Z -> string;
  utcfromtimestamp : json -> res Z;
  repr : json -> string;
  openweather : nat -> string -> outcome; (* k-th GET to OpenWeatherMap, query q *)
  airnow : nat -> json -> json -> outcome;(* k-th GET to AirNow, latitude, longitude *)
  openweather_api_key : bool;             (* OPENWEATHER_API_KEY is set, and not empty *)
  airnow_api_key : bool;                  (* config.AIRNOW_API_KEY is set *)
  db_indexes : list Db.index;             (* the indexes raw.weather_observations has *)
  db_fault : nat -> option string;        (* the k-th transaction fails with this text *)
  db_now : nat -> Z                       (* CURRENT_TIMESTAMP of the k-th transaction *)
}.

Record world : Type := mkWorld {
  clock_reads : nat;
  weather_calls : nat;
  airnow_calls : list (json * json);      (* coordinates sent to AirNow, latest first *)
  sleeps : list Z;                        (* arguments of time.sleep, latest first *)
  db_txns : nat;
  table : Db.table;
  next_id : Z                             (* the SERIAL sequence behind id *)
}.

Definition M (A : Type) : Type := SE world A.

Section Effects.
Variable E : Env.

(** [datetime.utcnow()] *)
Definition now : M Z := fun w =>
  (Ok (utcnow E (clock_reads w)),
   mkWorld (S (clock_reads w)) (weather_calls w) (airnow_calls w) (sleeps w)
           (db_txns w) (table w) (next_id w)).

(** [datetime.utcnow().isoformat()] *)
Definition now_iso : M json :=
  t <- now ;; ret (JStr (isoformat E t)).

(** [time.sleep(seconds)] *)
Definition sleep (seconds : Z) : M unit := fun w =>
  (Ok tt,
   mkWorld (clock_reads w) (weather_calls w) (airnow_calls w) (seconds :: sleeps w)
           (db_txns w) (table w) (next_id w)).

Definition get_openweather (query : string) : M outcome := fun w =>
  (Ok (openweather E (weather_calls w) query),
   mkWorld (clock_reads w) (S (weather_calls w)) (airnow_calls w) (sleeps w)
           (db_txns w) (table w) (next_id w)).

Definition get_airnow (lat lon : json) : M outcome := fun w =>
  (Ok (airnow E (List.length (airnow_calls w)) lat lon),
   mkWorld (clock_reads w) (weather_calls w) ((lat, lon) :: airnow_calls w) (sleeps w)
           (db_txns w) (table w) (next_id w)).

End Effects.

(** [response.raise_for_status()] raises for 4xx and 5xx. *)
Definition is_error_status (status : Z) : bool :=
  (400 <=? status) && (status <? 600).

End World.

(* ================================================================== *)
(** * src/clients/weather_client.py                                    *)
(* ================================================================== *)

Module WeatherClient.
Import Py World.

Section Client.
Variable E : Env.

(** [WeatherClient()]: without an API key the constructor raises. *)
Definition __init__ : res unit :=
  if openweather_api_key E then Ok tt
  else Raise (mkExn ValueError
                "OpenWeatherMap API key is required. Set OPENWEATHER_API_KEY environment variable.").

Inductive attempt_end : Type :=
| Return (data : json)
| Continue.

(** The body of the [try] of one attempt of [_make_request]. *)
Definition attempt_body (query : string) (retries attempt : nat) : M attempt_end :=
  o <- get_openweather E query ;;
  match o with
  | TimedOut msg => raise (mkExn Timeout msg)
  | Failed msg => raise (mkExn RequestException msg)
  | Response status b http_error =>
      if status =? 401 then raise (mkExn ValueError "Invalid API key (401 Unauthorized)")
      else if status =? 404 then raise (mkExn ValueError "Location not found (404)")
      else if status =? 429 then
        let wait_time := 2 ^ Z.of_nat attempt in
        _ <- sleep wait_time ;;
        ret Continue
      else if is_error_status status then raise (mkExn RequestException http_error)
      else match b with
           | JsonBody j => ret (Return j)
           | BadBody why => raise (mkExn RequestException why)
           end
  end.

(** [for attempt in range(retries)], with [todo] attempts left. *)
Fixpoint attempts (query : string) (retries todo : nat) : M json :=
  match todo with
  | O => raise (mkExn RequestException "Max retries exceeded")
  | S todo' =>
      let attempt := (retries - todo)%nat in
      fun w =>
        match attempt_body query retries attempt w with
        | (Ok (Return data), w') => (Ok data, w')
        | (Ok Continue, w') => attempts query retries todo' w'
        | (Raise e, w') =>
            if is_Timeout e then
              if Nat.eqb attempt (retries - 1) then (Raise e, w')
              else attempts query retries todo' w'
            else if is_RequestException e then
              if Nat.eqb attempt (retries - 1) then (Raise e, w')
              else attempts query retries todo' w'
            else (Raise e, w')
        end
  end.

Definition _make_request (query : string) (retries : nat) : M json :=
  attempts query retries retries.

Definition error_envelope (e : exn) (query : string) : M json :=
  ts <- now_iso E ;;
  ret (JObj [("error", JStr (exn_msg e)); ("api_timestamp", ts); ("query", JStr query)]).

(** The query string: [f"{city},{country_code}"] if [country_code] else [city]. *)
Definition query_for (city : string) (country_code : option string) : string :=
  match country_code with
  | Some cc => if String.eqb cc "" then city else city ++ "," ++ cc
  | None => city
  end.

Definition get_current_weather_by_city (city : string) (country_code : option string)
  : M json :=
  let query := query_for city country_code in
  try_except
    (data <- _make_request query 3 ;;
     cod <- lift (py_get data "cod") ;;
     _ <- (if negb (py_eq cod (JInt 200)) then
             error_message <- lift (py_get_default data "message" (JStr "Unknown API error")) ;;
             raise (mkExn ValueError
                      ("OpenWeatherMap API error: " ++ py_str (repr E) error_message))
           else ret tt) ;;
     ts <- now_iso E ;;
     data <- lift (py_setitem data "api_timestamp" ts) ;;
     data <- lift (py_setitem data "query" (JStr query)) ;;
     ret data)
    (fun e => error_envelope e query).

Definition parse_city_country (city_input : string) : string * option string :=
  let parts := split_char comma city_input in
  let city := strip (hd "" parts) in
  let country :=
    match parts with
    | _ :: p1 :: _ => Some (strip p1)
    | _ => None
    end in
  (city, country).

(** One turn of the loop of [get_weather_for_cities]. *)
Definition fetch_city (results : dict json) (city_input : string) : M (dict json) :=
  try_except
    (let '(city, country) := parse_city_country city_input in
     weather_data <- get_current_weather_by_city city country ;;
     ret (dict_set city_input weather_data results))
    (fun e =>
       envelope <- error_envelope e city_input ;;
       ret (dict_set city_input envelope results)).

Fixpoint get_weather_for_cities_from (results : dict json) (cities : list string)
  : M (dict json) :=
  match cities with
  | [] => ret results
  | city_input :: rest =>
      results' <- fetch_city results city_input ;;
      get_weather_for_cities_from results' rest
  end.

Definition get_weather_for_cities (cities : list string) : M (dict json) :=
  get_weather_for_cities_from [] cities.

(** The [try] block of [extract_key_metrics]. *)
Definition key_metrics (weather_data : json) : res json :=
  main <~ py_get_default weather_data "main" (JObj []) ;;
  weather_list <~ py_get_default weather_data "weather" (JArr [JObj []]) ;;
  weather <~ py_item0 weather_list ;;
  wind <~ py_get_default weather_data "wind" (JObj []) ;;
  clouds <~ py_get_default weather_data "clouds" (JObj []) ;;
  name <~ py_get weather_data "name" ;;
  sys <~ py_get_default weather_data "sys" (JObj []) ;;
  country <~ py_get sys "country" ;;
  coord <~ py_get_default weather_data "coord" (JObj []) ;;
  lat <~ py_get coord "lat" ;;
  coord' <~ py_get_default weather_data "coord" (JObj []) ;;
  lon <~ py_get coord' "lon" ;;
  temp <~ py_get main "temp" ;;
  feels_like <~ py_get main "feels_like" ;;
  temp_min <~ py_get main "temp_min" ;;
  temp_max <~ py_get main "temp_max" ;;
  pressure <~ py_get main "pressure" ;;
  humidity <~ py_get main "humidity" ;;
  weather_main <~ py_get weather "main" ;;
  description <~ py_get weather "description" ;;
  cloudiness <~ py_get clouds "all" ;;
  speed <~ py_get wind "speed" ;;
  deg <~ py_get wind "deg" ;;
  visibility <~ py_get weather_data "visibility" ;;
  dt <~ py_get_default weather_data "dt" (JInt 0) ;;
  observation_time <~ utcfromtimestamp E dt ;;
  api_timestamp <~ py_get weather_data "api_timestamp" ;;
  Ok (JObj [("city", name); ("country", country);
            ("latitude", lat); ("longitude", lon);
            ("temperature", temp); ("feels_like", feels_like);
            ("temperature_min", temp_min); ("temperature_max", temp_max);
            ("pressure", pressure); ("humidity", humidity);
            ("weather_main", weather_main); ("weather_description", description);
            ("cloudiness", cloudiness);
            ("wind_speed", speed); ("wind_direction", deg);
            ("visibility", visibility);
            ("observation_time", JStr (isoformat E observation_time));
            ("api_timestamp", api_timestamp)]).

Definition extract_key_metrics (weather_data : json) : res json :=
  has_error <~ py_in "error" weather_data ;;
  if has_error then Ok weather_data
  else match key_metrics weather_data with
       | Ok metrics => Ok metrics
       | Raise e =>
           Ok (JObj [("error", JStr ("Failed to parse weather data: " ++ exn_msg e))])
       end.

End Client.
End WeatherClient.

(* ================================================================== *)
(** * src/clients/air_quality_client.py                                *)
(* ================================================================== *)

Module AirQualityClient.
Import Py World.

Section Client.
Variable E : Env.

Definition coordinates (latitude longitude : json) : json :=
  JObj [("lat", latitude); ("lon", longitude)].

Definition error_envelope (cause : string) (latitude longitude : json) : M json :=
  ts <- now_iso E ;;
  ret (JObj [("error", JStr cause); ("api_timestamp", ts);
             ("coordinates", coordinates latitude longitude)]).

(** The [try] block of [get_current_aqi_by_coordinates]. *)
Definition current_aqi (latitude longitude : json) : M json :=
  o <- get_airnow E latitude longitude ;;
  match o with
  | TimedOut msg => raise (mkExn Timeout msg)
  | Failed msg => raise (mkExn RequestException msg)
  | Response status b http_error =>
      if is_error_status status then raise (mkExn RequestException http_error)
      else match b with
           | BadBody why => raise (mkExn RequestException why)
           | JsonBody (JArr data) =>
               ts <- now_iso E ;;
               ret (JObj [("observations", JArr data);
                          ("api_timestamp", ts);
                          ("coordinates", coordinates latitude longitude);
                          ("total_observations", JInt (Z.of_nat (List.length data)))])
           | JsonBody data =>
               ts <- now_iso E ;;
               result <- lift (py_setitem data "api_timestamp" ts) ;;
               lift (py_setitem result "coordinates" (coordinates latitude longitude))
           end
  end.

Definition get_current_aqi_by_coordinates (latitude longitude : json) : M json :=
  if negb (airnow_api_key E) then
    error_envelope "AirNow API key not configured" latitude longitude
  else
    try_except (current_aqi latitude longitude)
      (fun e =>
         if is_RequestException e
         then error_envelope (exn_msg e) latitude longitude
         else error_envelope ("Unexpected error: " ++ exn_msg e) latitude longitude).

Definition short_envelope (cause : string) : M json :=
  ts <- now_iso E ;;
  ret (JObj [("error", JStr cause); ("api_timestamp", ts)]).

Definition get_aqi_for_weather_data (weather_data : json) : M json :=
  has_error <- lift (py_in "error" weather_data) ;;
  if has_error then short_envelope "Cannot fetch AQI: Weather data contains error"
  else
    try_except
      (coord <- lift (py_get_default weather_data "coord" (JObj [])) ;;
       lat <- lift (py_get coord "lat") ;;
       lon <- lift (py_get coord "lon") ;;
       if is_None lat || is_None lon
       then short_envelope "Weather data missing coordinates"
       else get_current_aqi_by_coordinates lat lon)
      (fun e => short_envelope ("Failed to process weather data: " ++ exn_msg e)).

End Client.

(** ** [extract_key_metrics] *)

(** The loop that keeps the first PM2.5 and the first ozone observation. *)
Definition held (found : option json) : bool :=
  match found with Some obs => py_truthy obs | None => false end.

Fixpoint find_parameters (items : list json) (pm25_obs ozone_obs : option json)
  : res (option json * option json) :=
  match items with
  | [] => Ok (pm25_obs, ozone_obs)
  | obs :: rest =>
      name <~ py_get_default obs "ParameterName" (JStr "") ;;
      parameter <~ py_upper name ;;
      if is_substring "PM2.5" parameter && negb (held pm25_obs)
      then find_parameters rest (Some obs) ozone_obs
      else if is_substring "OZONE" parameter && negb (held ozone_obs)
      then find_parameters rest pm25_obs (Some obs)
      else find_parameters rest pm25_obs ozone_obs
  end.

(** [category_mapping]: the ranges with their category and colour, in
    the order of the dict. *)
Definition category_mapping : list (Z * Z * (string * string)) :=
  [(0, 51, ("Good", "Green"));
   (51, 101, ("Moderate", "Yellow"));
   (101, 151, ("Unhealthy for Sensitive Groups", "Orange"));
   (151, 201, ("Unhealthy", "Red"));
   (201, 301, ("Very Unhealthy", "Purple"));
   (301, 501, ("Hazardous", "Maroon"))].

(** The loop over [category_mapping.items()], left at the first range
    that holds [overall_aqi]. *)
Fixpoint find_category (overall_aqi : json) (mapping : list (Z * Z * (string * string)))
  : string * string :=
  match mapping with
  | [] => ("Unknown", "Gray")
  | (lo, hi, found) :: rest =>
      if in_range overall_aqi lo hi then found else find_category overall_aqi rest
  end.

(** [found.get(k) if found else None] *)
Definition get_if (found : option json) (k : string) : res json :=
  if held found
  then match found with Some obs => py_get obs k | None => Ok JNull end
  else Ok JNull.

(** The [try] block of [extract_key_metrics]. *)
Definition air_metrics (aqi_data : json) : res json :=
  observations <~ py_get_default aqi_data "observations" (JArr []) ;;
  if negb (py_truthy observations) then
    api_timestamp <~ py_get aqi_data "api_timestamp" ;;
    Ok (JObj [("error", JStr "No air quality observations found");
              ("api_timestamp", api_timestamp)])
  else
    items <~ py_iter observations ;;
    found <~ find_parameters items None None ;;
    let '(pm25_obs, ozone_obs) := found in
    aqis <~ rmap (fun obs => py_get_default obs "AQI" (JInt 0)) items ;;
    overall_aqi <~ py_max aqis ;;
    let '(overall_category, overall_color) := find_category overall_aqi category_mapping in
    pm25_aqi <~ get_if pm25_obs "AQI" ;;
    pm25_value <~ get_if pm25_obs "Value" ;;
    pm25_unit <~ get_if pm25_obs "Unit" ;;
    ozone_aqi <~ get_if ozone_obs "AQI" ;;
    ozone_value <~ get_if ozone_obs "Value" ;;
    ozone_unit <~ get_if ozone_obs "Unit" ;;
    first <~ py_item0 observations ;;
    reporting_area <~ py_get first "ReportingArea" ;;
    first <~ py_item0 observations ;;
    state_code <~ py_get first "StateCode" ;;
    first <~ py_item0 observations ;;
    observation_date <~ py_get first "DateObserved" ;;
    first <~ py_item0 observations ;;
    observation_hour <~ py_get first "HourObserved" ;;
    total_observations <~ py_len observations ;;
    api_timestamp <~ py_get aqi_data "api_timestamp" ;;
    Ok (JObj [("overall_aqi", overall_aqi);
              ("overall_category", JStr overall_category);
              ("overall_color", JStr overall_color);
              ("pm25_aqi", pm25_aqi);
              ("pm25_value", pm25_value);
              ("pm25_unit", pm25_unit);
              ("ozone_aqi", ozone_aqi);
              ("ozone_value", ozone_value);
              ("ozone_unit", ozone_unit);
              ("reporting_area", reporting_area);
              ("state_code", state_code);
              ("observation_date", observation_date);
              ("observation_hour", observation_hour);
              ("total_observations", JInt total_observations);
              ("api_timestamp", api_timestamp)]).

Definition extract_key_metrics (aqi_data : json) : res json :=
  has_error <~ py_in "error" aqi_data ;;
  if has_error then Ok aqi_data
  else match air_metrics aqi_data with
       | Ok metrics => Ok metrics
       | Raise e => Ok (JObj [("error", JStr ("Failed to parse AQI data: " ++ exn_msg e))])
       end.

End AirQualityClient.

(* ================================================================== *)
(** * src/etl/fetch_and_load_weather.py                                *)
(* ================================================================== *)

Module WeatherETL.
Import Py World.

(** The dict [prepare_observation_record] builds, key by key. *)
Record observation : Type := mkObservation {
  city : json;
  country : json;
  latitude : json;
  longitude : json;
  observation_time : Z;
  weather_data : jtext;
  air_quality_data : option jtext
}.

(** ** The upsert statement

    [INSERT ... ON CONFLICT (city, observation_time) DO UPDATE SET ...].
    Postgres runs the statement only on a table with an arbiter for the
    conflict target ([Db.arbiter]), and rejects it otherwise;
    [load_observations_to_db] below makes that test before the first
    statement of a batch.  An arbiter is a unique index, so at most one
    stored row has the key of the record: [upsert] is what the statement
    does then, at transaction time [ts]. *)

Definition conflict_target : list string := ["city"; "observation_time"].

Definition same_key (o : observation) (r : Db.row) : bool :=
  json_eqb (city o) (Db.city r) && (observation_time o =? Db.observation_time r).

Definition inserted (ts new_id : Z) (o : observation) : Db.row :=
  Db.mkRow new_id (city o) (country o) (latitude o) (longitude o)
           (observation_time o) (weather_data o) (air_quality_data o) ts ts.

(** [DO UPDATE SET country = EXCLUDED.country, ..., updated_at = CURRENT_TIMESTAMP] *)
Definition updated (ts : Z) (o : observation) (r : Db.row) : Db.row :=
  Db.mkRow (Db.id r) (Db.city r) (country o) (latitude o) (longitude o)
           (Db.observation_time r) (weather_data o) (air_quality_data o)
           (Db.created_at r) ts.

Fixpoint upsert (ts new_id : Z) (o : observation) (t : Db.table) : Db.table :=
  match t with
  | [] => [inserted ts new_id o]
  | r :: t' =>
      if same_key o r then updated ts o r :: t'
      else r :: upsert ts new_id o t'
  end.

(** [cursor.executemany(insert_sql, observations)]: one statement per
    record, in order, at the transaction's timestamp; every statement
    draws a value from the id sequence. *)
Fixpoint executemany (ts : Z) (observations : list observation)
         (t : Db.table) (seq : Z) : Db.table * Z :=
  match observations with
  | [] => (t, seq)
  | o :: rest => executemany ts rest (upsert ts seq o t) (seq + 1)
  end.

Section ETL.
Variable E : Env.
Variable cities : list string.   (* self.cities *)

(** [WeatherETL()] builds the two clients and reads the city list; only
    the weather client can raise, the air-quality client warns. *)
Definition __init__ : res unit := WeatherClient.__init__ E.

Definition fetch_weather_data : M (dict json) :=
  WeatherClient.get_weather_for_cities E cities.

Definition unavailable : M json :=
  ts <- now_iso E ;;
  ret (JObj [("error", JStr "Weather data unavailable"); ("api_timestamp", ts)]).

(** One turn of the loop of [fetch_air_quality_data]. *)
Definition fetch_aqi (aqi_data : dict json) (item : string * json) : M (dict json) :=
  let '(city, weather) := item in
  has_error <- lift (py_in "error" weather) ;;
  if negb has_error then
    aqi <- AirQualityClient.get_aqi_for_weather_data E weather ;;
    ret (dict_set city aqi aqi_data)
  else
    aqi <- unavailable ;;
    ret (dict_set city aqi aqi_data).

Fixpoint fetch_air_quality_data_from (aqi_data : dict json) (items : list (string * json))
  : M (dict json) :=
  match items with
  | [] => ret aqi_data
  | item :: rest =>
      aqi_data' <- fetch_aqi aqi_data item ;;
      fetch_air_quality_data_from aqi_data' rest
  end.

Definition fetch_air_quality_data (weather_data : dict json) : M (dict json) :=
  fetch_air_quality_data_from [] weather_data.

(** [city.split(',')[0]] *)
Definition first_part (city : string) : string := before_char comma city.

Definition prepare_observation_record (city : string) (weather_data aqi_data : json)
  : M observation :=
  has_error <- lift (py_in "error" weather_data) ;;
  located <-
    (if negb has_error then
       coord <- lift (py_get_default weather_data "coord" (JObj [])) ;;
       lat <- lift (py_get coord "lat") ;;
       lon <- lift (py_get coord "lon") ;;
       city_name <- lift (py_get_default weather_data "name" (JStr (first_part city))) ;;
       sys <- lift (py_get_default weather_data "sys" (JObj [])) ;;
       country <- lift (py_get sys "country") ;;
       dt <- lift (py_get_default weather_data "dt" (JInt 0)) ;;
       observation_time <- lift (utcfromtimestamp E dt) ;;
       ret (lat, lon, city_name, country, observation_time)
     else
       observation_time <- now E ;;
       ret (JNull, JNull, JNull, JNull, observation_time)) ;;
  let '(lat, lon, city_name, country, observation_time) := located in
  ret (mkObservation
         (if py_truthy city_name then city_name else JStr (first_part city))
         country lat lon observation_time
         (json_dumps weather_data)
         (if py_truthy aqi_data then Some (json_dumps aqi_data) else None)).

(** [load_observations_to_db]: the batch is one transaction; a fault of
    the store (no connection, a failing transaction) or a table without an
    arbiter for the conflict target rolls it back and is raised again; the
    count returned is the sum of the statements' row counts, one each. *)
Definition load_observations_to_db (observations : list observation) : M Z :=
  fun w =>
    match observations with
    | [] => (Ok 0, w)
    | _ :: _ =>
        let k := db_txns w in
        let rolled_back :=
          mkWorld (clock_reads w) (weather_calls w) (airnow_calls w) (sleeps w)
                  (S k) (table w) (next_id w) in
        match db_fault E k with
        | Some msg => (Raise (mkExn DatabaseError msg), rolled_back)
        | None =>
            match Db.conflict_fault (db_indexes E) conflict_target with
            | Some msg => (Raise (mkExn DatabaseError msg), rolled_back)
            | None =>
                let '(t', seq') :=
                  executemany (db_now E k) observations (table w) (next_id w) in
                (Ok (Z.of_nat (List.length observations)),
                 mkWorld (clock_reads w) (weather_calls w) (airnow_calls w) (sleeps w)
                         (S k) t' seq')
            end
        end
    end.

(** [weather_data.get(city, {})] *)
Definition get_or_empty (d : dict json) (city : string) : json :=
  match dict_get city d with Some v => v | None => JObj [] end.

(** The loop of [run_etl] that prepares one record per configured city. *)
Fixpoint prepare_all (todo : list string) (weather_data aqi_data : dict json)
  : M (list observation) :=
  match todo with
  | [] => ret []
  | city :: rest =>
      record <- prepare_observation_record city (get_or_empty weather_data city)
                                           (get_or_empty aqi_data city) ;;
      records <- prepare_all rest weather_data aqi_data ;;
      ret (record :: records)
  end.

(** [len([v for v in d.values() if 'error' in v])] and its complement. *)
Definition count_errors (d : dict json) : res Z :=
  flags <~ rmap (py_in "error") (dict_values d) ;;
  Ok (Z.of_nat (List.length (filter (fun b => b) flags))).

Definition count_successes (d : dict json) : res Z :=
  flags <~ rmap (py_in "error") (dict_values d) ;;
  Ok (Z.of_nat (List.length (filter negb flags))).

(** [(end_time - start_time).total_seconds()] *)
Definition total_seconds (start_time end_time : Z) : Q :=
  (end_time - start_time) # 1000000.

Definition run_etl : M json :=
  start_time <- now E ;;
  try_except
    (weather_data <- fetch_weather_data ;;
     aqi_data <- fetch_air_quality_data weather_data ;;
     observations <- prepare_all cities weather_data aqi_data ;;
     records_loaded <- load_observations_to_db observations ;;
     end_time <- now E ;;
     let duration := total_seconds start_time end_time in
     weather_successes <- lift (count_successes weather_data) ;;
     weather_errors <- lift (count_errors weather_data) ;;
     aqi_successes <- lift (count_successes aqi_data) ;;
     aqi_errors <- lift (count_errors aqi_data) ;;
     ret (JObj [("start_time", JStr (isoformat E start_time));
                ("end_time", JStr (isoformat E end_time));
                ("duration_seconds", JFloat duration);
                ("cities_processed", JInt (Z.of_nat (List.length cities)));
                ("records_loaded", JInt records_loaded);
                ("weather_successes", JInt weather_successes);
                ("weather_errors", JInt weather_errors);
                ("aqi_successes", JInt aqi_successes);
                ("aqi_errors", JInt aqi_errors);
                ("status", JStr "success")]))
    (fun e =>
       end_time <- now E ;;
       let duration := total_seconds start_time end_time in
       ret (JObj [("start_time", JStr (isoformat E start_time));
                  ("end_time", JStr (isoformat E end_time));
                  ("duration_seconds", JFloat duration);
                  ("status", JStr "error");
                  ("error", JStr (exn_msg e))])).

End ETL.
End WeatherETL.

(* ================================================================== *)
(** * src/etl/transform_to_analytics.py                                *)
(* ================================================================== *)

Module Transformer.
Import Py.

(** ** Validation *)

Record validation_results : Type := mkValidation {
  record_id : Z;
  city : json;
  is_valid : bool;
  issues : list string;
  cleaned_weather_data : option json;
  cleaned_aqi_data : option json
}.

(** The checks run on the dict [validation_results] itself. *)
Definition V (A : Type) : Type := SE validation_results A.

(** [validation_results['issues'].append(issue)] *)
Definition append_issue (issue : string) : V unit :=
  fun r => (Ok tt, mkValidation (record_id r) (city r) (is_valid r)
                                (issues r ++ [issue])%list
                                (cleaned_weather_data r) (cleaned_aqi_data r)).

(** [validation_results['is_valid'] = False] *)
Definition set_invalid : V unit :=
  fun r => (Ok tt, mkValidation (record_id r) (city r) false (issues r)
                                (cleaned_weather_data r) (cleaned_aqi_data r)).

(** [validation_results['cleaned_weather_data'] = cleaned] *)
Definition set_cleaned_weather (cleaned : json) : V unit :=
  fun r => (Ok tt, mkValidation (record_id r) (city r) (is_valid r) (issues r)
                                (Some cleaned) (cleaned_aqi_data r)).

(** [validation_results['cleaned_aqi_data'] = cleaned] *)
Definition set_cleaned_aqi (cleaned : json) : V unit :=
  fun r => (Ok tt, mkValidation (record_id r) (city r) (is_valid r) (issues r)
                                (cleaned_weather_data r) (Some cleaned)).

Fixpoint each {A} (f : A -> V unit) (l : list A) : V unit :=
  match l with
  | [] => ret tt
  | a :: l' => _ <- f a ;; each f l'
  end.

Section Validation.
Variable repr : json -> string.

(** [if v is not None: if v < lo or v > hi: issues.append(label: v unit)] *)
Definition check_range (label suffix : string) (lo hi : Z) (v : json) : V unit :=
  if negb (is_None v) then
    low <- lift (py_lt v (JInt lo)) ;;
    out <- (if low then ret true else lift (py_gt v (JInt hi))) ;;
    if out then append_issue (label ++ ": " ++ py_str repr v ++ suffix) else ret tt
  else ret tt.

Definition check_required (weather_data : json) (field : string) : V unit :=
  present <- lift (py_in field weather_data) ;;
  if negb present then
    _ <- append_issue ("Missing weather field: " ++ field) ;;
    set_invalid
  else ret tt.

Definition check_weather (weather_data : json) : V unit :=
  has_error <- lift (py_in "error" weather_data) ;;
  if has_error then
    cause <- lift (py_item weather_data "error") ;;
    _ <- append_issue ("Weather API error: " ++ py_str repr cause) ;;
    set_invalid
  else
    _ <- each (check_required weather_data) ["main"; "weather"; "coord"] ;;
    main_data <- lift (py_get_default weather_data "main" (JObj [])) ;;
    temp <- lift (py_get main_data "temp") ;;
    _ <- check_range "Temperature out of range" "°C" (-100) 70 temp ;;
    humidity <- lift (py_get main_data "humidity") ;;
    check_range "Humidity out of range" "%" 0 100 humidity.

Definition check_observation (obs : json) : V unit :=
  aqi_value <- lift (py_get obs "AQI") ;;
  check_range "AQI out of range" "" 0 500 aqi_value.

Definition check_aqi (aqi_data : json) : V unit :=
  if py_truthy aqi_data then
    has_error <- lift (py_in "error" aqi_data) ;;
    if negb has_error then
      observations <- lift (py_get_default aqi_data "observations" (JArr [])) ;;
      if py_truthy observations then
        items <- lift (py_iter observations) ;;
        each check_observation items
      else ret tt
    else ret tt
  else ret tt.

(** [if field in d and d[field] is not None: d[field] = round(d[field], n)];
    [scale] is 10^n, or [None] for [round(d[field])]. *)
Definition round_field (scale : option positive) (d : json) (field : string) : res json :=
  present <~ py_in field d ;;
  if present then
    v <~ py_item d field ;;
    if negb (is_None v) then
      v' <~ match scale with
            | Some s => py_round_to s v
            | None => py_round v
            end ;;
      py_setitem d field v'
    else Ok d
  else Ok d.

Fixpoint round_fields (scale : option positive) (d : json) (fields : list string)
  : res json :=
  match fields with
  | [] => Ok d
  | f :: rest => d' <~ round_field scale d f ;; round_fields scale d' rest
  end.

(** [cleaned.get(k, {})] hands out the very dict stored under [k], so the
    in-place rounding shows in [cleaned] exactly when [k] is a key. *)
Definition put_back (cleaned : json) (k : string) (v : json) : json :=
  match cleaned with
  | JObj d => if dict_has k d then JObj (dict_set k v d) else cleaned
  | _ => cleaned
  end.

Definition _clean_weather_data (weather_data : json) : res json :=
  has_error <~ py_in "error" weather_data ;;
  if has_error then Ok weather_data
  else
    cleaned <~ py_copy weather_data ;;
    main_data <~ py_get_default cleaned "main" (JObj []) ;;
    main_data <~ round_fields (Some 10%positive) main_data
                   ["temp"; "feels_like"; "temp_min"; "temp_max"] ;;
    main_data <~ round_field None main_data "pressure" ;;
    let cleaned := put_back cleaned "main" main_data in
    wind_data <~ py_get_default cleaned "wind" (JObj []) ;;
    wind_data <~ round_field (Some 10%positive) wind_data "speed" ;;
    wind_data <~ round_field None wind_data "deg" ;;
    Ok (put_back cleaned "wind" wind_data).

Definition clean_observation (obs : json) : res json :=
  cleaned_obs <~ py_copy obs ;;
  cleaned_obs <~ round_field None cleaned_obs "AQI" ;;
  round_field (Some 1000%positive) cleaned_obs "Value".

Definition _clean_aqi_data (aqi_data : json) : res json :=
  has_error <~ py_in "error" aqi_data ;;
  if has_error || negb (py_truthy aqi_data) then Ok aqi_data
  else
    cleaned <~ py_copy aqi_data ;;
    observations <~ py_get_default cleaned "observations" (JArr []) ;;
    items <~ py_iter observations ;;
    cleaned_observations <~ rmap clean_observation items ;;
    py_setitem cleaned "observations" (JArr cleaned_observations).

(** The [try] block of [validate_weather_data]. *)
Definition validation_body (record : Db.row) : V unit :=
  weather_data <- lift (json_loads (Db.weather_data record)) ;;
  aqi_data <- match Db.air_quality_data record with
              | Some text =>
                  if text_truthy text then lift (json_loads text) else ret (JObj [])
              | None => ret (JObj [])
              end ;;
  _ <- check_weather weather_data ;;
  _ <- check_aqi aqi_data ;;
  cleaned_weather <- lift (_clean_weather_data weather_data) ;;
  _ <- set_cleaned_weather cleaned_weather ;;
  cleaned_aqi <- lift (_clean_aqi_data aqi_data) ;;
  set_cleaned_aqi cleaned_aqi.

(** The two handlers: [except json.JSONDecodeError] and [except Exception]. *)
Definition validation_failed (e : exn) : V unit :=
  _ <- append_issue (if is_JSONDecodeError e
                     then "JSON parsing error: " ++ exn_msg e
                     else "Validation error: " ++ exn_msg e) ;;
  set_invalid.

Definition validate_weather_data (record : Db.row) : validation_results :=
  snd (try_except (validation_body record) validation_failed
         (mkValidation (Db.id record) (Db.city record) true [] None None)).

(** ** The quality report *)

Record quality_report : Type := mkReport {
  total_records_checked : Z;
  valid_records : Z;
  invalid_records : Z;
  data_quality_score : Q;
  issue_categories : dict Z;
  checked_at : string
}.

(** What [run_data_quality_check] returns: the report, or [{'error': ...}]. *)
Inductive check_result : Type :=
| Report (r : quality_report)
| CheckError (cause : string).

(** The loop over the fetched records: the count of valid records and
    the issues of the invalid ones. *)
Fixpoint tally (records : list Db.row) (valid_records : Z) (all_issues : list string)
  : Z * list string :=
  match records with
  | [] => (valid_records, all_issues)
  | record :: rest =>
      let validation := validate_weather_data record in
      if is_valid validation
      then tally rest (valid_records + 1) all_issues
      else tally rest valid_records (all_issues ++ issues validation)%list
  end.

(** [issue.split(':')[0] if ':' in issue else 'Other'] *)
Definition category_of (issue : string) : string :=
  if has_char colon issue then before_char colon issue else "Other".

Fixpoint categorize (all_issues : list string) (issue_categories : dict Z) : dict Z :=
  match all_issues with
  | [] => issue_categories
  | issue :: rest =>
      let category := category_of issue in
      let seen := match dict_get category issue_categories with
                  | Some n => n
                  | None => 0
                  end in
      categorize rest (dict_set category (seen + 1) issue_categories)
  end.

(** [round((valid / total) * 100, 2) if total > 0 else 0], each operation
    in double precision as Python performs it. *)
Definition quality_score (valid_records total_records : Z) : Q :=
  if 0 <? total_records
  then float_round 100 (float_mul (int_true_div valid_records total_records) 100)
  else 0%Q.

(** [run_data_quality_check], given what the query returned ([fetched])
    and the clock reading rendered at the end ([now_text]). *)
Definition run_data_quality_check (fetched : res (list Db.row)) (now_text : string)
  : check_result :=
  match fetched with
  | Raise e => CheckError (exn_msg e)
  | Ok records =>
      let total_records := Z.of_nat (List.length records) in
      let '(valid_records, all_issues) := tally records 0 [] in
      Report (mkReport total_records valid_records (total_records - valid_records)
                       (quality_score valid_records total_records)
                       (categorize all_issues [])
                       now_text)
  end.

End Validation.

(** ** Trends *)

(** The AQI values the comprehension
    [[obs.get('AQI') for obs in aqi_data['observations'] if obs.get('AQI')]]
    collects. *)
Definition pick_aqi (obs : json) : res (option json) :=
  a <~ py_get obs "AQI" ;;
  if py_truthy a then a' <~ py_get obs "AQI" ;; Ok (Some a') else Ok None.

Fixpoint somes {A} (l : list (option A)) : list A :=
  match l with
  | [] => []
  | Some a :: l' => a :: somes l'
  | None :: l' => somes l'
  end.

Definition aqi_list_of (aqi_data : json) : res (list json) :=
  observations <~ py_item aqi_data "observations" ;;
  items <~ py_iter observations ;;
  picks <~ rmap pick_aqi items ;;
  Ok (somes picks).

(** The "Extract AQI" step for one row: the value appended to
    [aqi_values], if any. *)
Definition extract_aqi (aqi_data : json) : res (option json) :=
  if py_truthy aqi_data then
    present <~ py_in "observations" aqi_data ;;
    if present then
      aqi_list <~ aqi_list_of aqi_data ;;
      match aqi_list with
      | [] => Ok None
      | _ :: _ => worst <~ py_max aqi_list ;; Ok (Some worst)
      end
    else Ok None
  else Ok None.

(** [weather_data.get('main', {}).get(field)], appended when not [None]. *)
Definition extract_main (weather_data : json) (field : string) : res (option json) :=
  main_data <~ py_get_default weather_data "main" (JObj []) ;;
  v <~ py_get main_data field ;;
  Ok (if is_None v then None else Some v).

Definition append_some {A} (l : list A) (o : option A) : list A :=
  match o with Some a => (l ++ [a])%list | None => l end.

Record series : Type := mkSeries {
  temperatures : list json;
  humidity_values : list json;
  aqi_values : list json
}.

(** The body of the [try] inside the loop over the rows. *)
Definition extract_row (row : Db.row) (acc : series) : res series :=
  weather_data <~ json_loads (Db.weather_data row) ;;
  aqi_data <~ match Db.air_quality_data row with
              | Some text => if text_truthy text then json_loads text else Ok (JObj [])
              | None => Ok (JObj [])
              end ;;
  temp <~ extract_main weather_data "temp" ;;
  humidity <~ extract_main weather_data "humidity" ;;
  aqi <~ extract_aqi aqi_data ;;
  Ok (mkSeries (append_some (temperatures acc) temp)
               (append_some (humidity_values acc) humidity)
               (append_some (aqi_values acc) aqi)).

(** The loop of [calculate_weather_trends] over the rows of the window:
    a row whose text does not decode is skipped, any other exception ends
    the computation. *)
Fixpoint extract_series (rows : list Db.row) (acc : series) : res series :=
  match rows with
  | [] => Ok acc
  | row :: rest =>
      match extract_row row acc with
      | Ok acc' => extract_series rest acc'
      | Raise e => if is_JSONDecodeError e then extract_series rest acc else Raise e
      end
  end.

(** ** [_calculate_trend] on a series of floats

    [values: List[float]]: finite doubles, each by its value (an int of
    the series, which a double represents exactly below 2^53, by its value
    too). *)

Inductive direction : Type := stable | increasing | decreasing.

Record trend : Type := mkTrend {
  count : Z;
  average : Q;
  median : float;
  min : Q;
  max : Q;
  std_dev : Q;
  trend_direction : direction;
  trend_magnitude : float
}.

(** What [_calculate_trend] returns: the statistics, or [{'error': ...}]. *)
Inductive trend_result : Type :=
| Trend (t : trend)
| TrendError (cause : string).

(** [min(values)] and [max(values)] *)
Definition min_of (l : list Q) : Q :=
  match l with
  | [] => 0%Q
  | x :: l' => fold_left (fun m y => if Qltb y m then y else m) l' x
  end.

Definition max_of (l : list Q) : Q :=
  match l with
  | [] => 0%Q
  | x :: l' => fold_left (fun m y => if Qltb m y then y else m) l' x
  end.

(** [statistics.stdev(values) if len(values) > 1 else 0] *)
Definition std_dev_of (values : list Q) : res Q :=
  if Nat.ltb 1 (List.length values) then statistics.stdev values else Ok 0%Q.

(** [_calculate_trend]; the only step of its [try] block that can raise on
    floats is the standard deviation. *)
Definition _calculate_trend (values : list Q) : trend_result :=
  match values with
  | [] => TrendError "No values provided"
  | _ :: _ =>
      let avg := statistics.mean values in
      let median := statistics.median values in
      let min_val := min_of values in
      let max_val := max_of values in
      match std_dev_of values with
      | Raise e => TrendError ("Trend calculation failed: " ++ exn_msg e)
      | Ok std_dev =>
          let mid_point := Nat.div (List.length values) 2 in
          let first_half_avg :=
            if Nat.ltb 0 mid_point then statistics.mean (firstn mid_point values)
            else avg in
          let second_half_avg :=
            if Nat.ltb mid_point (List.length values)
            then statistics.mean (skipn mid_point values) else avg in
          let trend_magnitude := float_abs (float_sub second_half_avg first_half_avg) in
          let trend_direction :=
            if float_gt second_half_avg
                        (float_add first_half_avg (float_mul std_dev (1 # 2)))
            then increasing
            else if float_lt second_half_avg
                             (float_sub first_half_avg (float_mul std_dev (1 # 2)))
            then decreasing
            else stable in
          Trend (mkTrend (Z.of_nat (List.length values))
                         (float_round 100 avg)
                         (float_round_to 100 median)
                         (float_round 100 min_val)
                         (float_round 100 max_val)
                         (float_round 100 std_dev)
                         trend_direction
                         (float_round_to 100 trend_magnitude))
      end
  end.

End Transformer.

(* ================================================================== *)
(** * src/config.py                                                    *)
(* ================================================================== *)

Module Config.
Import Py.

Definition DEFAULT_CITIES : list string :=
  ["New York,US"; "Los Angeles,US"; "Chicago,US"; "Houston,US"; "Phoenix,US";
   "Philadelphia,US"; "San Antonio,US"; "San Diego,US"; "Dallas,US"; "San Jose,US"].

(** The [cities] property, given [os.getenv("CITIES")]. *)
Definition cities (cities_env : option string) : list string :=
  match cities_env with
  | Some value =>
      if String.eqb value "" then DEFAULT_CITIES
      else map strip (split_char comma value)
  | None => DEFAULT_CITIES
  end.

End Config.

(* ================================================================== *)
(** * src/scheduling/airflow_dag_example.py                            *)
(* ================================================================== *)

Module Scheduling.
Import Py World.

(** What a task function hands to Airflow: the value it returns, or the
    message of the [Exception] it raises itself. *)
Inductive task (A : Type) : Type :=
| Returned (a : A)
| Failed (message : string).
Arguments Returned {A} a.
Arguments Failed {A} message.

(** [f"{v:.2f}"], of which only the failure matters here. *)
Definition py_format_2f (v : json) : res unit :=
  match v with
  | JStr _ => Raise (mkExn ValueError "Unknown format code 'f' for object of type 'str'")
  | _ =>
      match num_of v with
      | Some _ => Ok tt
      | None => Raise (mkExn TypeError
                         ("unsupported format string passed to " ++ type_name v
                          ++ ".__format__"))
      end
  end.

Section Tasks.
Variable E : Env.
Variable cities : list string.   (* config.cities, read by WeatherETL() *)

(** [fetch_and_load_weather_data]; the lines it prints show only in the
    look-ups they make. *)
Definition fetch_and_load_weather_data : M (task json) :=
  _ <- lift (WeatherETL.__init__ E) ;;
  summary <- WeatherETL.run_etl E cities ;;
  status <- lift (py_item summary "status") ;;
  if py_eq status (JStr "success") then
    duration <- lift (py_item summary "duration_seconds") ;;
    _ <- lift (py_format_2f duration) ;;
    _ <- lift (py_item summary "records_loaded") ;;
    _ <- lift (py_item summary "weather_successes") ;;
    _ <- lift (py_item summary "aqi_successes") ;;
    ret (Returned summary)
  else
    _ <- lift (py_item summary "error") ;;
    cause <- lift (py_item summary "error") ;;
    ret (Failed ("ETL process failed: " ++ py_str (repr E) cause)).

End Tasks.
End Scheduling.

(* ================================================================== *)
(** * Reference notions and sample data                                *)
(* ================================================================== *)

(** ** Sample data *)

Module Samples.
Import Py.

(** An OpenWeatherMap answer for Chicago with the given humidity. *)
Definition chicago (humidity : Z) : json :=
  JObj [("coord", JObj [("lon", JFloat (-8765 # 100)); ("lat", JFloat (4185 # 100))]);
        ("weather", JArr [JObj [("main", JStr "Clouds");
                                ("description", JStr "overcast clouds")]]);
        ("main", JObj [("temp", JFloat (2137 # 100)); ("humidity", JInt humidity)]);
        ("dt", JInt 1700000000);
        ("sys", JObj [("country", JStr "US")]);
        ("name", JStr "Chicago");
        ("cod", JInt 200)].

(** A stored error envelope. *)
Definition failed_fetch : json :=
  JObj [("error", JStr "Location not found (404)");
        ("api_timestamp", JStr "2023-11-14T22:13:20");
        ("query", JStr "Atlantis")].

Definition stored (n : Z) (weather : json) (aqi : option json) : Db.row :=
  Db.mkRow n (JStr "Chicago") (JStr "US") JNull JNull (1700000000000000 + n)
           (json_dumps weather) (option_map json_dumps aqi) 0 0.

Definition plain_repr (v : json) : string := "?".

(** A table set up as [init_db] does and then given the unique index
    that the conflict target of the upsert asks for. *)
Definition keyed_indexes : list Db.index :=
  (Db.init_db_indexes
   ++ [Db.mkIndex "uq_weather_city_time" ["city"; "observation_time"] true])%list.

(** An environment whose clock ticks once a second, whose platform
    renders a timestamp as its number of microseconds, and whose services
    and store behave as given. *)
Definition env_on (indexes : list Db.index)
           (weather : nat -> string -> World.outcome)
           (air : nat -> json -> json -> World.outcome)
           (fault : nat -> option string) : World.Env :=
  World.mkEnv (fun k => 1700000000000000 + Z.of_nat k * 1000000)
              str_of_Z
              (fun v => match v with
                        | JInt z => Ok (z * 1000000)
                        | _ => Raise (mkExn TypeError "an integer is required")
                        end)
              plain_repr weather air true true indexes fault
              (fun k => 1700000000000000 + Z.of_nat k * 1000000).

(** The same over a table with the unique index. *)
Definition env := env_on keyed_indexes.

(** The world before a run: nothing called, an empty table. *)
Definition fresh : World.world := World.mkWorld 0 0 [] [] 0 [] 1.

(** AirNow answering with one PM2.5 observation. *)
Definition airnow_ok (k : nat) (lat lon : json) : World.outcome :=
  World.Response 200
    (World.JsonBody (JArr [JObj [("ParameterName", JStr "PM2.5"); ("AQI", JInt 57)]]))
    "".

(** OpenWeatherMap answering every query with the Chicago report. *)
Definition weather_ok (k : nat) (query : string) : World.outcome :=
  World.Response 200 (World.JsonBody (chicago 45)) "".

(** OpenWeatherMap timing out on every attempt. *)
Definition weather_down (k : nat) (query : string) : World.outcome :=
  World.TimedOut "Read timed out. (read timeout=30)".

Definition store_up (k : nat) : option string := None.

Definition store_down (k : nat) : option string := Some "connection refused".

End Samples.

(** ** Notions for the quality report *)

Module QualityNotions.
Import Py Transformer.

Section Report.
Variable repr : json -> string.

Definition valid_in (records : list Db.row) : list Db.row :=
  filter (fun record => is_valid (validate_weather_data repr record)) records.

Definition issues_of_invalid (records : list Db.row) : list string :=
  flat_map (fun record =>
              let validation := validate_weather_data repr record in
              if is_valid validation then [] else issues validation) records.

End Report.

(** Three stored records, one of them valid. *)
Definition one_in_three : list Db.row :=
  [Samples.stored 1 (Samples.chicago 45) None;
   Samples.stored 2 Samples.failed_fetch None;
   Samples.stored 3 Samples.failed_fetch None].

End QualityNotions.

(** ** Notions for validation *)

Module ValidationNotions.
Import Py Transformer.

(** The results never say "invalid" without an issue to show for it. *)
Definition justified (r : validation_results) : Prop :=
  is_valid r = false -> issues r <> [].

Definition keeps_justified {A} (c : V A) : Prop :=
  forall s, justified s -> justified (snd (c s)).

End ValidationNotions.

(** ** Notions for the AQI series *)

Module AqiNotions.
Import Py Transformer.

Definition is_number (v : json) : Prop :=
  match v with JInt _ | JFloat _ => True | _ => False end.

(** The numeric value of a number. *)
Definition value (v : json) : Q :=
  match num_of v with Some q => q | None => 0%Q end.

(** The ['AQI'] entry of a parameter observation ([None] when absent). *)
Definition aqi_entry (obs : json) : json :=
  match obs with
  | JObj d => match dict_get "AQI" d with Some v => v | None => JNull end
  | _ => JNull
  end.

(** A parameter observation as AirNow reports it: an object whose AQI,
    when present, is null or a number. *)
Definition parameter_observation (obs : json) : Prop :=
  match obs with
  | JObj _ => aqi_entry obs = JNull \/ is_number (aqi_entry obs)
  | _ => False
  end.

(** The AQI values the observations of a record report. *)
Definition reported (observations : list json) : list json :=
  filter (fun v => negb (is_None v)) (map aqi_entry observations).

(** Those among them that are not zero. *)
Definition nonzero (observations : list json) : list json :=
  filter py_truthy (map aqi_entry observations).

(** What the air-quality column of a row decodes to. *)
Definition aqi_payload (row : Db.row) : res json :=
  match Db.air_quality_data row with
  | Some text => if text_truthy text then json_loads text else Ok (JObj [])
  | None => Ok (JObj [])
  end.

(** An AirNow answer reporting three parameters. *)
Definition three_parameters : list json :=
  [JObj [("ParameterName", JStr "O3"); ("AQI", JInt 42)];
   JObj [("ParameterName", JStr "PM2.5"); ("AQI", JInt 57)];
   JObj [("ParameterName", JStr "PM10"); ("AQI", JInt 0)]].

End AqiNotions.

(** ** Notions for the store *)

Module StoreNotions.
Import Py World WeatherETL.

(** The natural key of a record. *)
Definition natural_key (o : observation) : json * Z := (city o, observation_time o).

Definition has_key (k : json * Z) (r : Db.row) : bool :=
  json_eqb (fst k) (Db.city r) && (snd k =? Db.observation_time r).

(** The rows stored under a key. *)
Definition rows_with (k : json * Z) (t : Db.table) : list Db.row :=
  filter (has_key k) t.

(** Two records for Chicago at the same observation time. *)
Definition first_write : observation :=
  mkObservation (JStr "Chicago") (JStr "US") (JFloat (4185 # 100)) (JFloat (-8765 # 100))
                1700000000000000 (json_dumps (Samples.chicago 45)) None.

Definition second_write : observation :=
  mkObservation (JStr "Chicago") (JStr "USA") (JFloat (4188 # 100)) (JFloat (-8763 # 100))
                1700000000000000 (json_dumps (Samples.chicago 50))
                (Some (json_dumps (JObj [("observations", JArr [])]))).

End StoreNotions.

(** ** Notions for retries *)

Module RetryNotions.
Import Py World WeatherClient.

(** The failures the client retries on, as the claim lists them: a
    timeout, a rate-limit answer, a 5xx answer. *)
Inductive retryable : outcome -> Prop :=
| retry_timeout (msg : string) : retryable (TimedOut msg)
| retry_rate_limit (b : body) (err : string) : retryable (Response 429 b err)
| retry_server_error (status : Z) (b : body) (err : string) :
    500 <= status < 600 -> retryable (Response status b err).

Definition is_rate_limit (o : outcome) : bool :=
  match o with Response status _ _ => status =? 429 | _ => false end.

(** The exception a failed attempt raises by itself. *)
Definition own_error (o : outcome) : exn :=
  match o with
  | TimedOut msg => mkExn Timeout msg
  | Failed msg => mkExn RequestException msg
  | Response _ _ err => mkExn RequestException err
  end.

(** The error that ends the request when the last attempt is [o]. *)
Definition terminal_error (o : outcome) : exn :=
  if is_rate_limit o then mkExn RequestException "Max retries exceeded"
  else own_error o.

Definition called (w : world) : world :=
  mkWorld (clock_reads w) (S (weather_calls w)) (airnow_calls w) (sleeps w)
          (db_txns w) (table w) (next_id w).

Definition slept (seconds : Z) (w : world) : world :=
  mkWorld (clock_reads w) (weather_calls w) (airnow_calls w) (seconds :: sleeps w)
          (db_txns w) (table w) (next_id w).

(** The world after a failed attempt number [attempt]. *)
Definition after_failure (o : outcome) (attempt : nat) (w : world) : world :=
  if is_rate_limit o then slept (2 ^ Z.of_nat attempt) (called w) else called w.

End RetryNotions.

(** ** Notions for the client's results *)

Module EnvelopeNotions.
Import Py World.

(** What [get_current_weather_by_city] hands back: an error envelope, or
    the provider's answer with the fetch timestamp and the query added. *)
Definition envelope_for (query : string) (j : json) : Prop :=
  exists cause ts,
    j = JObj [("error", JStr cause); ("api_timestamp", JStr ts); ("query", JStr query)].

Definition reading_for (query : string) (j : json) : Prop :=
  exists d ts,
    j = JObj d
    /\ dict_get "api_timestamp" d = Some (JStr ts)
    /\ dict_get "query" d = Some (JStr query).

End EnvelopeNotions.

(** ** Notions for the pipeline run *)

Module RunNotions.
Import Py World WeatherETL.

Definition is_object (v : json) : Prop :=
  match v with JObj _ => True | _ => False end.

Definition objects (d : dict json) : Prop := Forall (fun kv => is_object (snd kv)) d.

(** One more request at most, and none at all without coordinates. *)
Definition at_most_one_call (w w' : world) : Prop :=
  airnow_calls w' = airnow_calls w
  \/ exists lat lon, airnow_calls w' = (lat, lon) :: airnow_calls w.

(** The synthesized air-quality error. *)
Definition unavailable_at (ts : string) : json :=
  JObj [("error", JStr "Weather data unavailable"); ("api_timestamp", JStr ts)].

(** The entries the loop asks AirNow about: those without an error. *)
Definition fetchable (items : dict json) : dict json :=
  filter (fun kv => match snd kv with
                    | JObj d => negb (dict_has "error" d)
                    | _ => false
                    end) items.

Section Summary.
Variable E : Env.
Variable cities : list string.

Definition success_summary (start_time end_time : Z)
           (records_loaded weather_successes weather_errors
            aqi_successes aqi_errors : Z) : dict json :=
  [("start_time", JStr (isoformat E start_time));
   ("end_time", JStr (isoformat E end_time));
   ("duration_seconds", JFloat (total_seconds start_time end_time));
   ("cities_processed", JInt (Z.of_nat (List.length cities)));
   ("records_loaded", JInt records_loaded);
   ("weather_successes", JInt weather_successes);
   ("weather_errors", JInt weather_errors);
   ("aqi_successes", JInt aqi_successes);
   ("aqi_errors", JInt aqi_errors);
   ("status", JStr "success")].

Definition error_summary (start_time end_time : Z) (cause : string) : dict json :=
  [("start_time", JStr (isoformat E start_time));
   ("end_time", JStr (isoformat E end_time));
   ("duration_seconds", JFloat (total_seconds start_time end_time));
   ("status", JStr "error");
   ("error", JStr cause)].

(** The steps of a run that went through. *)
Inductive completed (w : world) (summary : dict json) (final : world) : Prop :=
| Completed (weather aqi : dict json) (observations : list observation) (loaded : Z)
    (w1 w2 w3 w4 : world) (ws we qs qe : Z)
    (fetched : fetch_weather_data E cities (snd (now E w)) = (Ok weather, w1))
    (fetched_aqi : fetch_air_quality_data E weather w1 = (Ok aqi, w2))
    (prepared : prepare_all E cities weather aqi w2 = (Ok observations, w3))
    (stored : load_observations_to_db E observations w3 = (Ok loaded, w4))
    (counted_ws : count_successes weather = Ok ws)
    (counted_we : count_errors weather = Ok we)
    (counted_qs : count_successes aqi = Ok qs)
    (counted_qe : count_errors aqi = Ok qe)
    (summarized : summary = success_summary (utcnow E (clock_reads w))
                              (utcnow E (clock_reads w4)) loaded ws we qs qe)
    (finished : final = snd (now E w4)).

End Summary.

(** OpenWeatherMap not finding Atlantis and answering any other query. *)
Definition first_down (k : nat) (query : string) : outcome :=
  if String.eqb query "Atlantis" then Response 404 (BadBody "") "Not Found"
  else Samples.weather_ok k query.

End RunNotions.


(** ** Notions for the outcome of a request *)

Module RequestNotions.
Import Py World WeatherClient.

(** What an attempt that is not retried hands to the caller of
    [_make_request]: the decoded body of an answer that is neither 401, 404,
    429 nor an error status, or the [ValueError] of a 401 or a 404. *)
Inductive settles : outcome -> res json -> Prop :=
| settles_answer (status : Z) (j : json) (err : string) :
    status <> 401 -> status <> 404 -> status <> 429 ->
    is_error_status status = false ->
    settles (Response status (JsonBody j) err) (Ok j)
| settles_unauthorized (b : body) (err : string) :
    settles (Response 401 b err)
            (Raise (mkExn ValueError "Invalid API key (401 Unauthorized)"))
| settles_not_found (b : body) (err : string) :
    settles (Response 404 b err)
            (Raise (mkExn ValueError "Location not found (404)")).

(** The outcomes after which [_make_request] goes on to the next attempt
    while attempts are left: a time-out, a connection error, a rate-limit
    answer, any other error status than 401 and 404, and an answer whose
    body does not decode. *)
Inductive retried : outcome -> Prop :=
| retried_timeout (msg : string) : retried (TimedOut msg)
| retried_failure (msg : string) : retried (Failed msg)
| retried_rate_limit (b : body) (err : string) : retried (Response 429 b err)
| retried_error_status (status : Z) (b : body) (err : string) :
    status <> 401 -> status <> 404 -> is_error_status status = true ->
    retried (Response status b err)
| retried_bad_body (status : Z) (why err : string) :
    status <> 401 -> status <> 404 ->
    retried (Response status (BadBody why) err).

(** The calls to OpenWeatherMap are the only thing a request changes
    besides its sleeps: at most [n] more calls. *)
Definition only_calls (n : nat) (w w' : world) : Prop :=
  (weather_calls w <= weather_calls w' <= weather_calls w + n)%nat
  /\ clock_reads w' = clock_reads w
  /\ airnow_calls w' = airnow_calls w
  /\ db_txns w' = db_txns w
  /\ table w' = table w
  /\ next_id w' = next_id w.

(** The waits of [todo] rate-limited attempts starting at attempt
    [first], latest first: 2^(first + todo - 1), ..., 2^first. *)
Fixpoint backoff (first todo : nat) : list Z :=
  match todo with
  | O => []
  | S todo' => (backoff (S first) todo' ++ [2 ^ Z.of_nat first])%list
  end.

End RequestNotions.

(** ** Notions for city keys and for what a fetch spends *)

Module FetchNotions.
Import Py World.

(** A text with no white space at its front, as the tests [two] and
    [three] for two-byte and three-byte characters see it. *)
Definition front_clean (two : ascii -> ascii -> bool)
           (three : ascii -> ascii -> ascii -> bool) (s : string) : Prop :=
  match s with
  | EmptyString => True
  | String a s1 =>
      is_space a = false
      /\ match s1 with
         | EmptyString => True
         | String b s2 =>
             two a b = false
             /\ match s2 with
                | EmptyString => True
                | String c _ => three a b c = false
                end
         end
  end.

(** Between [w] and [w'] OpenWeatherMap got at most [n] more calls and
    AirNow at most [m] more, and the store was left alone. *)
Definition spends (n m : nat) (w w' : world) : Prop :=
  (weather_calls w <= weather_calls w' <= weather_calls w + n)%nat
  /\ (List.length (airnow_calls w) <= List.length (airnow_calls w')
      <= List.length (airnow_calls w) + m)%nat
  /\ db_txns w' = db_txns w
  /\ table w' = table w
  /\ next_id w' = next_id w.

(** The query [get_weather_for_cities] sends for a city key. *)
Definition query_of (city_input : string) : string :=
  WeatherClient.query_for (fst (WeatherClient.parse_city_country city_input))
                          (snd (WeatherClient.parse_city_country city_input)).

(** A computation that spends at most that much, from any world. *)
Definition costs {A} (n m : nat) (c : M A) : Prop :=
  forall w, spends n m w (snd (c w)).

(** The keys of the dict [extract_key_metrics] builds. *)
Definition metric_keys : list string :=
  ["city"; "country"; "latitude"; "longitude"; "temperature"; "feels_like";
   "temperature_min"; "temperature_max"; "pressure"; "humidity";
   "weather_main"; "weather_description"; "cloudiness"; "wind_speed";
   "wind_direction"; "visibility"; "observation_time"; "api_timestamp"].

End FetchNotions.

(** ** Notions for air-quality metrics *)

Module AirNotions.
Import Py World.

(** The category and colour of an integer AQI, by inclusive bounds. *)
Definition band_of (aqi : Z) : string * string :=
  if aqi <? 0 then ("Unknown", "Gray")
  else if aqi <=? 50 then ("Good", "Green")
  else if aqi <=? 100 then ("Moderate", "Yellow")
  else if aqi <=? 150 then ("Unhealthy for Sensitive Groups", "Orange")
  else if aqi <=? 200 then ("Unhealthy", "Red")
  else if aqi <=? 300 then ("Very Unhealthy", "Purple")
  else if aqi <=? 500 then ("Hazardous", "Maroon")
  else ("Unknown", "Gray").

(** The AQI an observation counts with: its integer 'AQI', 0 when it has
    none. *)
Definition aqi_of (obs : json) : option Z :=
  match obs with
  | JObj o =>
      match dict_get "AQI" o with
      | Some (JInt a) => Some a
      | None => Some 0
      | Some _ => None
      end
  | _ => None
  end.

(** An observation as AirNow sends it: an object whose 'ParameterName',
    if any, is a text and whose 'AQI', if any, is an integer. *)
Definition well_formed (obs : json) : bool :=
  match obs with
  | JObj o =>
      match dict_get "ParameterName" o with
      | Some (JStr _) | None => true
      | Some _ => false
      end
      && match aqi_of obs with Some _ => true | None => false end
  | _ => false
  end.

(** What an observation adds to the list the overall AQI is taken from. *)
Definition counted (obs : json) : Z :=
  match aqi_of obs with Some a => a | None => 0 end.

(** The PM2.5 or ozone observation held by the loop, if any, is an object. *)
Definition found_ok (found : option json) : Prop :=
  match found with Some obs => exists o, obs = JObj o | None => True end.

(** One PM2.5 reading of Chicago. *)
Definition pm25_reading (aqi : Z) : json :=
  JObj [("ParameterName", JStr "PM2.5"); ("AQI", JInt aqi);
        ("ReportingArea", JStr "Chicago"); ("StateCode", JStr "IL")].

Definition ozone_reading (aqi : Z) : json :=
  JObj [("ParameterName", JStr "Ozone"); ("AQI", JInt aqi);
        ("ReportingArea", JStr "Chicago"); ("StateCode", JStr "IL")].

(** AirNow timing out. *)
Definition airnow_down (k : nat) (lat lon : json) : outcome :=
  TimedOut "Read timed out. (read timeout=30)".

End AirNotions.

(** ** Notions for loading a batch *)

Module LoadNotions.
Import Py World WeatherETL StoreNotions.

(** What a stored row never loses: its id, its key and its creation time. *)
Definition identity_of (r : Db.row) : Z * (json * Z) * Z :=
  (Db.id r, Db.key_of r, Db.created_at r).

(** Between [w] and [w'] nothing happened outside the store. *)
Definition only_store (w w' : world) : Prop :=
  clock_reads w' = clock_reads w
  /\ weather_calls w' = weather_calls w
  /\ airnow_calls w' = airnow_calls w
  /\ sleeps w' = sleeps w.

End LoadNotions.

(** ** Notions for what a run spends *)

Module BudgetNotions.
Import Py World WeatherETL.

(** From [w] to [final] a run over [cities] made at most three calls to
    OpenWeatherMap and one to AirNow per city, and opened at most one
    transaction. *)
Definition within_budget (cities : list string) (w final : world) : Prop :=
  (weather_calls final <= weather_calls w + 3 * List.length cities)%nat
  /\ (List.length (airnow_calls final)
      <= List.length (airnow_calls w) + List.length cities)%nat
  /\ (db_txns final <= db_txns w + 1)%nat.

(** A failed fetch of Atlantis. *)
Definition atlantis : dict json :=
  [("error", JStr "Location not found (404)");
   ("api_timestamp", JStr "2023-11-14T22:13:20");
   ("query", JStr "Atlantis")].

(** The record prepared for it at the first tick of the sample clock. *)
Definition atlantis_record : observation :=
  mkObservation (JStr "Atlantis") JNull JNull JNull 1700000000000000
                (json_dumps (JObj atlantis)) None.

End BudgetNotions.

(** ** Notions for issues and their categories *)

Module IssueNotions.
Import Py Transformer.

(** The labels the validator starts its issues with. *)
Definition known_categories : list string :=
  ["Weather API error"; "Missing weather field"; "Temperature out of range";
   "Humidity out of range"; "AQI out of range"; "JSON parsing error";
   "Validation error"].

(** An issue made of one of these labels, a colon and a detail. *)
Definition tagged (issue : string) : Prop :=
  exists label detail, In label known_categories /\ issue = label ++ ": " ++ detail.

(** The number of texts of a list that are [k]. *)
Definition occurrences (k : string) (l : list string) : Z :=
  Z.of_nat (List.length (filter (String.eqb k) l)).

(** The sum of the counts of a dict. *)
Definition total (d : dict Z) : Z := fold_right Z.add 0 (dict_values d).

(** A property of the validation results that every step of the validator
    keeps, given that it is kept by the four writes the validator does. *)
Definition preserves (P : validation_results -> Prop) {A} (c : V A) : Prop :=
  forall s, P s -> P (snd (c s)).

(** Results already marked invalid. *)
Definition fallen (r : validation_results) : Prop := is_valid r = false.

(** A stored row decodes when its weather text is JSON and its air-quality
    text, if it is not empty, is JSON too. *)
Definition decodes (row : Db.row) : bool :=
  match Db.weather_data row with
  | Malformed _ _ => false
  | Encoded _ =>
      match Db.air_quality_data row with
      | Some (Malformed raw _) => String.eqb raw ""
      | _ => true
      end
  end.

End IssueNotions.

(** ** Notions for cleaned payloads *)

Module CleanNotions.
Import Py Transformer.

(** The fields of an object. *)
Definition fields_of (v : json) : dict json :=
  match v with JObj d => d | _ => [] end.

(** The Chicago report after cleaning: 21.37 degrees became 21.4. *)
Definition cleaned_chicago : json :=
  JObj [("coord", JObj [("lon", JFloat (-8765 # 100)); ("lat", JFloat (4185 # 100))]);
        ("weather", JArr [JObj [("main", JStr "Clouds");
                                ("description", JStr "overcast clouds")]]);
        ("main", JObj [("temp", JFloat (107 # 5)); ("humidity", JInt 45)]);
        ("dt", JInt 1700000000);
        ("sys", JObj [("country", JStr "US")]);
        ("name", JStr "Chicago");
        ("cod", JInt 200)].

(** What cleaning may change in an observation: nothing but the values
    under 'AQI' and 'Value'. *)
Definition same_but_rounded (obs cleaned_obs : json) : Prop :=
  forall m, obs = JObj m ->
    exists m', cleaned_obs = JObj m'
               /\ dict_keys m' = dict_keys m
               /\ forall k, k <> "AQI" -> k <> "Value" -> dict_get k m' = dict_get k m.

(** An AirNow payload with one PM2.5 observation. *)
Definition pm25_payload : dict json :=
  [("observations",
    JArr [JObj [("ParameterName", JStr "PM2.5"); ("AQI", JInt 57);
                ("Value", JFloat (12345 # 10000))]]);
   ("api_timestamp", JStr "2023-11-14T22:13:20")].

Definition cleaned_pm25_payload : json :=
  JObj [("observations",
         JArr [JObj [("ParameterName", JStr "PM2.5"); ("AQI", JInt 57);
                     ("Value", JFloat (617 # 500))]]);
        ("api_timestamp", JStr "2023-11-14T22:13:20")].

End CleanNotions.

(** ** Notions for trends *)

Module TrendNotions.
Import Py Transformer.


Definition later_half (values : list Q) : list Q :=
  skipn (Nat.div (List.length values) 2) values.


Definition later_mean (values : list Q) : Q := statistics.mean (later_half values).



(** The doubles nearest to the given decimals. *)
Definition doubles (l : list Q) : list Q := map binary64 l.

End TrendNotions.

(* ================================================================== *)
(** * Properties                                                       *)
(* ================================================================== *)

(** ** Rounding *)

Module RoundingFacts.
Import Py.

Lemma round_half_even_morph (p q : Q) :
  p == q -> round_half_even p = round_half_even q.
Proof.
  intros H. unfold round_half_even.
  rewrite (Qfloor_comp _ _ H).
  assert (Hc : (p - inject_Z (Qfloor q) ?= 1 # 2)%Q
               = (q - inject_Z (Qfloor q) ?= 1 # 2)%Q).
  { apply Qcompare_comp; [rewrite H; reflexivity | reflexivity]. }
  rewrite Hc. reflexivity.
Qed.

Lemma round_half_even_Z (k : Z) : round_half_even (inject_Z k) = k.
Proof.
  unfold round_half_even. rewrite Qfloor_Z.
  assert (H : (inject_Z k - inject_Z k ?= 1 # 2)%Q = Lt).
  { rewrite <- Qlt_alt. lra. }
  rewrite H. reflexivity.
Qed.

Lemma round_half_even_near (q : Q) :
  (Qabs (inject_Z (round_half_even q) - q) <= 1 # 2)%Q.
Proof.
  unfold round_half_even.
  pose proof (Qfloor_le q) as Hlo.
  pose proof (Qlt_floor q) as Hhi.
  rewrite inject_Z_plus in Hhi. change (inject_Z 1) with 1%Q in Hhi.
  destruct (Qcompare_spec (q - inject_Z (Qfloor q)) (1 # 2)) as [He | Hl | Hg].
  - destruct (Z.even (Qfloor q)).
    + apply Qabs_Qle_condition. split; lra.
    + rewrite inject_Z_plus. change (inject_Z 1) with 1%Q.
      apply Qabs_Qle_condition. split; lra.
  - apply Qabs_Qle_condition. split; lra.
  - rewrite inject_Z_plus. change (inject_Z 1) with 1%Q.
    apply Qabs_Qle_condition. split; lra.
Qed.

Lemma round_to_eq (s : positive) (q : Q) :
  (round_to s q
   == inject_Z (round_half_even (q * inject_Z (Zpos s))) / inject_Z (Zpos s))%Q.
Proof.
  unfold round_to. rewrite Qred_correct, Qmake_Qdiv. reflexivity.
Qed.

Lemma round_to_morph (s : positive) (p q : Q) :
  p == q -> round_to s p == round_to s q.
Proof.
  intros H. rewrite !round_to_eq.
  rewrite (round_half_even_morph (p * inject_Z (Zpos s)) (q * inject_Z (Zpos s)));
    [reflexivity | rewrite H; reflexivity].
Qed.

(** Rounding to [n] decimals moves a number by at most half a unit of
    the last kept decimal. *)
Lemma round_to_near (s : positive) (q : Q) :
  (Qabs (round_to s q - q) <= 1 # (2 * s))%Q.
Proof.
  rewrite round_to_eq.
  pose proof (round_half_even_near (q * inject_Z (Zpos s))) as H.
  set (r := round_half_even (q * inject_Z (Z.pos s))) in *.
  assert (Hs : (0 < inject_Z (Zpos s))%Q) by (unfold Qlt; simpl; lia).
  apply Qabs_Qle_condition in H. destruct H as [H1 H2].
  apply Qabs_Qle_condition.
  assert (Hd : (1 # (2 * s) == (1 # 2) / inject_Z (Zpos s))%Q).
  { rewrite (Qmake_Qdiv 1 (2 * s)), (Qmake_Qdiv 1 2).
    rewrite Pos2Z.inj_mul, inject_Z_mult. field. lra. }
  rewrite Hd.
  set (S := inject_Z (Z.pos s)) in *.
  assert (Hr : (inject_Z r / S - q == (inject_Z r - q * S) / S)%Q) by (field; lra).
  rewrite Hr.
  split.
  - assert (Hn : (- ((1 # 2) / S) == (- (1 # 2)) / S)%Q) by (field; lra).
    rewrite Hn. apply Qmult_le_compat_r; [lra|].
    apply Qlt_le_weak, Qinv_lt_0_compat; lra.
  - apply Qmult_le_compat_r; [lra|].
    apply Qlt_le_weak, Qinv_lt_0_compat; lra.
Qed.

(** A number with no more decimals than are kept is left as it is. *)
Lemma round_to_exact (s : positive) (q : Q) (k : Z) :
  q * inject_Z (Zpos s) == inject_Z k -> round_to s q == k # s.
Proof.
  intros H. rewrite round_to_eq.
  rewrite (round_half_even_morph _ _ H), round_half_even_Z.
  rewrite Qmake_Qdiv. reflexivity.
Qed.

End RoundingFacts.

(** ** Doubles *)

Module FloatFacts.
Import Py RoundingFacts.
Local Open Scope Q_scope.

Lemma pow2_pos (e : Z) : 0 < pow2 e.
Proof. apply Qpower_0_lt. reflexivity. Qed.

Lemma pow2_of_Z (k : Z) : (0 <= k)%Z -> pow2 k == inject_Z (2 ^ k).
Proof. intros H. unfold pow2. rewrite Zpower_Qpower by exact H. reflexivity. Qed.

Lemma pow2_plus (a b : Z) : pow2 (a + b) == pow2 a * pow2 b.
Proof. unfold pow2. apply Qpower_plus. discriminate. Qed.

Lemma pow2_opp (a : Z) : pow2 (- a) == / pow2 a.
Proof. unfold pow2. apply Qpower_opp. Qed.

Lemma pow2_le (a b : Z) : (a <= b)%Z -> pow2 a <= pow2 b.
Proof. intros H. unfold pow2. apply Qpower_le_compat_l; [exact H | discriminate]. Qed.

Lemma pow2_lt_inv (a b : Z) : pow2 a < pow2 b -> (a < b)%Z.
Proof.
  intros H. unfold pow2 in H.
  apply (Qpower_lt_compat_l_inv 2); [exact H | reflexivity].
Qed.

Lemma Q_as_fraction (q : Q) : q == inject_Z (Qnum q) / inject_Z (Zpos (Qden q)).
Proof. destruct q as [n d]. cbn [Qnum Qden]. apply Qmake_Qdiv. Qed.

Lemma exponent_of_le (q : Q) : 0 < q -> pow2 (exponent_of q) <= q.
Proof.
  intros Hq. unfold exponent_of.
  set (a := Z.log2 (Qnum q)). set (b := Z.log2 (Zpos (Qden q))).
  destruct (Qle_bool (pow2 (a - b)) q) eqn:Ht.
  - apply Qle_bool_iff. exact Ht.
  - assert (Hn : (0 < Qnum q)%Z).
    { unfold Qlt in Hq. simpl in Hq. lia. }
    assert (Ha : (0 <= a)%Z) by apply Z.log2_nonneg.
    assert (Hb : (0 <= b)%Z) by apply Z.log2_nonneg.
    pose proof (Z.log2_spec (Qnum q) Hn) as [Hlo _]. fold a in Hlo.
    pose proof (Z.log2_spec (Zpos (Qden q)) (Pos2Z.is_pos _)) as [_ Hhi]. fold b in Hhi.
    replace (a - b - 1)%Z with (a + - (b + 1))%Z by lia.
    rewrite pow2_plus, pow2_opp, (pow2_of_Z a Ha), (pow2_of_Z (b + 1)) by lia.
    replace (Z.succ b) with (b + 1)%Z in Hhi by lia.
    rewrite (Q_as_fraction q).
    assert (Hd : 0 < inject_Z (Zpos (Qden q))) by reflexivity.
    assert (Hp : 0 < inject_Z (2 ^ (b + 1))).
    { rewrite <- pow2_of_Z by lia. apply pow2_pos. }
    apply Qle_shift_div_l; [exact Hd |].
    assert (Hstep : inject_Z (2 ^ a) * / inject_Z (2 ^ (b + 1)) * inject_Z (Zpos (Qden q))
                    <= inject_Z (2 ^ a)).
    { assert (Hfrac : / inject_Z (2 ^ (b + 1)) * inject_Z (Zpos (Qden q)) <= 1).
      { setoid_replace (/ inject_Z (2 ^ (b + 1)) * inject_Z (Zpos (Qden q)))
          with (inject_Z (Zpos (Qden q)) / inject_Z (2 ^ (b + 1))) by (field; lra).
        apply Qle_shift_div_r; [exact Hp |].
        rewrite Qmult_1_l. rewrite <- Zle_Qle. lia. }
      assert (H0 : 0 <= inject_Z (2 ^ a)).
      { rewrite <- pow2_of_Z by lia. apply Qlt_le_weak, pow2_pos. }
      rewrite <- Qmult_assoc. nra. }
    eapply Qle_trans; [exact Hstep |]. rewrite <- Zle_Qle. exact Hlo.
Qed.

Lemma exponent_of_below (q : Q) (E : Z) :
  0 < q -> q < pow2 (E + 1) -> (exponent_of q <= E)%Z.
Proof.
  intros Hq Hlt. pose proof (exponent_of_le q Hq) as Hle.
  assert (H : (exponent_of q < E + 1)%Z).
  { apply pow2_lt_inv. eapply Qle_lt_trans; eassumption. }
  lia.
Qed.

Lemma round_half_even_le (q : Q) (K : Z) :
  q <= inject_Z K -> (round_half_even q <= K)%Z.
Proof.
  intros H. unfold round_half_even.
  pose proof (Qfloor_le q) as Hf.
  assert (HfK : (Qfloor q <= K)%Z).
  { rewrite <- (Qfloor_Z K). apply Qfloor_resp_le. exact H. }
  assert (Hstep : 0 < q - inject_Z (Qfloor q) -> (Qfloor q + 1 <= K)%Z).
  { intros Hgt. destruct (Z.eq_dec (Qfloor q) K) as [He | Hne]; [| lia].
    rewrite He in Hgt. lra. }
  destruct (Qcompare_spec (q - inject_Z (Qfloor q)) (1 # 2)) as [He | Hl | Hg].
  - destruct (Z.even (Qfloor q)); [exact HfK |]. apply Hstep. rewrite He. reflexivity.
  - exact HfK.
  - apply Hstep. lra.
Qed.

Lemma round_half_even_nonneg (q : Q) : 0 <= q -> (0 <= round_half_even q)%Z.
Proof.
  intros H. unfold round_half_even.
  assert (Hf : (0 <= Qfloor q)%Z).
  { change 0%Z with (Qfloor 0). apply Qfloor_resp_le. exact H. }
  destruct (Qcompare (q - inject_Z (Qfloor q)) (1 # 2)); [| lia | lia].
  destruct (Z.even (Qfloor q)); lia.
Qed.

Lemma nearest_double_eq (q : Q) :
  nearest_double q
  == inject_Z (round_half_even (q / pow2 (ulp_exponent q))) * pow2 (ulp_exponent q).
Proof. unfold nearest_double. rewrite Qred_correct. reflexivity. Qed.

Lemma nearest_double_nonneg (q : Q) : 0 <= q -> 0 <= nearest_double q.
Proof.
  intros H. rewrite nearest_double_eq.
  pose proof (pow2_pos (ulp_exponent q)) as Hp.
  apply Qmult_le_0_compat; [| lra].
  change 0 with (inject_Z 0). rewrite <- Zle_Qle.
  apply round_half_even_nonneg. apply Qle_shift_div_l; [exact Hp | lra].
Qed.

Lemma nearest_double_le (q : Q) (K : Z) :
  0 < q -> q <= inject_Z K -> q < pow2 53 -> nearest_double q <= inject_Z K.
Proof.
  intros Hq HK Hbig. rewrite nearest_double_eq.
  assert (Hu : (ulp_exponent q <= 0)%Z).
  { unfold ulp_exponent. pose proof (exponent_of_below q 52 Hq Hbig). lia. }
  set (u := ulp_exponent q) in *.
  pose proof (pow2_pos u) as Hp.
  assert (Hinv : / pow2 u == inject_Z (2 ^ (- u))).
  { rewrite <- pow2_of_Z by lia. rewrite pow2_opp. reflexivity. }
  assert (Hr : (round_half_even (q / pow2 u) <= K * 2 ^ (- u))%Z).
  { apply round_half_even_le. rewrite inject_Z_mult, <- Hinv.
    unfold Qdiv. apply Qmult_le_compat_r; [exact HK |].
    apply Qlt_le_weak, Qinv_lt_0_compat. exact Hp. }
  rewrite Zle_Qle, inject_Z_mult, <- Hinv in Hr.
  apply (Qmult_le_compat_r _ _ (pow2 u)) in Hr; [| lra].
  eapply Qle_trans; [exact Hr |].
  assert (He : inject_Z K * / pow2 u * pow2 u == inject_Z K) by (field; lra).
  rewrite He. apply Qle_refl.
Qed.

Lemma nearest_double_near (q : Q) (E : Z) :
  0 < q -> q < pow2 (E + 1) -> (-1074 <= E - 52)%Z ->
  Qabs (nearest_double q - q) <= pow2 (E - 53).
Proof.
  intros Hq Hlt HE. rewrite nearest_double_eq.
  assert (Hu : (ulp_exponent q <= E - 52)%Z).
  { unfold ulp_exponent. pose proof (exponent_of_below q E Hq Hlt). lia. }
  set (u := ulp_exponent q) in *.
  pose proof (pow2_pos u) as Hp.
  pose proof (round_half_even_near (q / pow2 u)) as Hn.
  apply Qabs_Qle_condition in Hn. destruct Hn as [H1 H2].
  assert (Hhalf : (1 # 2) * pow2 u <= pow2 (E - 53)).
  { replace (E - 53)%Z with (-1 + (E - 52))%Z by lia.
    rewrite pow2_plus. change (pow2 (-1)) with (1 # 2).
    apply Qmult_le_l; [reflexivity | apply pow2_le; exact Hu]. }
  set (r := inject_Z (round_half_even (q / pow2 u))) in *.
  assert (Hq' : q == q / pow2 u * pow2 u) by (field; lra).
  set (y := q / pow2 u) in *.
  apply Qabs_Qle_condition. split.
  - apply Qle_trans with (- ((1 # 2) * pow2 u)); [lra |].
    rewrite Hq'. nra.
  - apply Qle_trans with ((1 # 2) * pow2 u); [| exact Hhalf].
    rewrite Hq'. nra.
Qed.

Lemma binary64_of_nonneg (q : Q) :
  0 <= q -> (q == 0 /\ binary64 q = 0) \/ (0 < q /\ binary64 q = nearest_double q).
Proof.
  intros H. unfold binary64. destruct q as [[| p | p] d]; cbn [Qnum].
  - left. split; reflexivity.
  - right. split; reflexivity.
  - exfalso. unfold Qle in H. simpl in H. lia.
Qed.

Lemma binary64_nonneg (q : Q) : 0 <= q -> 0 <= binary64 q.
Proof.
  intros H. destruct (binary64_of_nonneg q H) as [[_ ->] | [Hq ->]]; [apply Qle_refl |].
  apply nearest_double_nonneg. exact H.
Qed.

Lemma binary64_le (q : Q) (K : Z) :
  0 <= q -> q <= inject_Z K -> q < pow2 53 -> binary64 q <= inject_Z K.
Proof.
  intros H HK Hbig. destruct (binary64_of_nonneg q H) as [[Hz ->] | [Hq ->]].
  - rewrite <- Hz. exact HK.
  - apply nearest_double_le; assumption.
Qed.

Lemma binary64_near (q : Q) (E : Z) :
  0 <= q -> q < pow2 (E + 1) -> (-1074 <= E - 52)%Z ->
  Qabs (binary64 q - q) <= pow2 (E - 53).
Proof.
  intros H Hlt HE. destruct (binary64_of_nonneg q H) as [[Hz ->] | [Hq ->]].
  - rewrite Hz. apply Qlt_le_weak, pow2_pos.
  - apply nearest_double_near; assumption.
Qed.

Lemma round_to_le (s : positive) (q : Q) (K : Z) :
  q <= inject_Z K -> round_to s q <= inject_Z K.
Proof.
  intros H. rewrite round_to_eq.
  assert (Hs : 0 < inject_Z (Zpos s)) by reflexivity.
  apply Qle_shift_div_r; [exact Hs |].
  rewrite <- inject_Z_mult, <- Zle_Qle. apply round_half_even_le.
  rewrite inject_Z_mult. apply Qmult_le_compat_r; [exact H | lra].
Qed.

Lemma round_to_nonneg (s : positive) (q : Q) : 0 <= q -> 0 <= round_to s q.
Proof.
  intros H. rewrite round_to_eq.
  assert (Hs : 0 < inject_Z (Zpos s)) by reflexivity.
  apply Qle_shift_div_l; [exact Hs |]. rewrite Qmult_0_l.
  change 0 with (inject_Z 0). rewrite <- Zle_Qle. apply round_half_even_nonneg.
  apply Qmult_le_0_compat; lra.
Qed.

End FloatFacts.

(** ** The quality report *)

Module QualityFacts.
Import Py Transformer RoundingFacts FloatFacts QualityNotions.

Section Report.
Variable repr : json -> string.

Lemma tally_spec (records : list Db.row) (v : Z) (found : list string) :
  tally repr records v found
  = (v + Z.of_nat (List.length (valid_in repr records)),
     (found ++ issues_of_invalid repr records)%list).
Proof.
  revert v found. induction records as [| record rest IH]; intros v found; simpl.
  - rewrite Z.add_0_r, app_nil_r. reflexivity.
  - destruct (is_valid (validate_weather_data repr record)) eqn:Hv; rewrite IH.
    + simpl List.length. f_equal. lia.
    + rewrite <- app_assoc. reflexivity.
Qed.

Lemma quality_score_zero (v : Z) : quality_score v 0 = 0%Q.
Proof. reflexivity. Qed.

Lemma quality_score_pos (v n : Z) :
  0 < n ->
  quality_score v n = float_round 100 (float_mul (int_true_div v n) 100).
Proof.
  intros H. unfold quality_score.
  destruct (0 <? n) eqn:E; [reflexivity | apply Z.ltb_ge in E; lia].
Qed.

End Report.

Local Open Scope Q_scope.

(** The score of [v] valid records among [n > 0], step by step. *)
Lemma quality_score_steps (v n : Z) :
  (0 < n)%Z -> (0 <= v <= n)%Z ->
  let exact := inject_Z v / inject_Z n * 100 in
  0 <= quality_score v n <= 100
  /\ Qabs (quality_score v n - exact) <= (1 # 200) + (1 # 10000000000000).
Proof.
  intros Hn Hv exact. unfold quality_score.
  destruct (Z.ltb_spec 0 n) as [_ | Hc]; [| lia].
  unfold float_round, float_mul, int_true_div.
  set (a := inject_Z v / inject_Z n) in *.
  assert (Hnq : 0 < inject_Z n) by (change 0 with (inject_Z 0); rewrite <- Zlt_Qlt; exact Hn).
  assert (Ha : 0 <= a <= 1).
  { unfold a. split.
    - apply Qle_shift_div_l; [exact Hnq |]. rewrite Qmult_0_l.
      change 0 with (inject_Z 0). rewrite <- Zle_Qle. lia.
    - apply Qle_shift_div_r; [exact Hnq |]. rewrite Qmult_1_l.
      rewrite <- Zle_Qle. lia. }
  set (f1 := binary64 a).
  assert (H1 : 0 <= f1 <= 1 /\ Qabs (f1 - a) <= pow2 (-53)).
  { split; [split |].
    - apply binary64_nonneg. lra.
    - apply (binary64_le a 1); [lra | change (inject_Z 1) with 1; lra |].
      apply Qle_lt_trans with 1; [lra | reflexivity].
    - apply (binary64_near a 0); [lra | | lia].
      apply Qle_lt_trans with 1; [lra | reflexivity]. }
  destruct H1 as [Hf1 Hn1].
  set (p := f1 * 100).
  assert (Hp : 0 <= p <= 100) by (unfold p; lra).
  set (f2 := binary64 p).
  assert (H2 : 0 <= f2 <= 100 /\ Qabs (f2 - p) <= pow2 (-47)).
  { split; [split |].
    - apply binary64_nonneg. lra.
    - apply (binary64_le p 100); [lra | change (inject_Z 100) with 100; lra |].
      apply Qle_lt_trans with 100; [lra | reflexivity].
    - apply (binary64_near p 6); [lra | | lia].
      apply Qle_lt_trans with 100; [lra | reflexivity]. }
  destruct H2 as [Hf2 Hn2].
  set (r := round_to 100 f2).
  assert (Hr : 0 <= r <= 100 /\ Qabs (r - f2) <= 1 # 200).
  { split; [split |].
    - apply round_to_nonneg. lra.
    - apply (round_to_le 100 f2 100). change (inject_Z 100) with 100. lra.
    - apply (round_to_near 100). }
  destruct Hr as [Hr Hnr].
  set (f3 := binary64 r).
  assert (H3 : 0 <= f3 <= 100 /\ Qabs (f3 - r) <= pow2 (-47)).
  { split; [split |].
    - apply binary64_nonneg. lra.
    - apply (binary64_le r 100); [lra | change (inject_Z 100) with 100; lra |].
      apply Qle_lt_trans with 100; [lra | reflexivity].
    - apply (binary64_near r 6); [lra | | lia].
      apply Qle_lt_trans with 100; [lra | reflexivity]. }
  destruct H3 as [Hf3 Hn3].
  split; [exact Hf3 |].
  assert (E53 : pow2 (-53) == 1 # 9007199254740992) by reflexivity.
  assert (E47 : pow2 (-47) == 1 # 140737488355328) by reflexivity.
  rewrite E53 in Hn1. rewrite E47 in Hn2, Hn3.
  apply Qabs_Qle_condition in Hn1, Hn2, Hnr, Hn3.
  apply Qabs_Qle_condition. unfold exact, p in *. split; lra.
Qed.

End QualityFacts.

Module QualityScore.
Import Py Transformer RoundingFacts FloatFacts QualityNotions QualityFacts.

Lemma valid_in_length (repr : json -> string) (records : list Db.row) :
  (List.length (valid_in repr records) <= List.length records)%nat.
Proof. unfold valid_in. apply filter_length_le. Qed.

(** C8, as amended: over n checked records of which v are valid, the
    quality score is v/n x 100 computed in double precision and rounded to
    two decimals.  It lies within 0.005, and a rounding error below
    10^-13, of v/n x 100; it is exactly 80 for 8 valid out of 10; and it is
    0 when n = 0. *)
Theorem quality_score_is_rounded_percentage
        (repr : json -> string) (records : list Db.row) (now_text : string) :
  let n := Z.of_nat (List.length records) in
  let v := Z.of_nat (List.length (valid_in repr records)) in
  exists r,
    run_data_quality_check repr (Ok records) now_text = Report r
    /\ total_records_checked r = n
    /\ valid_records r = v
    /\ invalid_records r = n - v
    /\ (n = 0 -> data_quality_score r = 0%Q)
    /\ (0 < n ->
        data_quality_score r = float_round 100 (float_mul (int_true_div v n) 100)
        /\ (Qabs (data_quality_score r - inject_Z v / inject_Z n * 100)
            <= (1 # 200) + (1 # 10000000000000))%Q
        /\ (v = 8 -> n = 10 -> data_quality_score r == 80)).
Proof.
  intros n v. unfold run_data_quality_check.
  rewrite tally_spec. fold n. fold v. rewrite Z.add_0_l.
  eexists. split; [reflexivity|].
  cbn [total_records_checked valid_records invalid_records data_quality_score].
  repeat split; try reflexivity.
  - intros ->. reflexivity.
  - rewrite quality_score_pos by assumption. reflexivity.
  - apply quality_score_steps; [assumption |].
    pose proof (valid_in_length repr records). unfold n, v. lia.
  - intros Hv Hn. rewrite Hv, Hn. vm_compute. reflexivity.
Qed.

(** C8, as stated, fails: with 1 valid record out of 3 the score is
    33.33, as a double, which is neither 1/3 x 100 nor the double that
    1/3 x 100 evaluates to. *)
Lemma quality_score_not_exact_percentage :
  exists r,
    run_data_quality_check Samples.plain_repr (Ok one_in_three) "" = Report r
    /\ total_records_checked r = 3
    /\ valid_records r = 1
    /\ data_quality_score r == binary64 (3333 # 100)
    /\ ~ (data_quality_score r == inject_Z 1 / inject_Z 3 * 100)
    /\ ~ (data_quality_score r == float_mul (int_true_div 1 3) 100).
Proof.
  eexists. split; [vm_compute; reflexivity|].
  split; [reflexivity |]. split; [reflexivity |].
  split; [vm_compute; reflexivity |].
  split; intros H; vm_compute in H; discriminate H.
Qed.

(** 23 valid records out of 160 score 14.37: the quotient 0.14375 times
    100 is a double just below 14.375. *)
Example quality_score_23_of_160 :
  quality_score 23 160 == binary64 (1437 # 100)
  /\ (float_mul (int_true_div 23 160) 100 < 14375 # 1000)%Q.
Proof. split; vm_compute; reflexivity. Qed.

End QualityScore.

(** ** Trends *)

Module Trend.
Import Py Transformer TrendNotions.






(** The doubles at work: the half-means of [0.0, 0.0, 0.01, 0.02] are 0 and
    a double just below 0.015, so the magnitude is 0.01; and the median of
    [1e308, 1e308] is infinite. *)
Example trends_in_double_precision :
  (exists t,
     _calculate_trend (doubles [0; 0; 1 # 100; 2 # 100]%Q) = Trend t
     /\ (later_mean (doubles [0; 0; 1 # 100; 2 # 100]) < 15 # 1000)%Q
     /\ trend_magnitude t = Finite (binary64 (1 # 100))
     /\ std_dev t = binary64 (1 # 100))
  /\ (exists t,
        _calculate_trend (doubles [inject_Z (10 ^ 308); inject_Z (10 ^ 308)]) = Trend t
        /\ median t = PlusInfinity
        /\ average t = binary64 (inject_Z (10 ^ 308))
        /\ trend_direction t = stable).
Proof.
  split.
  - eexists. split; [vm_compute; reflexivity |]. repeat split; vm_compute; reflexivity.
  - eexists. split; [vm_compute; reflexivity |]. repeat split; vm_compute; reflexivity.
Qed.

End Trend.

(** ** Validation *)

Module ValidationFacts.
Import Py Transformer ValidationNotions.

Lemma keeps_ret {A} (a : A) : keeps_justified (ret a).
Proof. intros s H. exact H. Qed.

Lemma keeps_lift {A} (r : res A) : keeps_justified (lift r).
Proof. intros s H. exact H. Qed.

Lemma keeps_bind {A B} (c : V A) (k : A -> V B) :
  keeps_justified c -> (forall a, keeps_justified (k a)) -> keeps_justified (bind c k).
Proof.
  intros Hc Hk s Hs. unfold bind.
  specialize (Hc s Hs). destruct (c s) as [[a | e] s']; simpl in *.
  - apply Hk. exact Hc.
  - exact Hc.
Qed.

Lemma keeps_append (issue : string) : keeps_justified (append_issue issue).
Proof.
  intros r _ _. simpl. destruct (issues r); discriminate.
Qed.

Lemma keeps_cleaned_weather (cleaned : json) :
  keeps_justified (set_cleaned_weather cleaned).
Proof. intros r H. exact H. Qed.

Lemma keeps_cleaned_aqi (cleaned : json) : keeps_justified (set_cleaned_aqi cleaned).
Proof. intros r H. exact H. Qed.

Lemma keeps_append_invalid (issue : string) :
  keeps_justified (bind (append_issue issue) (fun _ => set_invalid)).
Proof.
  intros r _ _. simpl. destruct (issues r); discriminate.
Qed.

Lemma keeps_each {A} (f : A -> V unit) (l : list A) :
  (forall a, keeps_justified (f a)) -> keeps_justified (each f l).
Proof.
  intros Hf. induction l as [| a l IH]; simpl.
  - apply keeps_ret.
  - apply keeps_bind; [apply Hf | intros _; exact IH].
Qed.

Section Checks.
Variable repr : json -> string.

Lemma keeps_check_range (label suffix : string) (lo hi : Z) (v : json) :
  keeps_justified (check_range repr label suffix lo hi v).
Proof.
  unfold check_range. destruct (negb (is_None v)); [| apply keeps_ret].
  apply keeps_bind; [apply keeps_lift | intros low].
  apply keeps_bind.
  - destruct low; [apply keeps_ret | apply keeps_lift].
  - intros [|]; [apply keeps_append | apply keeps_ret].
Qed.

Lemma keeps_check_required (weather_data : json) (field : string) :
  keeps_justified (check_required weather_data field).
Proof.
  unfold check_required. apply keeps_bind; [apply keeps_lift | intros present].
  destruct (negb present); [apply keeps_append_invalid | apply keeps_ret].
Qed.

Lemma keeps_check_weather (weather_data : json) :
  keeps_justified (check_weather repr weather_data).
Proof.
  unfold check_weather. apply keeps_bind; [apply keeps_lift | intros [|]].
  - apply keeps_bind; [apply keeps_lift | intros cause].
    apply keeps_append_invalid.
  - apply keeps_bind; [apply keeps_each; intros f; apply keeps_check_required |].
    intros _. apply keeps_bind; [apply keeps_lift | intros main_data].
    apply keeps_bind; [apply keeps_lift | intros temp].
    apply keeps_bind; [apply keeps_check_range | intros _].
    apply keeps_bind; [apply keeps_lift | intros humidity].
    apply keeps_check_range.
Qed.

Lemma keeps_check_aqi (aqi_data : json) : keeps_justified (check_aqi repr aqi_data).
Proof.
  unfold check_aqi. destruct (py_truthy aqi_data); [| apply keeps_ret].
  apply keeps_bind; [apply keeps_lift | intros has_error].
  destruct (negb has_error); [| apply keeps_ret].
  apply keeps_bind; [apply keeps_lift | intros observations].
  destruct (py_truthy observations); [| apply keeps_ret].
  apply keeps_bind; [apply keeps_lift | intros items].
  apply keeps_each. intros obs. unfold check_observation.
  apply keeps_bind; [apply keeps_lift | intros a]. apply keeps_check_range.
Qed.

Lemma keeps_validation_body (record : Db.row) :
  keeps_justified (validation_body repr record).
Proof.
  unfold validation_body.
  apply keeps_bind; [apply keeps_lift | intros weather_data].
  apply keeps_bind.
  { destruct (Db.air_quality_data record) as [text |]; [| apply keeps_ret].
    destruct (text_truthy text); [apply keeps_lift | apply keeps_ret]. }
  intros aqi_data.
  apply keeps_bind; [apply keeps_check_weather | intros _].
  apply keeps_bind; [apply keeps_check_aqi | intros _].
  apply keeps_bind; [apply keeps_lift | intros cw].
  apply keeps_bind; [apply keeps_cleaned_weather | intros _].
  apply keeps_bind; [apply keeps_lift | intros ca].
  apply keeps_cleaned_aqi.
Qed.

(** A record marked invalid always carries an issue; put the other way
    round, a record that raised no issue is marked valid. *)
Lemma no_issue_is_valid (record : Db.row) :
  issues (validate_weather_data repr record) = [] ->
  is_valid (validate_weather_data repr record) = true.
Proof.
  unfold validate_weather_data, try_except.
  set (start := mkValidation (Db.id record) (Db.city record) true [] None None).
  assert (Hstart : justified start) by (intros Hc; discriminate Hc).
  pose proof (keeps_validation_body record start Hstart) as H.
  destruct (validation_body repr record start) as [[[] | e] r]; cbn [snd] in *.
  - intros Hnone. destruct (is_valid r) eqn:Hv; [reflexivity |].
    exfalso. exact (H Hv Hnone).
  - pose proof (keeps_append_invalid
                  (if is_JSONDecodeError e
                   then "JSON parsing error: " ++ exn_msg e
                   else "Validation error: " ++ exn_msg e) r H) as Hf.
    unfold validation_failed.
    destruct (bind (append_issue _) (fun _ => set_invalid) r) as [out r'] eqn:Hr.
    cbn [snd] in *. intros Hnone.
    destruct (is_valid r') eqn:Hv; [reflexivity |].
    exfalso. exact (Hf Hv Hnone).
Qed.

End Checks.
End ValidationFacts.

Module Validation.
Import Py Transformer ValidationFacts.

(** C2: the code at the record with humidity = 150.  The only issue is
    "Humidity out of range: 150%", of category "Humidity out of range",
    and the record is nevertheless marked valid; the record with
    humidity = 45 raises no issue and is marked valid; and what does hold
    for every record is one half of the equivalence: no issue, hence
    valid. *)
Theorem humidity_150_is_marked_valid (repr : json -> string) :
  let high := validate_weather_data repr (Samples.stored 1 (Samples.chicago 150) None) in
  let fine := validate_weather_data repr (Samples.stored 2 (Samples.chicago 45) None) in
  issues high = ["Humidity out of range: 150%"]
  /\ map category_of (issues high) = ["Humidity out of range"]
  /\ is_valid high = true
  /\ issues fine = []
  /\ is_valid fine = true
  /\ (forall record,
        issues (validate_weather_data repr record) = [] ->
        is_valid (validate_weather_data repr record) = true).
Proof.
  cbv zeta. repeat split; try (vm_compute; reflexivity).
  intros record. apply no_issue_is_valid.
Qed.

End Validation.

(** ** The AQI series *)

Module AqiFacts.
Import Py Transformer AqiNotions.

Lemma py_get_aqi (obs : json) :
  parameter_observation obs -> py_get obs "AQI" = Ok (aqi_entry obs).
Proof.
  destruct obs; simpl; try contradiction. intros _. reflexivity.
Qed.

Lemma pick_aqi_spec (obs : json) :
  parameter_observation obs ->
  pick_aqi obs = Ok (if py_truthy (aqi_entry obs) then Some (aqi_entry obs) else None).
Proof.
  intros H. unfold pick_aqi. rewrite (py_get_aqi obs H). simpl.
  destruct (py_truthy (aqi_entry obs)); reflexivity.
Qed.

Lemma picks_spec (observations : list json) :
  Forall parameter_observation observations ->
  exists picks,
    rmap pick_aqi observations = Ok picks /\ somes picks = nonzero observations.
Proof.
  induction 1 as [| obs rest Hobs _ IH].
  - exists []. split; reflexivity.
  - destruct IH as [picks [Hp Hs]].
    simpl. rewrite (pick_aqi_spec obs Hobs), Hp. simpl.
    eexists. split; [reflexivity |].
    unfold nonzero in *. simpl.
    destruct (py_truthy (aqi_entry obs)); simpl; rewrite Hs; reflexivity.
Qed.

Lemma nonzero_are_numbers (observations : list json) :
  Forall parameter_observation observations ->
  Forall is_number (nonzero observations).
Proof.
  induction 1 as [| obs rest Hobs _ IH]; [constructor |].
  unfold nonzero in *. simpl.
  destruct (py_truthy (aqi_entry obs)) eqn:Ht; [| exact IH].
  constructor; [| exact IH].
  destruct obs; try (exfalso; exact Hobs).
  destruct Hobs as [Hn | Hn]; [rewrite Hn in Ht; discriminate Ht | exact Hn].
Qed.

Lemma py_gt_numbers (a b : json) :
  is_number a -> is_number b ->
  py_gt a b = Ok (match Qcompare (value a) (value b) with Gt => true | _ => false end).
Proof.
  destruct a; simpl; try contradiction; destruct b; simpl; try contradiction;
    intros _ _; unfold py_gt, value; simpl;
    match goal with |- context [Qcompare ?x ?y] => destruct (Qcompare x y) end;
    reflexivity.
Qed.

(** On numbers [max] returns an item that no item exceeds. *)
Lemma py_max_from_numbers (l : list json) (cur : json) :
  is_number cur -> Forall is_number l ->
  exists m,
    py_max_from cur l = Ok m
    /\ In m (cur :: l)
    /\ forall a, In a (cur :: l) -> (value a <= value m)%Q.
Proof.
  revert cur. induction l as [| x l IH]; intros cur Hcur Hl.
  - exists cur. simpl. split; [reflexivity |]. split; [left; reflexivity |].
    intros a [<- | []]. apply Qle_refl.
  - inversion Hl as [| ? ? Hx Hl']; subst.
    simpl. rewrite (py_gt_numbers x cur Hx Hcur). simpl.
    destruct (Qcompare_spec (value x) (value cur)) as [He | Hlt | Hgt].
    + destruct (IH cur Hcur Hl') as [m [Hm [Hin Hmax]]].
      exists m. split; [exact Hm |]. split.
      * destruct Hin as [<- | Hin]; [left; reflexivity | right; right; exact Hin].
      * intros a [<- | [<- | Ha]].
        -- apply Hmax. left. reflexivity.
        -- rewrite He. apply Hmax. left. reflexivity.
        -- apply Hmax. right. exact Ha.
    + destruct (IH cur Hcur Hl') as [m [Hm [Hin Hmax]]].
      exists m. split; [exact Hm |]. split.
      * destruct Hin as [<- | Hin]; [left; reflexivity | right; right; exact Hin].
      * intros a [<- | [<- | Ha]].
        -- apply Hmax. left. reflexivity.
        -- apply Qle_trans with (value cur); [apply Qlt_le_weak; exact Hlt |].
           apply Hmax. left. reflexivity.
        -- apply Hmax. right. exact Ha.
    + destruct (IH x Hx Hl') as [m [Hm [Hin Hmax]]].
      exists m. split; [exact Hm |]. split.
      * right. exact Hin.
      * intros a [<- | [<- | Ha]].
        -- apply Qle_trans with (value x); [apply Qlt_le_weak; exact Hgt |].
           apply Hmax. left. reflexivity.
        -- apply Hmax. left. reflexivity.
        -- apply Hmax. right. exact Ha.
Qed.

Lemma falsy_number_is_zero (v : json) :
  is_number v -> py_truthy v = false -> value v == 0.
Proof.
  destruct v; simpl; try contradiction; intros _ H; unfold value; simpl.
  - apply negb_false_iff, Z.eqb_eq in H. subst. reflexivity.
  - apply negb_false_iff, Qeq_bool_iff in H. exact H.
Qed.

End AqiFacts.

Module AqiSeries.
Import Py Transformer AqiNotions AqiFacts.
Local Open Scope Q_scope.

Lemma extract_row_aqi (row : Db.row) (acc acc' : series) :
  extract_row row acc = Ok acc' ->
  exists aqi_data o,
    aqi_payload row = Ok aqi_data
    /\ extract_aqi aqi_data = Ok o
    /\ aqi_values acc' = append_some (aqi_values acc) o.
Proof.
  unfold extract_row. fold (aqi_payload row). unfold rbind.
  destruct (json_loads (Db.weather_data row)) as [weather_data | e]; [| discriminate].
  destruct (aqi_payload row) as [aqi_data | e] eqn:Hp; [| discriminate].
  destruct (extract_main weather_data "temp") as [temp | e]; [| discriminate].
  destruct (extract_main weather_data "humidity") as [humidity | e]; [| discriminate].
  destruct (extract_aqi aqi_data) as [o | e] eqn:Ho; [| discriminate].
  intros H. injection H as <-. exists aqi_data, o.
  split; [reflexivity |]. split; [exact Ho | reflexivity].
Qed.

Lemma append_some_length {A} (l : list A) (o : option A) :
  (List.length (append_some l o) <= S (List.length l))%nat.
Proof.
  destruct o; simpl; [rewrite length_app; simpl; lia | lia].
Qed.

Lemma extract_series_aqi_length (rows : list Db.row) (acc acc' : series) :
  extract_series rows acc = Ok acc' ->
  (List.length (aqi_values acc')
   <= List.length (aqi_values acc) + List.length rows)%nat.
Proof.
  revert acc. induction rows as [| row rest IH]; intros acc; simpl.
  - intros H. injection H as <-. lia.
  - destruct (extract_row row acc) as [acc1 | e] eqn:Hrow.
    + intros H. apply IH in H.
      destruct (extract_row_aqi row acc acc1 Hrow) as [aqi_data [o [_ [_ Hv]]]].
      pose proof (append_some_length (aqi_values acc) o) as Hl.
      rewrite <- Hv in Hl. lia.
    + destruct (is_JSONDecodeError e); [| discriminate].
      intros H. apply IH in H. lia.
Qed.

Lemma reported_numbers (observations : list json) (a : json) :
  Forall parameter_observation observations ->
  In a (reported observations) -> is_number a.
Proof.
  intros Hall Ha. unfold reported in Ha.
  apply filter_In in Ha. destruct Ha as [Hin Hnn].
  apply in_map_iff in Hin. destruct Hin as [obs [<- Hobs]].
  rewrite Forall_forall in Hall. specialize (Hall obs Hobs).
  destruct obs; try (exfalso; exact Hall).
  destruct Hall as [Hn | Hn]; [rewrite Hn in Hnn; discriminate Hnn | exact Hn].
Qed.

Lemma nonzero_reported (observations : list json) (a : json) :
  In a (nonzero observations) -> In a (reported observations).
Proof.
  unfold nonzero, reported. rewrite !filter_In. intros [Hin Ht].
  split; [exact Hin |]. destruct a; try reflexivity. discriminate Ht.
Qed.

Lemma reported_nonzero (observations : list json) (a : json) :
  In a (reported observations) -> py_truthy a = true -> In a (nonzero observations).
Proof.
  unfold nonzero, reported. rewrite !filter_In. intros [Hin _] Ht.
  split; assumption.
Qed.

(** C9: an AQI of 0 is lost on the way to the series.  The comprehension
    keeps [obs.get('AQI')] when it is truthy, where the temperature and the
    humidity of the same row are kept when they are not [None].  A record
    whose one observation reports the AQI 0 adds nothing to the AQI series,
    although its humidity of 0 is appended to the humidity series; and a
    record reporting the AQIs -1 and 0 adds -1, which is not the maximum
    across its observations. *)
Theorem zero_aqi_is_dropped :
  let clean_air :=
    JObj [("observations",
           JArr [JObj [("ParameterName", JStr "PM2.5"); ("AQI", JInt 0)]])] in
  let mixed :=
    JObj [("observations", JArr [JObj [("AQI", JInt (-1))]; JObj [("AQI", JInt 0)]])] in
  extract_aqi clean_air = Ok None
  /\ extract_main (Samples.chicago 0) "humidity" = Ok (Some (JInt 0))
  /\ extract_series [Samples.stored 1 (Samples.chicago 0) (Some clean_air)]
                    (mkSeries [] [] [])
     = Ok (mkSeries [JFloat (2137 # 100)] [JInt 0] [])
  /\ extract_aqi mixed = Ok (Some (JInt (-1)))
  /\ value (JInt (-1)) < value (JInt 0).
Proof.
  cbv zeta. repeat split; reflexivity.
Qed.

(** X25: what the AQI step of the trend extraction appends.  Each record
    of the window adds at most one value to the AQI series; for a record
    whose observations are parameter observations that value is the
    maximum over the AQI values that are present and not zero -- the
    maximum AQI across all of the record's observations whenever no AQI is
    negative -- and a record whose observation list is empty, or reports
    only zero or absent AQIs, adds nothing. *)
Theorem worst_nonzero_aqi_per_record :
  (forall row acc acc',
     extract_row row acc = Ok acc' ->
     exists aqi_data o,
       aqi_payload row = Ok aqi_data
       /\ extract_aqi aqi_data = Ok o
       /\ aqi_values acc' = append_some (aqi_values acc) o)
  /\ (forall rows acc acc',
        extract_series rows acc = Ok acc' ->
        (List.length (aqi_values acc')
         <= List.length (aqi_values acc) + List.length rows)%nat)
  /\ (forall d observations,
        dict_get "observations" d = Some (JArr observations) ->
        Forall parameter_observation observations ->
        exists o,
          extract_aqi (JObj d) = Ok o
          /\ match o with
             | Some m =>
                 In m (nonzero observations)
                 /\ (forall a, In a (nonzero observations) -> value a <= value m)
                 /\ ((forall a, In a (reported observations) -> 0 <= value a) ->
                     forall a, In a (reported observations) -> value a <= value m)
             | None =>
                 nonzero observations = []
                 /\ forall a, In a (reported observations) -> value a == 0
             end)
  /\ (forall d,
        dict_get "observations" d = Some (JArr []) ->
        extract_aqi (JObj d) = Ok None).
Proof.
  split; [exact extract_row_aqi |].
  split; [exact extract_series_aqi_length |].
  split.
  - intros d observations Hd Hall.
    assert (Htruthy : py_truthy (JObj d) = true)
      by (destruct d; [discriminate Hd | reflexivity]).
    unfold extract_aqi. rewrite Htruthy.
    cbn [py_in rbind]. unfold dict_has. rewrite Hd.
    unfold aqi_list_of. cbn [py_item rbind]. rewrite Hd. cbn [py_iter rbind].
    destruct (picks_spec observations Hall) as [picks [Hp Hs]].
    rewrite Hp. cbn [rbind]. rewrite Hs.
    pose proof (nonzero_are_numbers observations Hall) as Hnum.
    destruct (nonzero observations) as [| x l] eqn:Hnz.
    + exists None. split; [reflexivity |]. split; [reflexivity |].
      intros a Ha.
      apply falsy_number_is_zero; [exact (reported_numbers _ _ Hall Ha) |].
      destruct (py_truthy a) eqn:Ht; [| reflexivity].
      pose proof (reported_nonzero _ _ Ha Ht) as Hin. rewrite Hnz in Hin.
      destruct Hin.
    + inversion Hnum as [| ? ? Hx Hl]; subst.
      destruct (py_max_from_numbers l x Hx Hl) as [m [Hm [Hin Hmax]]].
      exists (Some m). unfold py_max. rewrite Hm. cbn [rbind].
      split; [reflexivity |]. split; [exact Hin |]. split; [exact Hmax |].
      intros Hpos a Ha.
      destruct (py_truthy a) eqn:Ht.
      * apply Hmax. rewrite <- Hnz. apply reported_nonzero; assumption.
      * rewrite (falsy_number_is_zero a (reported_numbers _ _ Hall Ha) Ht).
        apply Hpos. apply nonzero_reported. rewrite Hnz. exact Hin.
  - intros d Hd.
    assert (Htruthy : py_truthy (JObj d) = true)
      by (destruct d; [discriminate Hd | reflexivity]).
    unfold extract_aqi. rewrite Htruthy.
    cbn [py_in rbind]. unfold dict_has. rewrite Hd.
    unfold aqi_list_of. cbn [py_item rbind]. rewrite Hd. reflexivity.
Qed.

Lemma worst_nonzero_aqi_per_record_witness :
  dict_get "observations" [("observations", JArr three_parameters)]
  = Some (JArr three_parameters)
  /\ Forall parameter_observation three_parameters
  /\ exists o,
       extract_aqi (JObj [("observations", JArr three_parameters)]) = Ok o
       /\ match o with
          | Some m =>
              In m (nonzero three_parameters)
              /\ (forall a, In a (nonzero three_parameters) -> value a <= value m)
              /\ ((forall a, In a (reported three_parameters) -> 0 <= value a) ->
                  forall a, In a (reported three_parameters) -> value a <= value m)
          | None =>
              nonzero three_parameters = []
              /\ forall a, In a (reported three_parameters) -> value a == 0
          end.
Proof.
  assert (Hd : dict_get "observations" [("observations", JArr three_parameters)]
               = Some (JArr three_parameters)) by reflexivity.
  assert (Hall : Forall parameter_observation three_parameters).
  { repeat constructor; right; exact I. }
  split; [exact Hd |]. split; [exact Hall |].
  exact (proj1 (proj2 (proj2 worst_nonzero_aqi_per_record)) _ _ Hd Hall).
Defined.

End AqiSeries.

(** ** Equality of stored values *)

Module JsonFacts.
Import Py.

Lemma json_induction (P : json -> Prop) :
  P JNull ->
  (forall b, P (JBool b)) ->
  (forall z, P (JInt z)) ->
  (forall q, P (JFloat q)) ->
  (forall s, P (JStr s)) ->
  (forall l, Forall P l -> P (JArr l)) ->
  (forall d, Forall (fun kv => P (snd kv)) d -> P (JObj d)) ->
  forall j, P j.
Proof.
  intros Hnull Hbool Hint Hfloat Hstr Harr Hobj.
  fix self 1. intros [| b | z | q | s | l | d].
  - exact Hnull.
  - apply Hbool.
  - apply Hint.
  - apply Hfloat.
  - apply Hstr.
  - apply Harr. revert l. fix items 1. intros [| x l].
    + constructor.
    + constructor; [apply self | apply items].
  - apply Hobj. revert d. fix items 1. intros [| kv d].
    + constructor.
    + constructor; [apply self | apply items].
Qed.

Lemma Q_eqb_eq (p q : Q) : Q_eqb p q = true <-> p = q.
Proof.
  unfold Q_eqb. rewrite andb_true_iff, Z.eqb_eq, Pos.eqb_eq.
  destruct p as [a b], q as [c d]; simpl. split.
  - intros [-> ->]. reflexivity.
  - intros H. injection H as -> ->. split; reflexivity.
Qed.

Lemma json_eqb_eq (a b : json) : json_eqb a b = true <-> a = b.
Proof.
  revert b. induction a as [| x | x | x | x | l IH | d IH] using json_induction;
    intros b; destruct b as [| y | y | y | y | m | e]; simpl;
    try (split; intros H; discriminate H).
  - split; reflexivity.
  - rewrite Bool.eqb_true_iff. split; [intros -> | intros H; injection H as ->]; reflexivity.
  - rewrite Z.eqb_eq. split; [intros -> | intros H; injection H as ->]; reflexivity.
  - rewrite Q_eqb_eq. split; [intros -> | intros H; injection H as ->]; reflexivity.
  - rewrite String.eqb_eq. split; [intros -> | intros H; injection H as ->]; reflexivity.
  - revert m. induction IH as [| x l Hx _ IHl]; intros m; destruct m as [| y m];
      try (split; intros H; discriminate H).
    + split; reflexivity.
    + rewrite andb_true_iff, Hx, IHl. split.
      * intros [-> H]. injection H as ->. reflexivity.
      * intros H. injection H as -> ->. split; reflexivity.
  - revert e. induction IH as [| [k x] d Hx _ IHd]; intros e; destruct e as [| [k' y] e];
      try (split; intros H; discriminate H).
    + split; reflexivity.
    + simpl in Hx. rewrite !andb_true_iff, String.eqb_eq, Hx, IHd. split.
      * intros [[-> ->] H]. injection H as ->. reflexivity.
      * intros H. injection H as -> -> ->. repeat split; reflexivity.
Qed.

Lemma json_eqb_refl (a : json) : json_eqb a a = true.
Proof. apply json_eqb_eq. reflexivity. Qed.

End JsonFacts.

(** ** The upsert *)

Module Store.
Import Py World WeatherETL StoreNotions JsonFacts.

Import Db (key_of).

Lemma has_key_iff (k : json * Z) (r : Db.row) : has_key k r = true <-> k = key_of r.
Proof.
  unfold has_key, key_of. rewrite andb_true_iff, json_eqb_eq, Z.eqb_eq.
  destruct k as [c t]. simpl. split.
  - intros [-> ->]. reflexivity.
  - intros H. injection H as -> ->. split; reflexivity.
Qed.

Lemma same_key_has_key (o : observation) (r : Db.row) :
  same_key o r = has_key (natural_key o) r.
Proof. reflexivity. Qed.

Lemma upsert_keys (ts new_id : Z) (o : observation) (t : Db.table) :
  map key_of (upsert ts new_id o t)
  = if existsb (same_key o) t then map key_of t
    else (map key_of t ++ [natural_key o])%list.
Proof.
  induction t as [| r t IH]; simpl; [reflexivity |].
  destruct (same_key o r) eqn:Hk; simpl; [reflexivity |].
  rewrite IH. destruct (existsb (same_key o) t); reflexivity.
Qed.

Lemma absent_key (o : observation) (t : Db.table) :
  existsb (same_key o) t = false -> ~ In (natural_key o) (map key_of t).
Proof.
  intros Hex Hin. apply in_map_iff in Hin. destruct Hin as [r [Hr Hin]].
  assert (Htrue : existsb (same_key o) t = true).
  { apply existsb_exists. exists r. split; [exact Hin |].
    rewrite same_key_has_key. apply has_key_iff. symmetry. exact Hr. }
  congruence.
Qed.

Lemma NoDup_snoc {A} (l : list A) (a : A) : NoDup l -> ~ In a l -> NoDup (l ++ [a]).
Proof.
  induction 1 as [| x l Hx Hl IH]; intros Ha; simpl.
  - constructor; [intros [] | constructor].
  - constructor.
    + intros Hin. apply in_app_or in Hin. destruct Hin as [Hin | [<- | []]].
      * exact (Hx Hin).
      * apply Ha. left. reflexivity.
    + apply IH. intros Hin. apply Ha. right. exact Hin.
Qed.

(** On the table [init_db] sets up no index can arbitrate the conflict
    target: the one index on (city, observation_time) is not unique. *)
Lemma init_db_has_no_arbiter :
  Db.arbiter Db.init_db_indexes conflict_target = None.
Proof. reflexivity. Qed.

Lemma load_without_arbiter (E : Env) (o : observation) (rest : list observation)
      (w : world) :
  Db.arbiter (db_indexes E) conflict_target = None ->
  exists e w',
    load_observations_to_db E (o :: rest) w = (Raise e, w')
    /\ exn_cls e = DatabaseError
    /\ table w' = table w.
Proof.
  intros Hnone. unfold load_observations_to_db, Db.conflict_fault. rewrite Hnone.
  destruct (db_fault E (db_txns w)) as [msg |];
    eexists; eexists; (split; [reflexivity |]); split; reflexivity.
Qed.

(** C1: on the table [init_db] creates, the upsert keeps no row at all.
    The index over (city, observation_time) is not unique, so the conflict
    target has no arbiter and every batch that is not empty is rejected and
    rolled back.  Chicago's record written twice with different payloads,
    into an empty table and with the store up, raises twice and leaves no
    row under its key, where the claim asks for exactly one row carrying
    the second payload. *)
Theorem upsert_finds_no_unique_index :
  Db.arbiter Db.init_db_indexes conflict_target = None
  /\ (forall (E : Env) (o : observation) (rest : list observation) (w : world),
        db_indexes E = Db.init_db_indexes ->
        exists e w',
          load_observations_to_db E (o :: rest) w = (Raise e, w')
          /\ exn_cls e = DatabaseError
          /\ table w' = table w)
  /\ (let E := Samples.env_on Db.init_db_indexes Samples.weather_ok Samples.airnow_ok
                              Samples.store_up in
      let rejected :=
        Raise (mkExn DatabaseError
                 "there is no unique or exclusion constraint matching the ON CONFLICT specification") in
      let first := load_observations_to_db E [first_write] Samples.fresh in
      let second := load_observations_to_db E [second_write] (snd first) in
      natural_key first_write = natural_key second_write
      /\ fst first = rejected
      /\ fst second = rejected
      /\ rows_with (natural_key second_write) (table (snd second)) = []).
Proof.
  split; [exact init_db_has_no_arbiter |]. split.
  - intros E o rest w Hschema. apply load_without_arbiter.
    rewrite Hschema. exact init_db_has_no_arbiter.
  - cbv zeta. repeat split; reflexivity.
Qed.

(** With a unique index over the two columns in place, the same two
    writes leave one row under the key: the row the first write inserted,
    updated with the second payload at the time of the second write. *)
Example keyed_table_keeps_one_row :
  let E := Samples.env Samples.weather_ok Samples.airnow_ok Samples.store_up in
  let first := load_observations_to_db E [first_write] Samples.fresh in
  let second := load_observations_to_db E [second_write] (snd first) in
  fst first = Ok 1
  /\ fst second = Ok 1
  /\ rows_with (natural_key second_write) (table (snd second))
     = [updated 1700000001000000 second_write
                (inserted 1700000000000000 1 first_write)]
  /\ List.length (table (snd second)) = 1%nat.
Proof. cbv zeta. repeat split; reflexivity. Qed.

End Store.

(** ** Retries *)

Module Retry.
Import Py World WeatherClient RetryNotions.

Section Attempts.
Variable E : Env.
Variable query : string.

Lemma failed_attempt (retries todo : nat) (w : world) :
  let o := openweather E (weather_calls w) query in
  let attempt := (retries - S todo)%nat in
  retryable o ->
  attempts E query retries (S todo) w
  = if negb (is_rate_limit o) && Nat.eqb attempt (retries - 1)
    then (Raise (own_error o), called w)
    else attempts E query retries todo (after_failure o attempt w).
Proof.
  intros o attempt Hr. subst o.
  cbn [attempts]. fold attempt.
  unfold attempt_body, bind, get_openweather, after_failure.
  fold (called w).
  inversion Hr as [msg Ho | b err Ho | status b err Hs Ho]; cbn.
  - destruct (Nat.eqb attempt (retries - 1)); reflexivity.
  - reflexivity.
  - assert (H1 : (status =? 401) = false) by (apply Z.eqb_neq; lia).
    assert (H2 : (status =? 404) = false) by (apply Z.eqb_neq; lia).
    assert (H3 : (status =? 429) = false) by (apply Z.eqb_neq; lia).
    assert (H4 : is_error_status status = true).
    { unfold is_error_status. apply andb_true_iff. split;
        [apply Z.leb_le | apply Z.ltb_lt]; lia. }
    rewrite H1, H2, H3, H4. cbn.
    destruct (Nat.eqb attempt (retries - 1)); reflexivity.
Qed.

Lemma weather_calls_after_failure (o : outcome) (attempt : nat) (w : world) :
  weather_calls (after_failure o attempt w) = S (weather_calls w).
Proof. unfold after_failure. destruct (is_rate_limit o); reflexivity. Qed.

(** Three retryable failures in a row: the request ends after the third
    attempt with the error of that attempt. *)
Lemma three_failures (w : world) :
  let k := weather_calls w in
  let o1 := openweather E k query in
  let o2 := openweather E (S k) query in
  let o3 := openweather E (S (S k)) query in
  retryable o1 -> retryable o2 -> retryable o3 ->
  _make_request E query 3 w
  = (Raise (terminal_error o3),
     after_failure o3 2 (after_failure o2 1 (after_failure o1 0 w))).
Proof.
  intros k o1 o2 o3 H1 H2 H3. unfold _make_request.
  rewrite failed_attempt by exact H1.
  replace (Nat.eqb (3 - 1) (3 - 1)) with true by reflexivity.
  change (Nat.eqb (3 - 3) (3 - 1)) with false. rewrite andb_false_r.
  fold k. fold o1. change (3 - 3)%nat with 0%nat.
  set (w1 := after_failure o1 0 w).
  assert (Hk1 : weather_calls w1 = S k) by apply weather_calls_after_failure.
  rewrite failed_attempt by (rewrite Hk1; exact H2).
  change (Nat.eqb (3 - 2) (3 - 1)) with false. rewrite andb_false_r.
  rewrite Hk1. fold o2. change (3 - 2)%nat with 1%nat.
  set (w2 := after_failure o2 1 w1).
  assert (Hk2 : weather_calls w2 = S (S k))
    by (unfold w2; rewrite weather_calls_after_failure, Hk1; reflexivity).
  rewrite failed_attempt by (rewrite Hk2; exact H3).
  change (Nat.eqb (3 - 1) (3 - 1)) with true. rewrite andb_true_r.
  rewrite Hk2. fold o3. change (3 - 1)%nat with 2%nat.
  unfold terminal_error, after_failure.
  destruct (is_rate_limit o3); reflexivity.
Qed.

End Attempts.

(** C3, as amended: when each of the 3 attempts fails with a retryable
    failure, the request makes exactly those 3 attempts and ends with a
    terminal error -- "Max retries exceeded" when the last attempt was a
    rate-limit answer, otherwise the last attempt's own timeout or HTTP
    error -- and [get_current_weather_by_city] returns that error in its
    envelope without a further attempt. *)
Theorem three_failures_are_terminal
        (E : Env) (city : string) (country_code : option string) (w : world) :
  let query := query_for city country_code in
  let k := weather_calls w in
  let o3 := openweather E (S (S k)) query in
  retryable (openweather E k query) ->
  retryable (openweather E (S k) query) ->
  retryable o3 ->
  (exists w1,
     _make_request E query 3 w = (Raise (terminal_error o3), w1)
     /\ weather_calls w1 = (k + 3)%nat)
  /\ (exists w2 ts,
        get_current_weather_by_city E city country_code w
        = (Ok (JObj [("error", JStr (exn_msg (terminal_error o3)));
                     ("api_timestamp", JStr ts);
                     ("query", JStr query)]), w2)
        /\ weather_calls w2 = (k + 3)%nat)
  /\ (is_rate_limit o3 = true ->
      exn_msg (terminal_error o3) = "Max retries exceeded")
  /\ (is_rate_limit o3 = false -> terminal_error o3 = own_error o3).
Proof.
  intros query k o3 H1 H2 H3.
  pose proof (three_failures E query w H1 H2 H3) as Hreq.
  fold k in Hreq. fold o3 in Hreq.
  set (w1 := after_failure o3 2 _) in Hreq.
  assert (Hcalls : weather_calls w1 = (k + 3)%nat).
  { unfold w1. rewrite !weather_calls_after_failure. fold k. lia. }
  split; [exists w1; split; assumption |].
  split.
  - unfold get_current_weather_by_city. fold query.
    unfold try_except, bind at 1. rewrite Hreq.
    unfold error_envelope, now_iso, bind, now, ret.
    eexists. eexists. split; [reflexivity |]. exact Hcalls.
  - split; unfold terminal_error; intros ->; reflexivity.
Qed.

Lemma three_failures_are_terminal_witness :
  let E := Samples.env Samples.weather_down Samples.airnow_ok Samples.store_up in
  let o := TimedOut "Read timed out. (read timeout=30)" in
  retryable o /\ retryable o /\ retryable o
  /\ exists w2 ts,
       get_current_weather_by_city E "Chicago" (Some "US") Samples.fresh
       = (Ok (JObj [("error", JStr (exn_msg (terminal_error o)));
                    ("api_timestamp", JStr ts);
                    ("query", JStr "Chicago,US")]), w2)
       /\ weather_calls w2 = 3%nat.
Proof.
  cbv zeta.
  assert (H : retryable (TimedOut "Read timed out. (read timeout=30)"))
    by constructor.
  split; [exact H |]. split; [exact H |]. split; [exact H |].
  exact (proj1 (proj2 (three_failures_are_terminal
                         (Samples.env Samples.weather_down Samples.airnow_ok
                                      Samples.store_up)
                         "Chicago" (Some "US") Samples.fresh H H H))).
Defined.

(** C3, as stated, fails: three timeouts end the request with the
    timeout's own message, not with "Max retries exceeded". *)
Lemma three_timeouts_are_not_max_retries :
  let E := Samples.env Samples.weather_down Samples.airnow_ok Samples.store_up in
  retryable (openweather E 0 "Chicago")
  /\ retryable (openweather E 1 "Chicago")
  /\ retryable (openweather E 2 "Chicago")
  /\ exists w1 w2 ts cause,
       _make_request E "Chicago" 3 Samples.fresh
       = (Raise (mkExn Timeout cause), w1)
       /\ get_current_weather_by_city E "Chicago" None Samples.fresh
          = (Ok (JObj [("error", JStr cause);
                       ("api_timestamp", JStr ts);
                       ("query", JStr "Chicago")]), w2)
       /\ weather_calls w2 = 3%nat
       /\ cause <> "Max retries exceeded".
Proof.
  cbv zeta. split; [constructor |]. split; [constructor |]. split; [constructor |].
  eexists. eexists. eexists. eexists.
  split; [vm_compute; reflexivity |].
  split; [vm_compute; reflexivity |].
  split; [reflexivity | discriminate].
Qed.

End Retry.

(** ** Dicts *)

Module DictFacts.
Import Py.

Lemma dict_get_set_same {V} (k : string) (v : V) (d : dict V) :
  dict_get k (dict_set k v d) = Some v.
Proof.
  induction d as [| [k' v'] d IH]; simpl.
  - rewrite String.eqb_refl. reflexivity.
  - destruct (String.eqb k k') eqn:E; simpl; rewrite E; [reflexivity | exact IH].
Qed.

Lemma dict_get_set_other {V} (k k' : string) (v : V) (d : dict V) :
  k <> k' -> dict_get k (dict_set k' v d) = dict_get k d.
Proof.
  intros Hne. induction d as [| [k0 v0] d IH]; simpl.
  - destruct (String.eqb k k') eqn:E; [apply String.eqb_eq in E; contradiction | reflexivity].
  - destruct (String.eqb k' k0) eqn:E0; simpl.
    + apply String.eqb_eq in E0. subst k0.
      destruct (String.eqb k k') eqn:E; [apply String.eqb_eq in E; contradiction | reflexivity].
    + destruct (String.eqb k k0); [reflexivity | exact IH].
Qed.

Lemma dict_get_in_keys {V} (k : string) (d : dict V) :
  In k (dict_keys d) <-> dict_get k d <> None.
Proof.
  induction d as [| [k' v'] d IH]; simpl.
  - split; [intros [] | intros H; apply H; reflexivity].
  - destruct (String.eqb k k') eqn:E.
    + apply String.eqb_eq in E. subst. split; [intros _; discriminate | intros _; left; reflexivity].
    + apply String.eqb_neq in E. rewrite <- IH. split.
      * intros [H | H]; [symmetry in H; contradiction | exact H].
      * intros H. right. exact H.
Qed.

(** Assigning to a key keeps the keys, or adds the new key at the end. *)
Lemma dict_keys_set {V} (k : string) (v : V) (d : dict V) :
  dict_keys (dict_set k v d)
  = if dict_has k d then dict_keys d else (dict_keys d ++ [k])%list.
Proof.
  unfold dict_has. induction d as [| [k' v'] d IH]; simpl.
  - reflexivity.
  - destruct (String.eqb k k') eqn:E; simpl; [reflexivity |].
    rewrite IH. destruct (dict_get k d); reflexivity.
Qed.

Lemma dict_has_in_keys {V} (k : string) (d : dict V) :
  dict_has k d = true <-> In k (dict_keys d).
Proof.
  rewrite dict_get_in_keys. unfold dict_has.
  destruct (dict_get k d); split; intros H; try reflexivity; try discriminate.
  exfalso. apply H. reflexivity.
Qed.

End DictFacts.

(** ** Failures of the weather client *)

Module Envelopes.
Import Py World WeatherClient EnvelopeNotions DictFacts.

Section Client.
Variable E : Env.

Lemma error_envelope_returns (e : exn) (query : string) (w : world) :
  error_envelope E e query w
  = (Ok (JObj [("error", JStr (exn_msg e));
               ("api_timestamp", JStr (isoformat E (utcnow E (clock_reads w))));
               ("query", JStr query)]),
     snd (now E w)).
Proof. reflexivity. Qed.

Lemma fetch_returns (city : string) (country_code : option string) (w : world) :
  exists j w',
    get_current_weather_by_city E city country_code w = (Ok j, w')
    /\ (envelope_for (query_for city country_code) j
        \/ reading_for (query_for city country_code) j).
Proof.
  unfold get_current_weather_by_city.
  set (query := query_for city country_code).
  unfold try_except, bind at 1.
  destruct (_make_request E query 3 w) as [[data | e] w1].
  - destruct data as [| b | z | q | s | l | d];
      try (cbn; eexists; eexists; split;
           [reflexivity | left; eexists; eexists; reflexivity]).
    unfold bind, lift. cbn [py_get py_get_default].
    destruct (negb (py_eq match dict_get "cod" d with
                          | Some x => x
                          | None => JNull
                          end (JInt 200))).
    + cbn. eexists. eexists.
      split; [reflexivity | left; eexists; eexists; reflexivity].
    + cbn. eexists. eexists. split; [reflexivity |].
      right. eexists. eexists. split; [reflexivity |]. split.
      * rewrite dict_get_set_other by discriminate. apply dict_get_set_same.
      * apply dict_get_set_same.
  - rewrite error_envelope_returns. eexists. eexists.
    split; [reflexivity | left; eexists; eexists; reflexivity].
Qed.

Lemma failed_request_is_enveloped (city : string) (country_code : option string)
      (w w1 : world) (e : exn) :
  _make_request E (query_for city country_code) 3 w = (Raise e, w1) ->
  get_current_weather_by_city E city country_code w
  = (Ok (JObj [("error", JStr (exn_msg e));
               ("api_timestamp", JStr (isoformat E (utcnow E (clock_reads w1))));
               ("query", JStr (query_for city country_code))]),
     snd (now E w1)).
Proof.
  intros H. unfold get_current_weather_by_city, try_except, bind at 1.
  rewrite H. apply error_envelope_returns.
Qed.

Lemma extract_returns (d : dict json) :
  extract_key_metrics E (JObj d)
  = Ok (if dict_has "error" d then JObj d
        else match key_metrics E (JObj d) with
             | Ok metrics => metrics
             | Raise e =>
                 JObj [("error", JStr ("Failed to parse weather data: " ++ exn_msg e))]
             end).
Proof.
  unfold extract_key_metrics. cbn [py_in rbind].
  destruct (dict_has "error" d); [reflexivity |].
  destruct (key_metrics E (JObj d)); reflexivity.
Qed.

End Client.

(** C4, as amended: the weather client never raises for an ordinary
    failure.  A fetch returns either the reading or an envelope carrying
    the cause, the capture timestamp and the query that failed -- for every
    exception of the request, that exception's text; a parsing irregularity
    during metric extraction returns an envelope carrying the cause
    alone. *)
Theorem failures_are_enveloped (E : Env) :
  (forall city country_code w,
     exists j w',
       get_current_weather_by_city E city country_code w = (Ok j, w')
       /\ (envelope_for (query_for city country_code) j
           \/ reading_for (query_for city country_code) j))
  /\ (forall city country_code w w1 e,
        _make_request E (query_for city country_code) 3 w = (Raise e, w1) ->
        get_current_weather_by_city E city country_code w
        = (Ok (JObj [("error", JStr (exn_msg e));
                     ("api_timestamp", JStr (isoformat E (utcnow E (clock_reads w1))));
                     ("query", JStr (query_for city country_code))]),
           snd (now E w1)))
  /\ (forall d,
        exists j,
          extract_key_metrics E (JObj d) = Ok j
          /\ (dict_has "error" d = false ->
              forall e, key_metrics E (JObj d) = Raise e ->
                        j = JObj [("error",
                                   JStr ("Failed to parse weather data: " ++ exn_msg e))])).
Proof.
  split; [apply fetch_returns |].
  split; [apply failed_request_is_enveloped |].
  intros d. eexists. split; [apply extract_returns |].
  intros Hno e He. rewrite Hno, He. reflexivity.
Qed.

Lemma failures_are_enveloped_witness :
  let E := Samples.env Samples.weather_down Samples.airnow_ok Samples.store_up in
  exists w1 e,
    _make_request E (query_for "Chicago" None) 3 Samples.fresh = (Raise e, w1)
    /\ get_current_weather_by_city E "Chicago" None Samples.fresh
       = (Ok (JObj [("error", JStr (exn_msg e));
                    ("api_timestamp", JStr (isoformat E (utcnow E (clock_reads w1))));
                    ("query", JStr (query_for "Chicago" None))]),
          snd (now E w1)).
Proof.
  cbv zeta. eexists. eexists.
  assert (H : _make_request
                (Samples.env Samples.weather_down Samples.airnow_ok Samples.store_up)
                (query_for "Chicago" None) 3 Samples.fresh
              = (Raise (mkExn Timeout "Read timed out. (read timeout=30)"),
                 mkWorld 0 3 [] [] 0 [] 1)) by reflexivity.
  split; [exact H |].
  exact (proj1 (proj2 (failures_are_enveloped _)) "Chicago" None _ _ _ H).
Defined.

(** C4, as stated, fails: an answer whose weather list is empty makes the
    extraction return an envelope with the cause only, although the answer
    itself carried the query and the fetch timestamp. *)
Lemma parse_envelope_has_cause_only :
  let E := Samples.env Samples.weather_ok Samples.airnow_ok Samples.store_up in
  let answer := JObj [("weather", JArr []);
                      ("api_timestamp", JStr "2023-11-14T22:13:20");
                      ("query", JStr "Chicago")] in
  exists d,
    extract_key_metrics E answer = Ok (JObj d)
    /\ dict_get "error" d
       = Some (JStr "Failed to parse weather data: list index out of range")
    /\ dict_get "query" d = None
    /\ dict_get "api_timestamp" d = None.
Proof.
  cbv zeta. eexists. split; [vm_compute; reflexivity |].
  repeat split; reflexivity.
Qed.

End Envelopes.

(** ** The pipeline run *)

Module EtlFacts.
Import Py World WeatherETL RunNotions DictFacts.

Lemma objects_set (k : string) (v : json) (d : dict json) :
  is_object v -> objects d -> objects (dict_set k v d).
Proof.
  intros Hv. induction 1 as [| [k' v'] d Hkv Hd IH]; simpl.
  - repeat constructor. exact Hv.
  - destruct (String.eqb k k'); constructor; try assumption.
Qed.

Lemma dict_has_existsb {V} (k : string) (d : dict V) :
  dict_has k d = existsb (String.eqb k) (dict_keys d).
Proof.
  unfold dict_has. induction d as [| [k' v'] d IH]; simpl; [reflexivity |].
  destruct (String.eqb k k'); [reflexivity | exact IH].
Qed.

Lemma dict_set_new_key {V} (k : string) (v : V) (d : dict V) :
  ~ In k (dict_keys d) -> dict_keys (dict_set k v d) = (dict_keys d ++ [k])%list.
Proof.
  intros Hn. rewrite dict_keys_set.
  destruct (dict_has k d) eqn:Hh; [| reflexivity].
  apply dict_has_in_keys in Hh. contradiction.
Qed.

Lemma dict_set_length_new {V} (k : string) (v : V) (d : dict V) :
  List.length (dict_keys (dict_set k v d)) = List.length (dict_set k v d).
Proof. unfold dict_keys. apply length_map. Qed.

Section Run.
Variable E : Env.

(** *** Fetching the weather *)

Lemma fetch_city_returns (results : dict json) (city_input : string) (w : world) :
  exists j w',
    WeatherClient.fetch_city E results city_input w
    = (Ok (dict_set city_input j results), w')
    /\ is_object j.
Proof.
  unfold WeatherClient.fetch_city, try_except, bind.
  destruct (WeatherClient.parse_city_country city_input) as [city country].
  destruct (Envelopes.fetch_returns E city country w) as [j [w' [Hj Hshape]]].
  rewrite Hj. exists j, w'. split; [reflexivity |].
  destruct Hshape as [[cause [ts ->]] | [d [ts [-> _]]]]; exact I.
Qed.

Lemma get_weather_from_returns (cities : list string) (results : dict json) (w : world) :
  objects results ->
  NoDup (dict_keys results ++ cities) ->
  exists d w',
    WeatherClient.get_weather_for_cities_from E results cities w = (Ok d, w')
    /\ objects d
    /\ dict_keys d = (dict_keys results ++ cities)%list.
Proof.
  revert results w. induction cities as [| city rest IH]; intros results w Hobj Hnd.
  - exists results, w. simpl. rewrite app_nil_r. repeat split; [exact Hobj].
  - cbn [WeatherClient.get_weather_for_cities_from]. unfold bind.
    destruct (fetch_city_returns results city w) as [j [w1 [Hj Hjo]]].
    rewrite Hj.
    assert (Hnew : ~ In city (dict_keys results)).
    { intros Hin. apply NoDup_remove_2 in Hnd. apply Hnd.
      apply in_or_app. left. exact Hin. }
    assert (Hkeys : dict_keys (dict_set city j results)
                    = (dict_keys results ++ [city])%list)
      by (apply dict_set_new_key; exact Hnew).
    destruct (IH (dict_set city j results) w1) as [d [w' [Hd [Hdo Hdk]]]].
    + apply objects_set; assumption.
    + rewrite Hkeys, <- app_assoc. exact Hnd.
    + exists d, w'. split; [exact Hd |]. split; [exact Hdo |].
      rewrite Hdk, Hkeys, <- app_assoc. reflexivity.
Qed.

(** Without assuming distinct cities: the fetch still returns a dict of
    objects. *)
Lemma get_weather_from_total (cities : list string) (results : dict json) (w : world) :
  objects results ->
  exists d w',
    WeatherClient.get_weather_for_cities_from E results cities w = (Ok d, w')
    /\ objects d.
Proof.
  revert results w. induction cities as [| city rest IH]; intros results w Hobj.
  - exists results, w. split; [reflexivity | exact Hobj].
  - cbn [WeatherClient.get_weather_for_cities_from]. unfold bind.
    destruct (fetch_city_returns results city w) as [j [w1 [Hj Hjo]]].
    rewrite Hj. apply IH. apply objects_set; assumption.
Qed.

(** *** Fetching the air quality *)

Lemma airnow_calls_now (w : world) : airnow_calls (snd (now E w)) = airnow_calls w.
Proof. reflexivity. Qed.

Lemma short_envelope_returns (cause : string) (w : world) :
  AirQualityClient.short_envelope E cause w
  = (Ok (JObj [("error", JStr cause);
               ("api_timestamp", JStr (isoformat E (utcnow E (clock_reads w))))]),
     snd (now E w)).
Proof. reflexivity. Qed.

Lemma aqi_error_envelope_returns (cause : string) (lat lon : json) (w : world) :
  AirQualityClient.error_envelope E cause lat lon w
  = (Ok (JObj [("error", JStr cause);
               ("api_timestamp", JStr (isoformat E (utcnow E (clock_reads w))));
               ("coordinates", AirQualityClient.coordinates lat lon)]),
     snd (now E w)).
Proof. reflexivity. Qed.

(** The [try] block of the AirNow call sends exactly one request. *)
Lemma current_aqi_calls (lat lon : json) (w : world) :
  airnow_calls (snd (AirQualityClient.current_aqi E lat lon w))
  = (lat, lon) :: airnow_calls w.
Proof.
  unfold AirQualityClient.current_aqi, bind, get_airnow.
  destruct (airnow E (List.length (airnow_calls w)) lat lon) as [status b err | msg | msg];
    try reflexivity.
  destruct (is_error_status status); [reflexivity |].
  destruct b as [data | why]; [| reflexivity].
  destruct data; reflexivity.
Qed.

Lemma by_coordinates_returns (lat lon : json) (w : world) :
  exists j w',
    AirQualityClient.get_current_aqi_by_coordinates E lat lon w = (Ok j, w')
    /\ at_most_one_call w w'.
Proof.
  unfold AirQualityClient.get_current_aqi_by_coordinates.
  destruct (negb (airnow_api_key E)).
  - rewrite aqi_error_envelope_returns. eexists. eexists.
    split; [reflexivity | left; reflexivity].
  - unfold try_except.
    pose proof (current_aqi_calls lat lon w) as Hcalls.
    destruct (AirQualityClient.current_aqi E lat lon w) as [[j | e] w1].
    + exists j, w1. split; [reflexivity |]. right. exists lat, lon. exact Hcalls.
    + destruct (is_RequestException e); rewrite aqi_error_envelope_returns;
        eexists; eexists; (split; [reflexivity |]);
        right; exists lat, lon; exact Hcalls.
Qed.

Lemma get_aqi_returns (d : dict json) (w : world) :
  exists j w',
    AirQualityClient.get_aqi_for_weather_data E (JObj d) w = (Ok j, w')
    /\ at_most_one_call w w'.
Proof.
  unfold AirQualityClient.get_aqi_for_weather_data, bind at 1, lift at 1.
  cbn [py_in].
  destruct (dict_has "error" d).
  - rewrite short_envelope_returns. eexists. eexists.
    split; [reflexivity | left; reflexivity].
  - unfold try_except, bind, lift.
    destruct (py_get_default (JObj d) "coord" (JObj [])) as [coord | e].
    2:{ rewrite short_envelope_returns. eexists. eexists.
        split; [reflexivity | left; reflexivity]. }
    destruct (py_get coord "lat") as [lat | e].
    2:{ rewrite short_envelope_returns. eexists. eexists.
        split; [reflexivity | left; reflexivity]. }
    destruct (py_get coord "lon") as [lon | e].
    2:{ rewrite short_envelope_returns. eexists. eexists.
        split; [reflexivity | left; reflexivity]. }
    destruct (is_None lat || is_None lon).
    + rewrite short_envelope_returns. eexists. eexists.
      split; [reflexivity | left; reflexivity].
    + destruct (by_coordinates_returns lat lon w) as [j [w' [Hj Hc]]].
      rewrite Hj. exists j, w'. split; [reflexivity | exact Hc].
Qed.

(** One turn of the loop on a city whose weather carries an error: the
    synthesized error is stored and AirNow is not called. *)
Lemma fetch_aqi_skips (aqi_data : dict json) (city : string) (weather : json) (w : world) :
  py_in "error" weather = Ok true ->
  fetch_aqi E aqi_data (city, weather) w
  = (Ok (dict_set city (unavailable_at (isoformat E (utcnow E (clock_reads w)))) aqi_data),
     snd (now E w)).
Proof.
  intros H. unfold fetch_aqi, bind at 1, lift. rewrite H. reflexivity.
Qed.

Lemma fetch_aqi_returns (aqi_data : dict json) (city : string) (d : dict json) (w : world) :
  exists j w',
    fetch_aqi E aqi_data (city, JObj d) w = (Ok (dict_set city j aqi_data), w')
    /\ at_most_one_call w w'
    /\ (dict_has "error" d = true ->
        airnow_calls w' = airnow_calls w
        /\ exists ts, j = unavailable_at ts).
Proof.
  destruct (dict_has "error" d) eqn:Herr.
  - rewrite fetch_aqi_skips by (cbn; rewrite Herr; reflexivity).
    eexists. eexists. split; [reflexivity |]. split; [left; reflexivity |].
    intros _. split; [reflexivity | eexists; reflexivity].
  - unfold fetch_aqi, bind at 1, lift. cbn [py_in]. rewrite Herr. cbn [negb].
    unfold bind.
    destruct (get_aqi_returns d w) as [j [w' [Hj Hc]]]. rewrite Hj.
    exists j, w'. split; [reflexivity |]. split; [exact Hc |].
    intros Hc'. discriminate Hc'.
Qed.

Lemma fetch_aqi_loop (items acc : dict json) (w : world) :
  objects items ->
  NoDup (dict_keys acc ++ dict_keys items) ->
  exists aqi w',
    fetch_air_quality_data_from E acc items w = (Ok aqi, w')
    /\ dict_keys aqi = (dict_keys acc ++ dict_keys items)%list
    /\ (forall k, ~ In k (dict_keys items) -> dict_get k aqi = dict_get k acc)
    /\ (forall city d,
          In (city, JObj d) items -> dict_has "error" d = true ->
          exists ts, dict_get city aqi = Some (unavailable_at ts))
    /\ (List.length (airnow_calls w')
        <= List.length (airnow_calls w) + List.length (fetchable items))%nat.
Proof.
  intros Hobj. revert acc w.
  induction Hobj as [| [city weather] rest Hw _ IH]; intros acc w Hnd.
  - exists acc, w. cbn. rewrite app_nil_r.
    repeat split; try reflexivity; [intros ? ? [] | lia].
  - destruct weather as [| | | | | | d]; try (exfalso; exact Hw).
    cbn [fetch_air_quality_data_from]. unfold bind.
    destruct (fetch_aqi_returns acc city d w) as [j [w1 [Hj [Hcall Herr]]]].
    rewrite Hj.
    cbn [dict_keys map fst] in Hnd. fold (dict_keys rest) in Hnd.
    fold (dict_keys acc) in Hnd.
    assert (Hnew : ~ In city (dict_keys acc)).
    { intros Hin. apply NoDup_remove_2 in Hnd. apply Hnd.
      apply in_or_app. left. exact Hin. }
    assert (Hfresh : ~ In city (dict_keys rest)).
    { intros Hin. apply NoDup_remove_2 in Hnd. apply Hnd.
      apply in_or_app. right. exact Hin. }
    assert (Hkeys : dict_keys (dict_set city j acc) = (dict_keys acc ++ [city])%list)
      by (apply dict_set_new_key; exact Hnew).
    destruct (IH (dict_set city j acc) w1) as [aqi [w' [Hrun [Hk [Hsame [Hsyn Hcnt]]]]]].
    { rewrite Hkeys, <- app_assoc. exact Hnd. }
    exists aqi, w'. split; [exact Hrun |]. split; [| split; [| split]].
    + rewrite Hk, Hkeys, <- app_assoc. reflexivity.
    + intros k Hk'. rewrite Hsame.
      * apply dict_get_set_other. intros ->. apply Hk'. left. reflexivity.
      * intros Hin. apply Hk'. right. exact Hin.
    + intros c d' [Heq | Hin] He.
      * injection Heq as <- <-.
        rewrite (Hsame city Hfresh), dict_get_set_same.
        destruct (Herr He) as [_ [ts ->]]. exists ts. reflexivity.
      * exact (Hsyn c d' Hin He).
    + cbn [fetchable filter snd].
      destruct (dict_has "error" d) eqn:He; cbn [negb].
      * destruct (Herr eq_refl) as [Hsamecalls _]. fold (fetchable rest).
        rewrite <- Hsamecalls. exact Hcnt.
      * fold (fetchable rest). cbn [List.length].
        destruct Hcall as [Hc | [lat [lon Hc]]]; rewrite Hc in Hcnt; cbn in Hcnt; lia.
Qed.

(** *** Preparing the records *)

Lemma prepare_keeps_aqi (city : string) (weather aqi : json) (w w' : world)
      (o : observation) :
  prepare_observation_record E city weather aqi w = (Ok o, w') ->
  air_quality_data o = if py_truthy aqi then Some (json_dumps aqi) else None.
Proof.
  unfold prepare_observation_record, bind at 1, lift at 1.
  destruct (py_in "error" weather) as [has_error | e]; [| discriminate].
  unfold bind at 1.
  match goal with
  | |- context [match ?c w with _ => _ end] => destruct (c w) as [[located | e] w1]
  end; [| discriminate].
  destruct located as [[[[lat lon] city_name] country] observation_time].
  unfold ret. intros H. injection H as <- _. reflexivity.
Qed.

Lemma prepare_all_spec (todo : list string) (weather aqi : dict json)
      (w w' : world) (observations : list observation) :
  prepare_all E todo weather aqi w = (Ok observations, w') ->
  List.length observations = List.length todo
  /\ forall i city,
       nth_error todo i = Some city ->
       exists o wa wb,
         nth_error observations i = Some o
         /\ prepare_observation_record E city (get_or_empty weather city)
                                       (get_or_empty aqi city) wa = (Ok o, wb).
Proof.
  revert w w' observations.
  induction todo as [| city rest IH]; intros w w' observations.
  - cbn. intros H. injection H as <- _. split; [reflexivity |].
    intros [| i] c Hc; discriminate Hc.
  - cbn [prepare_all]. unfold bind at 1.
    destruct (prepare_observation_record E city (get_or_empty weather city)
                (get_or_empty aqi city) w) as [[record | e] w1] eqn:Hrec; [| discriminate].
    unfold bind at 1.
    destruct (prepare_all E rest weather aqi w1) as [[records | e] w2] eqn:Hrest;
      [| discriminate].
    unfold ret. intros H. injection H as <- _.
    destruct (IH _ _ _ Hrest) as [Hlen Hnth].
    split; [cbn; rewrite Hlen; reflexivity |].
    intros [| i] c Hc.
    + injection Hc as <-. exists record, w, w1. split; [reflexivity | exact Hrec].
    + exact (Hnth i c Hc).
Qed.

(** *** Counting *)

Lemma rmap_length {A B} (f : A -> res B) (l : list A) (bs : list B) :
  rmap f l = Ok bs -> List.length bs = List.length l.
Proof.
  revert bs. induction l as [| a l IH]; intros bs; simpl.
  - intros H. injection H as <-. reflexivity.
  - destruct (f a) as [b | e]; [| discriminate]. simpl.
    destruct (rmap f l) as [bs' | e]; [| discriminate]. simpl.
    intros H. injection H as <-. simpl. rewrite (IH bs' eq_refl). reflexivity.
Qed.

Lemma flags_partition (flags : list bool) :
  (List.length (filter negb flags) + List.length (filter (fun b => b) flags)
   = List.length flags)%nat.
Proof.
  induction flags as [| [|] flags IH]; simpl; lia.
Qed.

Lemma counts_add_up (d : dict json) (successes errors : Z) :
  count_successes d = Ok successes ->
  count_errors d = Ok errors ->
  successes + errors = Z.of_nat (List.length d).
Proof.
  unfold count_successes, count_errors.
  destruct (rmap (py_in "error") (dict_values d)) as [flags | e] eqn:Hflags;
    [| discriminate].
  cbn. intros H1 H2. injection H1 as <-. injection H2 as <-.
  pose proof (rmap_length _ _ _ Hflags) as Hlen.
  unfold dict_values in Hlen. rewrite length_map in Hlen.
  pose proof (flags_partition flags). lia.
Qed.

End Run.

(** *** The two shapes of the run summary *)

Section Summary.
Variable E : Env.
Variable cities : list string.

Lemma run_etl_cases (w : world) :
  exists summary final,
    run_etl E cities w = (Ok (JObj summary), final)
    /\ (completed E cities w summary final
        \/ exists e w_e,
             summary = error_summary E (utcnow E (clock_reads w))
                                     (utcnow E (clock_reads w_e)) (exn_msg e)
             /\ final = snd (now E w_e)).
Proof.
  unfold run_etl, bind at 1.
  change (now E w) with (Ok (utcnow E (clock_reads w)), snd (now E w)).
  cbv iota beta.
  set (start_time := utcnow E (clock_reads w)).
  set (w0 := snd (now E w)).
  unfold try_except, bind at 1.
  destruct (fetch_weather_data E cities w0) as [[weather | e] w1] eqn:H1.
  2:{ eexists. eexists. split; [reflexivity |]. right. exists e, w1.
      split; reflexivity. }
  unfold bind at 1.
  destruct (fetch_air_quality_data E weather w1) as [[aqi | e] w2] eqn:H2.
  2:{ eexists. eexists. split; [reflexivity |]. right. exists e, w2.
      split; reflexivity. }
  unfold bind at 1.
  destruct (prepare_all E cities weather aqi w2) as [[observations | e] w3] eqn:H3.
  2:{ eexists. eexists. split; [reflexivity |]. right. exists e, w3.
      split; reflexivity. }
  unfold bind at 1.
  destruct (load_observations_to_db E observations w3) as [[loaded | e] w4] eqn:H4.
  2:{ eexists. eexists. split; [reflexivity |]. right. exists e, w4.
      split; reflexivity. }
  unfold bind at 1.
  change (now E w4) with (Ok (utcnow E (clock_reads w4)), snd (now E w4)).
  cbv iota beta.
  unfold bind, lift.
  destruct (count_successes weather) as [ws | e] eqn:H5.
  2:{ eexists. eexists. split; [reflexivity |]. right. exists e, (snd (now E w4)).
      split; reflexivity. }
  destruct (count_errors weather) as [we | e] eqn:H6.
  2:{ eexists. eexists. split; [reflexivity |]. right. exists e, (snd (now E w4)).
      split; reflexivity. }
  destruct (count_successes aqi) as [qs | e] eqn:H7.
  2:{ eexists. eexists. split; [reflexivity |]. right. exists e, (snd (now E w4)).
      split; reflexivity. }
  destruct (count_errors aqi) as [qe | e] eqn:H8.
  2:{ eexists. eexists. split; [reflexivity |]. right. exists e, (snd (now E w4)).
      split; reflexivity. }
  eexists. eexists. split; [reflexivity |]. left.
  exact (Completed E cities w _ _ weather aqi observations loaded w1 w2 w3 w4
           ws we qs qe H1 H2 H3 H4 H5 H6 H7 H8 eq_refl eq_refl).
Qed.

End Summary.
End EtlFacts.

Module RunSummary.
Import Py World WeatherETL RunNotions DictFacts EtlFacts.

(** C5, as amended: every run returns a summary that records the start
    time, the end time and the elapsed duration.  A run that completes
    has status [success] and reports the four per-source counts; a run
    that aborts has status [error], reports the cause, and carries no
    per-source count. *)
Theorem summary_always_timed_counts_on_success
        (E : Env) (cities : list string) (w : world) :
  exists summary final end_time,
    run_etl E cities w = (Ok (JObj summary), final)
    /\ dict_get "start_time" summary
       = Some (JStr (isoformat E (utcnow E (clock_reads w))))
    /\ dict_get "end_time" summary = Some (JStr (isoformat E end_time))
    /\ dict_get "duration_seconds" summary
       = Some (JFloat (total_seconds (utcnow E (clock_reads w)) end_time))
    /\ ((dict_get "status" summary = Some (JStr "success")
         /\ exists ws we qs qe,
              dict_get "weather_successes" summary = Some (JInt ws)
              /\ dict_get "weather_errors" summary = Some (JInt we)
              /\ dict_get "aqi_successes" summary = Some (JInt qs)
              /\ dict_get "aqi_errors" summary = Some (JInt qe))
        \/ (dict_get "status" summary = Some (JStr "error")
            /\ (exists cause, dict_get "error" summary = Some (JStr cause))
            /\ dict_get "weather_successes" summary = None
            /\ dict_get "weather_errors" summary = None
            /\ dict_get "aqi_successes" summary = None
            /\ dict_get "aqi_errors" summary = None)).
Proof.
  destruct (run_etl_cases E cities w) as [summary [final [Hrun Hcase]]].
  destruct Hcase as [Hdone | [e [w_e [Hsum Hfin]]]].
  - destruct Hdone. subst summary.
    exists (success_summary E cities (utcnow E (clock_reads w))
              (utcnow E (clock_reads w4)) loaded ws we qs qe),
           final, (utcnow E (clock_reads w4)).
    split; [exact Hrun |]. repeat split; try reflexivity.
    left. split; [reflexivity |]. exists ws, we, qs, qe. repeat split; reflexivity.
  - subst summary.
    exists (error_summary E (utcnow E (clock_reads w))
              (utcnow E (clock_reads w_e)) (exn_msg e)),
           final, (utcnow E (clock_reads w_e)).
    split; [exact Hrun |]. repeat split; try reflexivity.
    right. split; [reflexivity |]. split; [eexists; reflexivity |].
    repeat split; reflexivity.
Qed.

(** C5, as stated, fails: when the store refuses the batch, the summary
    has status [error] and none of the per-source counts, although the
    weather and the air quality of the city had been fetched. *)
Lemma aborted_run_reports_no_counts :
  let E := Samples.env Samples.weather_ok Samples.airnow_ok Samples.store_down in
  exists summary final,
    run_etl E ["Chicago,US"] Samples.fresh = (Ok (JObj summary), final)
    /\ dict_get "status" summary = Some (JStr "error")
    /\ dict_get "error" summary = Some (JStr "connection refused")
    /\ weather_calls final = 1%nat
    /\ List.length (airnow_calls final) = 1%nat
    /\ dict_get "weather_successes" summary = None
    /\ dict_get "weather_errors" summary = None
    /\ dict_get "aqi_successes" summary = None
    /\ dict_get "aqi_errors" summary = None.
Proof.
  cbv zeta. eexists. eexists. split; [vm_compute; reflexivity |].
  repeat split; reflexivity.
Qed.

End RunSummary.

Module RunFacts.
Import Py World WeatherETL RunNotions DictFacts EtlFacts.

Lemma dict_get_In {V} (k : string) (v : V) (d : dict V) :
  dict_get k d = Some v -> In (k, v) d.
Proof.
  induction d as [| [k' v'] d IH]; simpl; [discriminate |].
  destruct (String.eqb k k') eqn:E.
  - apply String.eqb_eq in E. subst. intros H. injection H as ->. left. reflexivity.
  - intros H. right. exact (IH H).
Qed.

Lemma dict_set_nodup {V} (k : string) (v : V) (d : dict V) :
  NoDup (dict_keys d) -> NoDup (dict_keys (dict_set k v d)).
Proof.
  intros H. rewrite dict_keys_set.
  destruct (dict_has k d) eqn:Hh; [exact H |].
  apply Store.NoDup_snoc; [exact H |].
  intros Hin. apply dict_has_in_keys in Hin. congruence.
Qed.

Section Run.
Variable E : Env.

(** The dict of weather results has distinct keys and objects for values,
    whatever the list of cities. *)
Lemma weather_dict_shape (cities : list string) (results : dict json) (w w' : world)
      (d : dict json) :
  objects results -> NoDup (dict_keys results) ->
  WeatherClient.get_weather_for_cities_from E results cities w = (Ok d, w') ->
  objects d /\ NoDup (dict_keys d).
Proof.
  revert results w. induction cities as [| city rest IH]; intros results w Hobj Hnd.
  - cbn. intros H. injection H as <- _. split; assumption.
  - cbn [WeatherClient.get_weather_for_cities_from]. unfold bind.
    destruct (fetch_city_returns E results city w) as [j [w1 [Hj Hjo]]].
    rewrite Hj. apply IH.
    + apply objects_set; assumption.
    + apply dict_set_nodup. exact Hnd.
Qed.

Lemma object_with_error (v : json) :
  is_object v -> py_in "error" v = Ok true ->
  exists d, v = JObj d /\ dict_has "error" d = true.
Proof.
  destruct v; try (intros Hf; exfalso; exact Hf).
  intros _ H. cbn in H. injection H as H.
  eexists. split; [reflexivity | exact H].
Qed.

(** The steps of a run, from the fetch to the prepared batch: a city
    whose weather carries an error gets the synthesized air-quality error,
    in the dict and in its record, and AirNow receives at most one
    request per city whose weather carries none. *)
Lemma errored_cities_are_skipped (cities : list string) (w0 w1 w2 w3 : world)
      (weather aqi : dict json) (observations : list observation) :
  fetch_weather_data E cities w0 = (Ok weather, w1) ->
  fetch_air_quality_data E weather w1 = (Ok aqi, w2) ->
  prepare_all E cities weather aqi w2 = (Ok observations, w3) ->
  (forall i city wv,
     nth_error cities i = Some city ->
     dict_get city weather = Some wv ->
     py_in "error" wv = Ok true ->
     exists o ts,
       nth_error observations i = Some o
       /\ dict_get city aqi = Some (unavailable_at ts)
       /\ air_quality_data o = Some (json_dumps (unavailable_at ts)))
  /\ (List.length (airnow_calls w2)
      <= List.length (airnow_calls w1) + List.length (fetchable weather))%nat.
Proof.
  intros Hw Ha Hp.
  destruct (weather_dict_shape cities [] w0 w1 weather (Forall_nil _) (NoDup_nil _) Hw)
    as [Hobj Hnd].
  destruct (fetch_aqi_loop E weather [] w1 Hobj Hnd)
    as [aqi' [w2' [Hrun [_ [_ [Hsyn Hcnt]]]]]].
  unfold fetch_air_quality_data in Ha. rewrite Ha in Hrun.
  injection Hrun as <- <-.
  split; [| exact Hcnt].
  intros i city wv Hi Hget Herr.
  destruct (prepare_all_spec E cities weather aqi w2 w3 observations Hp) as [_ Hnth].
  destruct (Hnth i city Hi) as [o [wa [wb [Ho Hprep]]]].
  assert (Hin : In (city, wv) weather) by (apply dict_get_In; exact Hget).
  assert (Hwv : is_object wv).
  { unfold objects in Hobj. rewrite Forall_forall in Hobj. exact (Hobj _ Hin). }
  destruct (object_with_error wv Hwv Herr) as [d [-> Hd]].
  destruct (Hsyn city d Hin Hd) as [ts Hts].
  exists o, ts. split; [exact Ho |]. split; [exact Hts |].
  rewrite (prepare_keeps_aqi E _ _ _ _ _ _ Hprep).
  unfold get_or_empty. rewrite Hts. reflexivity.
Qed.

End Run.
End RunFacts.

Module ShortCircuit.
Import Py World WeatherETL RunNotions DictFacts EtlFacts RunFacts.

(** C6: for a city whose weather fetch returned an error, the loop
    stores the synthesized error "Weather data unavailable" and leaves
    AirNow uncalled; over a run, that city's record carries the
    synthesized error as its air-quality payload, and AirNow receives no
    more requests than there are cities whose weather carries no error. *)
Theorem failed_weather_skips_air_quality
        (E : Env) (cities : list string) (w0 w1 w2 w3 : world)
        (weather aqi : dict json) (observations : list observation) :
  fetch_weather_data E cities w0 = (Ok weather, w1) ->
  fetch_air_quality_data E weather w1 = (Ok aqi, w2) ->
  prepare_all E cities weather aqi w2 = (Ok observations, w3) ->
  (forall aqi_data city wv w,
     py_in "error" wv = Ok true ->
     exists ts w',
       fetch_aqi E aqi_data (city, wv) w
       = (Ok (dict_set city (unavailable_at ts) aqi_data), w')
       /\ airnow_calls w' = airnow_calls w)
  /\ (forall i city wv,
        nth_error cities i = Some city ->
        dict_get city weather = Some wv ->
        py_in "error" wv = Ok true ->
        exists o ts,
          nth_error observations i = Some o
          /\ dict_get city aqi = Some (unavailable_at ts)
          /\ air_quality_data o = Some (json_dumps (unavailable_at ts)))
  /\ (List.length (airnow_calls w2)
      <= List.length (airnow_calls w1) + List.length (fetchable weather))%nat.
Proof.
  intros Hw Ha Hp. split.
  - intros aqi_data city wv w Herr.
    rewrite (fetch_aqi_skips E aqi_data city wv w Herr).
    eexists. eexists. split; reflexivity.
  - exact (errored_cities_are_skipped E cities w0 w1 w2 w3 weather aqi observations
             Hw Ha Hp).
Qed.

Lemma failed_weather_skips_air_quality_witness :
  let E := Samples.env first_down Samples.airnow_ok Samples.store_up in
  let cities := ["Atlantis"; "Chicago,US"] in
  exists weather w1 aqi w2 observations w3,
    fetch_weather_data E cities Samples.fresh = (Ok weather, w1)
    /\ fetch_air_quality_data E weather w1 = (Ok aqi, w2)
    /\ prepare_all E cities weather aqi w2 = (Ok observations, w3)
    /\ (forall i city wv,
          nth_error cities i = Some city ->
          dict_get city weather = Some wv ->
          py_in "error" wv = Ok true ->
          exists o ts,
            nth_error observations i = Some o
            /\ dict_get city aqi = Some (unavailable_at ts)
            /\ air_quality_data o = Some (json_dumps (unavailable_at ts)))
    /\ List.length (airnow_calls w2) = 1%nat.
Proof.
  cbv zeta.
  pose (E := Samples.env first_down Samples.airnow_ok Samples.store_up).
  pose (cities := ["Atlantis"; "Chicago,US"]).
  pose (r1 := fetch_weather_data E cities Samples.fresh).
  pose (weather := match fst r1 with Ok d => d | Raise _ => [] end).
  pose (r2 := fetch_air_quality_data E weather (snd r1)).
  pose (aqi := match fst r2 with Ok d => d | Raise _ => [] end).
  pose (r3 := prepare_all E cities weather aqi (snd r2)).
  pose (observations := match fst r3 with Ok l => l | Raise _ => [] end).
  assert (H1 : fetch_weather_data E cities Samples.fresh = (Ok weather, snd r1))
    by (vm_compute; reflexivity).
  assert (H2 : fetch_air_quality_data E weather (snd r1) = (Ok aqi, snd r2))
    by (vm_compute; reflexivity).
  assert (H3 : prepare_all E cities weather aqi (snd r2) = (Ok observations, snd r3))
    by (vm_compute; reflexivity).
  exists weather, (snd r1), aqi, (snd r2), observations, (snd r3).
  split; [exact H1 |]. split; [exact H2 |]. split; [exact H3 |].
  split.
  - exact (proj1 (proj2 (failed_weather_skips_air_quality
                           E cities _ _ _ _ _ _ _ H1 H2 H3))).
  - vm_compute. reflexivity.
Defined.

(** The run of the witness, computed: Atlantis is not found, its record
    carries the synthesized error, and AirNow was asked once, for Chicago. *)
Example atlantis_is_skipped :
  let E := Samples.env first_down Samples.airnow_ok Samples.store_up in
  exists summary final,
    run_etl E ["Atlantis"; "Chicago,US"] Samples.fresh = (Ok (JObj summary), final)
    /\ dict_get "status" summary = Some (JStr "success")
    /\ dict_get "weather_errors" summary = Some (JInt 1)
    /\ dict_get "aqi_errors" summary = Some (JInt 1)
    /\ dict_get "records_loaded" summary = Some (JInt 2)
    /\ airnow_calls final = [(JFloat (4185 # 100), JFloat (-8765 # 100))]
    /\ map (fun r => (Db.city r, Db.air_quality_data r)) (table final)
       = [(JStr "Atlantis",
           Some (json_dumps (unavailable_at "1700000003000000")));
          (JStr "Chicago",
           Some (json_dumps
                   (JObj [("observations",
                           JArr [JObj [("ParameterName", JStr "PM2.5");
                                       ("AQI", JInt 57)]]);
                          ("api_timestamp", JStr "1700000004000000");
                          ("coordinates",
                           JObj [("lat", JFloat (4185 # 100));
                                 ("lon", JFloat (-8765 # 100))]);
                          ("total_observations", JInt 1)])))].
Proof.
  cbv zeta. eexists. eexists. split; [vm_compute; reflexivity |].
  repeat split; reflexivity.
Qed.

End ShortCircuit.

Module RunCounts.
Import Py World WeatherETL RunNotions DictFacts EtlFacts RunFacts.

(** C10, as amended: in a run that completes with status success,
    exactly one record is prepared per configured city -- the batch handed
    to the upserter has length cities_processed, and so has
    records_loaded -- and, when the configured cities are pairwise
    distinct, weather_successes + weather_errors = cities_processed and
    aqi_successes + aqi_errors = cities_processed. *)
Theorem successful_run_counts_add_up
        (E : Env) (cities : list string) (w final : world) (summary : dict json) :
  run_etl E cities w = (Ok (JObj summary), final) ->
  dict_get "status" summary = Some (JStr "success") ->
  exists weather aqi observations w2 w3 w4 ws we qs qe,
    prepare_all E cities weather aqi w2 = (Ok observations, w3)
    /\ load_observations_to_db E observations w3
       = (Ok (Z.of_nat (List.length cities)), w4)
    /\ List.length observations = List.length cities
    /\ dict_get "cities_processed" summary = Some (JInt (Z.of_nat (List.length cities)))
    /\ dict_get "records_loaded" summary = Some (JInt (Z.of_nat (List.length cities)))
    /\ dict_get "weather_successes" summary = Some (JInt ws)
    /\ dict_get "weather_errors" summary = Some (JInt we)
    /\ dict_get "aqi_successes" summary = Some (JInt qs)
    /\ dict_get "aqi_errors" summary = Some (JInt qe)
    /\ (NoDup cities ->
        ws + we = Z.of_nat (List.length cities)
        /\ qs + qe = Z.of_nat (List.length cities)).
Proof.
  intros Hrun Hstatus.
  destruct (run_etl_cases E cities w) as [summary' [final' [Hrun' Hcase]]].
  rewrite Hrun in Hrun'. injection Hrun' as <- <-.
  destruct Hcase as [Hdone | [e [w_e [Hsum _]]]].
  2:{ subst summary. discriminate Hstatus. }
  destruct Hdone. subst summary.
  destruct (prepare_all_spec E cities weather aqi w2 w3 observations prepared)
    as [Hlen _].
  assert (Hloaded : loaded = Z.of_nat (List.length cities)).
  { unfold load_observations_to_db in stored.
    destruct observations as [| o rest].
    - injection stored as <- _. rewrite <- Hlen. reflexivity.
    - destruct (db_fault E (db_txns w3)); [discriminate stored |].
      destruct (Db.conflict_fault (db_indexes E) conflict_target);
        [discriminate stored |].
      destruct (executemany (db_now E (db_txns w3)) (o :: rest) (table w3) (next_id w3)).
      injection stored as <- _. rewrite <- Hlen. reflexivity. }
  exists weather, aqi, observations, w2, w3, w4, ws, we, qs, qe.
  split; [exact prepared |].
  split; [rewrite <- Hloaded; exact stored |].
  split; [exact Hlen |].
  split; [reflexivity |].
  split; [rewrite Hloaded; reflexivity |].
  repeat (split; [reflexivity |]).
  intros Hnd.
  destruct (get_weather_from_returns E cities [] (snd (now E w)) (Forall_nil _) Hnd)
    as [d [w' [Hd [Hobj Hkeys]]]].
  unfold fetch_weather_data, WeatherClient.get_weather_for_cities in fetched.
  rewrite fetched in Hd. injection Hd as <- <-.
  assert (Hnd' : NoDup (dict_keys weather)) by (rewrite Hkeys; exact Hnd).
  destruct (fetch_aqi_loop E weather [] w1 Hobj Hnd')
    as [aqi' [w2' [Hrun2 [Hk2 _]]]].
  unfold fetch_air_quality_data in fetched_aqi. rewrite fetched_aqi in Hrun2.
  injection Hrun2 as <- <-.
  assert (Hlw : List.length weather = List.length cities).
  { rewrite <- (length_map fst weather). fold (dict_keys weather).
    rewrite Hkeys. reflexivity. }
  assert (Hla : List.length aqi = List.length cities).
  { rewrite <- (length_map fst aqi). fold (dict_keys aqi).
    rewrite Hk2, Hkeys. reflexivity. }
  split.
  - rewrite (counts_add_up weather ws we counted_ws counted_we), Hlw. reflexivity.
  - rewrite (counts_add_up aqi qs qe counted_qs counted_qe), Hla. reflexivity.
Qed.

Lemma successful_run_counts_add_up_witness :
  let E := Samples.env Samples.weather_ok Samples.airnow_ok Samples.store_up in
  let cities := ["Chicago,US"; "Boston,US"] in
  exists summary final,
    run_etl E cities Samples.fresh = (Ok (JObj summary), final)
    /\ dict_get "status" summary = Some (JStr "success")
    /\ NoDup cities
    /\ exists ws we qs qe,
         dict_get "weather_successes" summary = Some (JInt ws)
         /\ dict_get "weather_errors" summary = Some (JInt we)
         /\ dict_get "aqi_successes" summary = Some (JInt qs)
         /\ dict_get "aqi_errors" summary = Some (JInt qe)
         /\ ws + we = 2 /\ qs + qe = 2.
Proof.
  cbv zeta.
  pose (E := Samples.env Samples.weather_ok Samples.airnow_ok Samples.store_up).
  pose (cities := ["Chicago,US"; "Boston,US"]).
  pose (r := run_etl E cities Samples.fresh).
  pose (summary := match fst r with Ok (JObj d) => d | _ => [] end).
  assert (Hrun : run_etl E cities Samples.fresh = (Ok (JObj summary), snd r))
    by (vm_compute; reflexivity).
  assert (Hstatus : dict_get "status" summary = Some (JStr "success"))
    by (vm_compute; reflexivity).
  assert (Hnd : NoDup cities).
  { constructor; [intros [H | []]; discriminate H |].
    constructor; [intros [] | constructor]. }
  exists summary, (snd r).
  split; [exact Hrun |]. split; [exact Hstatus |]. split; [exact Hnd |].
  destruct (successful_run_counts_add_up E cities Samples.fresh (snd r) summary
              Hrun Hstatus)
    as [weather [aqi [observations [w2 [w3 [w4 [ws [we [qs [qe H]]]]]]]]]].
  destruct H as [_ [_ [_ [_ [_ [Hws [Hwe [Hqs [Hqe Hsum]]]]]]]]].
  exists ws, we, qs, qe.
  destruct (Hsum Hnd) as [Hw Hq].
  repeat split; assumption.
Defined.

(** C10, as stated, fails: with a city configured twice the run
    completes, processes 2 cities and loads 2 records, but the weather
    counts add up to 1, and so do the air-quality counts. *)
Lemma repeated_city_counts_once :
  let E := Samples.env Samples.weather_ok Samples.airnow_ok Samples.store_up in
  exists summary final,
    run_etl E ["Chicago,US"; "Chicago,US"] Samples.fresh = (Ok (JObj summary), final)
    /\ dict_get "status" summary = Some (JStr "success")
    /\ dict_get "cities_processed" summary = Some (JInt 2)
    /\ dict_get "records_loaded" summary = Some (JInt 2)
    /\ dict_get "weather_successes" summary = Some (JInt 1)
    /\ dict_get "weather_errors" summary = Some (JInt 0)
    /\ dict_get "aqi_successes" summary = Some (JInt 1)
    /\ dict_get "aqi_errors" summary = Some (JInt 0).
Proof.
  cbv zeta. eexists. eexists. split; [vm_compute; reflexivity |].
  repeat split; reflexivity.
Qed.

End RunCounts.

(* ================================================================== *)
(** * Further properties                                               *)
(* ================================================================== *)

(** ** Requests to OpenWeatherMap *)

Module Requests.
Import Py World WeatherClient RetryNotions RequestNotions Retry.

Section Attempts.
Variable E : Env.
Variable query : string.

Lemma only_calls_refl (w : world) : only_calls 0 w w.
Proof. unfold only_calls. repeat split; lia. Qed.

Lemma only_calls_step (n : nat) (w w1 w' : world) :
  only_calls 1 w w1 -> only_calls n w1 w' -> only_calls (S n) w w'.
Proof.
  unfold only_calls.
  intros [Hc [Hk [Ha [Hd [Ht Hn]]]]] [Hc' [Hk' [Ha' [Hd' [Ht' Hn']]]]].
  repeat split; try lia; congruence.
Qed.

Lemma attempt_body_calls (retries attempt : nat) (w : world) :
  only_calls 1 w (snd (attempt_body E query retries attempt w)).
Proof.
  unfold attempt_body, bind, get_openweather.
  destruct (openweather E (weather_calls w) query) as [status b err | msg | msg];
    cbn; try (unfold only_calls; cbn; repeat split; lia).
  destruct (status =? 401); [unfold only_calls; cbn; repeat split; lia |].
  destruct (status =? 404); [unfold only_calls; cbn; repeat split; lia |].
  destruct (status =? 429); [unfold only_calls; cbn; repeat split; lia |].
  destruct (is_error_status status); [unfold only_calls; cbn; repeat split; lia |].
  destruct b; unfold only_calls; cbn; repeat split; lia.
Qed.

Lemma attempts_calls (retries todo : nat) (w : world) :
  only_calls todo w (snd (attempts E query retries todo w)).
Proof.
  revert w. induction todo as [| todo IH]; intros w.
  - apply only_calls_refl.
  - cbn [attempts].
    pose proof (attempt_body_calls retries (retries - S todo) w) as Hbody.
    destruct (attempt_body E query retries (retries - S todo) w) as [[[data |] | e] w1];
      cbn [snd] in Hbody.
    + cbn [snd]. apply only_calls_step with w1; [exact Hbody |].
      unfold only_calls. repeat split; lia.
    + apply only_calls_step with w1; [exact Hbody | apply IH].
    + destruct (is_Timeout e).
      * destruct (Nat.eqb (retries - S todo) (retries - 1)).
        -- cbn [snd]. apply only_calls_step with w1; [exact Hbody |].
           unfold only_calls. repeat split; lia.
        -- apply only_calls_step with w1; [exact Hbody | apply IH].
      * destruct (is_RequestException e).
        -- destruct (Nat.eqb (retries - S todo) (retries - 1)).
           ++ cbn [snd]. apply only_calls_step with w1; [exact Hbody |].
              unfold only_calls. repeat split; lia.
           ++ apply only_calls_step with w1; [exact Hbody | apply IH].
        -- cbn [snd]. apply only_calls_step with w1; [exact Hbody |].
           unfold only_calls. repeat split; lia.
Qed.

Lemma settled_attempt (retries todo : nat) (w : world) (r : res json) :
  settles (openweather E (weather_calls w) query) r ->
  attempts E query retries (S todo) w = (r, called w).
Proof.
  intros Hs. cbn [attempts].
  unfold attempt_body, bind, get_openweather. fold (called w).
  inversion Hs as [status j err H1 H2 H3 H4 Ho | b err Ho | b err Ho]; cbn.
  - apply Z.eqb_neq in H1. apply Z.eqb_neq in H2. apply Z.eqb_neq in H3.
    rewrite H1, H2, H3, H4. reflexivity.
  - reflexivity.
  - reflexivity.
Qed.

Lemma retryable_retried (o : outcome) : retryable o -> retried o.
Proof.
  intros [msg | b err | status b err Hs]; [constructor | constructor |].
  apply retried_error_status; [lia | lia |].
  unfold is_error_status. apply andb_true_iff.
  split; [apply Z.leb_le | apply Z.ltb_lt]; lia.
Qed.

Lemma retried_attempt (retries todo : nat) (w : world) :
  let o := openweather E (weather_calls w) query in
  let attempt := (retries - S todo)%nat in
  retried o ->
  Nat.eqb attempt (retries - 1) = false ->
  attempts E query retries (S todo) w
  = attempts E query retries todo (after_failure o attempt w).
Proof.
  intros o attempt Hr Hlast. subst o.
  cbn [attempts]. fold attempt.
  unfold attempt_body, bind, get_openweather, after_failure.
  fold (called w).
  inversion Hr as [msg Ho | msg Ho | b err Ho | status b err H1 H2 Hs Ho
                   | status why err H1 H2 Ho]; cbn.
  - rewrite Hlast. reflexivity.
  - rewrite Hlast. reflexivity.
  - reflexivity.
  - apply Z.eqb_neq in H1. apply Z.eqb_neq in H2. rewrite H1, H2.
    destruct (status =? 429); [reflexivity |].
    rewrite Hs. cbn. rewrite Hlast. reflexivity.
  - apply Z.eqb_neq in H1. apply Z.eqb_neq in H2. rewrite H1, H2.
    destruct (status =? 429); [reflexivity |].
    destruct (is_error_status status); cbn; rewrite Hlast; reflexivity.
Qed.

(** After [n] failures that are retried, with attempts to spare, the
    outcome that settles the request is returned at once. *)
Lemma settled_after (retries : nat) (r : res json) (n todo : nat) (w : world) :
  (todo <= retries)%nat ->
  (n < todo)%nat ->
  (forall i, (i < n)%nat -> retried (openweather E (weather_calls w + i) query)) ->
  settles (openweather E (weather_calls w + n) query) r ->
  exists w',
    attempts E query retries todo w = (r, w')
    /\ weather_calls w' = (weather_calls w + n + 1)%nat.
Proof.
  revert todo w. induction n as [| n IH]; intros todo w Hle Hlt Hfail Hs.
  - destruct todo as [| todo]; [lia |].
    rewrite Nat.add_0_r in Hs.
    rewrite (settled_attempt retries todo w r Hs).
    exists (called w). split; [reflexivity | cbn; lia].
  - destruct todo as [| todo]; [lia |].
    assert (H0 : retried (openweather E (weather_calls w) query)).
    { specialize (Hfail 0%nat). rewrite Nat.add_0_r in Hfail. apply Hfail. lia. }
    assert (Hnotlast : Nat.eqb (retries - S todo) (retries - 1) = false)
      by (apply Nat.eqb_neq; lia).
    rewrite retried_attempt by assumption.
    set (w1 := after_failure _ _ w).
    assert (Hk : weather_calls w1 = S (weather_calls w))
      by apply weather_calls_after_failure.
    destruct (IH todo w1) as [w' [Hrun Hcalls]]; try lia.
    + intros i Hi. rewrite Hk.
      replace (S (weather_calls w) + i)%nat with (weather_calls w + S i)%nat by lia.
      apply Hfail. lia.
    + rewrite Hk.
      replace (S (weather_calls w) + n)%nat with (weather_calls w + S n)%nat by lia.
      exact Hs.
    + exists w'. split; [exact Hrun | rewrite Hcalls, Hk; lia].
Qed.

Lemma rate_limited_attempts (retries todo : nat) (w : world) :
  (todo <= retries)%nat ->
  (forall i, (i < todo)%nat ->
             is_rate_limit (openweather E (weather_calls w + i) query) = true) ->
  exists w',
    attempts E query retries todo w
    = (Raise (mkExn RequestException "Max retries exceeded"), w')
    /\ weather_calls w' = (weather_calls w + todo)%nat
    /\ sleeps w' = (backoff (retries - todo) todo ++ sleeps w)%list.
Proof.
  revert w. induction todo as [| todo IH]; intros w Hle Hall.
  - exists w. cbn. split; [reflexivity |]. split; [lia | reflexivity].
  - assert (H0 : is_rate_limit (openweather E (weather_calls w) query) = true).
    { specialize (Hall 0%nat). rewrite Nat.add_0_r in Hall. apply Hall. lia. }
    assert (Hr : retryable (openweather E (weather_calls w) query)).
    { destruct (openweather E (weather_calls w) query) as [status b err | |];
        try discriminate H0.
      cbn in H0. apply Z.eqb_eq in H0. subst. constructor. }
    rewrite failed_attempt by exact Hr.
    rewrite H0. cbn [negb andb].
    unfold after_failure. rewrite H0.
    set (w1 := slept _ (called w)).
    destruct (IH w1) as [w' [Hrun [Hcalls Hsleeps]]]; try lia.
    + intros i Hi. unfold w1. cbn [weather_calls slept called].
      replace (S (weather_calls w) + i)%nat with (weather_calls w + S i)%nat by lia.
      apply Hall. lia.
    + exists w'. split; [exact Hrun |]. split.
      * rewrite Hcalls. unfold w1. cbn. lia.
      * rewrite Hsleeps. unfold w1. cbn [sleeps slept called backoff].
        replace (retries - todo)%nat with (S (retries - S todo)) by lia.
        rewrite <- app_assoc. reflexivity.
Qed.

End Attempts.

(** X1: a request whose first [n] attempts fail in a way that is retried
    -- a time-out, a connection error, a 429, another error status than 401
    and 404, or a body that does not decode -- and whose next attempt gets
    an answer, within the budget of attempts, returns that answer's body
    after exactly [n + 1] calls. *)
Theorem retry_then_succeed
        (E : Env) (query : string) (retries n : nat) (w : world)
        (status : Z) (j : json) (err : string) :
  (n < retries)%nat ->
  (forall i, (i < n)%nat -> retried (openweather E (weather_calls w + i) query)) ->
  openweather E (weather_calls w + n) query = Response status (JsonBody j) err ->
  status <> 401 -> status <> 404 -> status <> 429 ->
  is_error_status status = false ->
  exists w',
    _make_request E query retries w = (Ok j, w')
    /\ weather_calls w' = (weather_calls w + n + 1)%nat.
Proof.
  intros Hn Hfail Ho H1 H2 H3 H4.
  apply (settled_after E query retries (Ok j) n retries w); try lia; try assumption.
  rewrite Ho. constructor; assumption.
Qed.

(** A connection error, then a body that does not decode, then Chicago's
    report. *)
Lemma retry_then_succeed_witness :
  let E := Samples.env
             (fun k q => match k with
                         | O => Failed "Connection aborted."
                         | S O => Response 200 (BadBody "Expecting value: line 1 column 1 (char 0)") ""
                         | _ => Samples.weather_ok k q
                         end)
             Samples.airnow_ok Samples.store_up in
  exists w',
    _make_request E "Chicago" 3 Samples.fresh = (Ok (Samples.chicago 45), w')
    /\ weather_calls w' = 3%nat.
Proof.
  cbv zeta.
  apply (retry_then_succeed _ "Chicago" 3 2 Samples.fresh 200 (Samples.chicago 45) "").
  - lia.
  - intros i Hi. destruct i as [| [| i]]; [| | lia]; cbn; constructor; discriminate.
  - reflexivity.
  - discriminate.
  - discriminate.
  - discriminate.
  - reflexivity.
Defined.

(** X2: a 401 or a 404, on the first attempt or after retryable
    failures, ends the request at once with its [ValueError]: the remaining
    attempts are not used. *)
Theorem rejection_is_not_retried
        (E : Env) (query : string) (retries n : nat) (w : world)
        (status : Z) (b : body) (err : string) :
  (n < retries)%nat ->
  (forall i, (i < n)%nat -> retryable (openweather E (weather_calls w + i) query)) ->
  openweather E (weather_calls w + n) query = Response status b err ->
  status = 401 \/ status = 404 ->
  exists w',
    _make_request E query retries w
    = (Raise (mkExn ValueError (if status =? 401
                                then "Invalid API key (401 Unauthorized)"
                                else "Location not found (404)")), w')
    /\ weather_calls w' = (weather_calls w + n + 1)%nat.
Proof.
  intros Hn Hfail Ho Hs.
  apply (settled_after E query retries _ n retries w); try lia.
  - intros i Hi. apply retryable_retried. apply Hfail. exact Hi.
  - rewrite Ho. destruct Hs as [-> | ->]; constructor.
Qed.

Lemma rejection_is_not_retried_witness :
  let E := Samples.env (fun k q => Response 404 (BadBody "") "Not Found")
                       Samples.airnow_ok Samples.store_up in
  exists w',
    _make_request E "Atlantis" 3 Samples.fresh
    = (Raise (mkExn ValueError "Location not found (404)"), w')
    /\ weather_calls w' = 1%nat.
Proof.
  cbv zeta.
  apply (rejection_is_not_retried _ "Atlantis" 3 0 Samples.fresh 404 (BadBody "")
           "Not Found").
  - lia.
  - intros i Hi. lia.
  - reflexivity.
  - right. reflexivity.
Defined.

(** X3: whatever the service answers, a request makes at most
    [retries] calls, and touches neither the clock, AirNow nor the store. *)
Theorem request_stays_within_budget
        (E : Env) (query : string) (retries : nat) (w : world) :
  only_calls retries w (snd (_make_request E query retries w)).
Proof. apply attempts_calls. Qed.

(** X4: when every attempt is rate-limited the request sleeps
    1, 2, 4, ... seconds, one wait after each of its [retries] attempts --
    the last one included -- and ends with "Max retries exceeded". *)
Theorem rate_limit_backs_off_exponentially
        (E : Env) (query : string) (retries : nat) (w : world) :
  (forall i, (i < retries)%nat ->
             is_rate_limit (openweather E (weather_calls w + i) query) = true) ->
  exists w',
    _make_request E query retries w
    = (Raise (mkExn RequestException "Max retries exceeded"), w')
    /\ weather_calls w' = (weather_calls w + retries)%nat
    /\ sleeps w' = (backoff 0 retries ++ sleeps w)%list.
Proof.
  intros Hall.
  destruct (rate_limited_attempts E query retries retries w (Nat.le_refl _) Hall)
    as [w' [Hrun [Hcalls Hsleeps]]].
  exists w'. split; [exact Hrun |]. split; [exact Hcalls |].
  rewrite Hsleeps, Nat.sub_diag. reflexivity.
Qed.

Lemma rate_limit_backs_off_exponentially_witness :
  let E := Samples.env (fun k q => Response 429 (BadBody "") "Too Many Requests")
                       Samples.airnow_ok Samples.store_up in
  exists w',
    _make_request E "Chicago" 3 Samples.fresh
    = (Raise (mkExn RequestException "Max retries exceeded"), w')
    /\ weather_calls w' = 3%nat
    /\ sleeps w' = [4; 2; 1].
Proof.
  cbv zeta.
  apply (rate_limit_backs_off_exponentially _ "Chicago" 3 Samples.fresh).
  intros i Hi. reflexivity.
Defined.

End Requests.

(** ** City keys *)

Module CityKeys.
Import Py WeatherClient FetchNotions.

Lemma split_parts_have_no_separator (c : ascii) (s p : string) :
  In p (split_char c s) -> has_char c p = false.
Proof.
  revert p. induction s as [| a s IH]; intros p; simpl.
  - intros [<- | []]. reflexivity.
  - destruct (Ascii.eqb a c) eqn:E.
    + intros [<- | Hin]; [reflexivity | apply IH; exact Hin].
    + destruct (split_char c s) as [| h t].
      * intros [<- | []]. simpl. rewrite E. reflexivity.
      * intros [<- | Hin].
        -- simpl. rewrite E. apply IH. left. reflexivity.
        -- apply IH. right. exact Hin.
Qed.

Lemma split_without_separator (c : ascii) (s : string) :
  has_char c s = false -> split_char c s = [s].
Proof.
  induction s as [| a s IH]; simpl; [reflexivity |].
  destruct (Ascii.eqb a c); [discriminate |]. simpl.
  intros H. rewrite (IH H). reflexivity.
Qed.

Lemma split_at_separator (c : ascii) (a b : string) :
  has_char c a = false ->
  split_char c (a ++ String c b) = a :: split_char c b.
Proof.
  induction a as [| x a IH]; simpl.
  - rewrite Ascii.eqb_refl. reflexivity.
  - destruct (Ascii.eqb x c); [discriminate |]. simpl.
    intros H. rewrite (IH H). reflexivity.
Qed.

Section Front.
Variable two : ascii -> ascii -> bool.
Variable three : ascii -> ascii -> ascii -> bool.

(** What holds of [s] and of what is left of it once it holds of the empty
    text, is kept by a dropped character, and holds of a text with a clean
    front. *)
Lemma strip_front_ind (P : string -> string -> Prop) :
  P EmptyString EmptyString ->
  (forall a s r, P s r -> P (String a s) r) ->
  (forall s, s <> EmptyString -> front_clean two three s -> P s s) ->
  forall s, P s (strip_front two three s).
Proof.
  intros Hnil Hdrop Hkeep s.
  assert (H : forall n s, (String.length s <= n)%nat -> P s (strip_front two three s)).
  { clear s. induction n as [| n IH]; intros s Hlen.
    - destruct s; [exact Hnil | simpl in Hlen; lia].
    - destruct s as [| a s1]; [exact Hnil |]. cbn [strip_front].
      simpl in Hlen.
      destruct (is_space a) eqn:Ha; [apply Hdrop, IH; lia |].
      destruct s1 as [| b s2].
      { apply Hkeep; [discriminate |]. simpl. split; [exact Ha | exact I]. }
      simpl in Hlen.
      destruct (two a b) eqn:Hb; [apply Hdrop, Hdrop, IH; lia |].
      destruct s2 as [| c s3].
      { apply Hkeep; [discriminate |]. simpl. repeat split; assumption. }
      simpl in Hlen.
      destruct (three a b c) eqn:Hc; [apply Hdrop, Hdrop, Hdrop, IH; lia |].
      apply Hkeep; [discriminate |]. simpl. repeat split; assumption. }
  apply (H (String.length s)). lia.
Qed.

Lemma strip_front_is_suffix (s : string) :
  exists p, s = p ++ strip_front two three s.
Proof.
  apply (strip_front_ind (fun s r => exists p, s = p ++ r)).
  - exists EmptyString. reflexivity.
  - intros a t r [p ->]. exists (String a p). reflexivity.
  - intros t _ _. exists EmptyString. reflexivity.
Qed.

Lemma strip_front_clean (s : string) :
  front_clean two three (strip_front two three s).
Proof.
  apply (strip_front_ind (fun _ r => front_clean two three r)).
  - exact I.
  - intros _ _ r H. exact H.
  - intros t _ H. exact H.
Qed.

Lemma strip_front_of_clean (s : string) :
  front_clean two three s -> strip_front two three s = s.
Proof.
  destruct s as [| a [| b [| c s]]]; simpl; [reflexivity | | |].
  - intros [-> _]. reflexivity.
  - intros [-> [-> _]]. reflexivity.
  - intros [-> [-> ->]]. reflexivity.
Qed.

Lemma front_clean_prefix (p q : string) :
  front_clean two three (p ++ q) -> front_clean two three p.
Proof.
  destruct p as [| a [| b [| c p]]]; simpl; [intros _; exact I | | |].
  - intros [Ha _]. split; [exact Ha | exact I].
  - intros [Ha [Hb _]]. repeat split; assumption.
  - intros H. exact H.
Qed.

Lemma strip_front_twice (s : string) :
  strip_front two three (strip_front two three s) = strip_front two three s.
Proof. apply strip_front_of_clean, strip_front_clean. Qed.

End Front.

Lemma has_char_app (c : ascii) (s t : string) :
  has_char c (s ++ t) = has_char c s || has_char c t.
Proof.
  induction s as [| a s IH]; simpl; [reflexivity |].
  rewrite IH, orb_assoc. reflexivity.
Qed.

Lemma append_nil_r (s : string) : s ++ "" = s.
Proof. induction s as [| a s IH]; simpl; [reflexivity | rewrite IH; reflexivity]. Qed.

Lemma append_assoc (s t u : string) : (s ++ t) ++ u = s ++ (t ++ u).
Proof. induction s as [| a s IH]; simpl; [reflexivity | rewrite IH; reflexivity]. Qed.

Lemma reversed_app (s t : string) : reversed (s ++ t) = reversed t ++ reversed s.
Proof.
  induction s as [| a s IH]; simpl.
  - rewrite append_nil_r. reflexivity.
  - rewrite IH, append_assoc. reflexivity.
Qed.

Lemma reversed_twice (s : string) : reversed (reversed s) = s.
Proof.
  induction s as [| a s IH]; simpl; [reflexivity |].
  rewrite reversed_app, IH. reflexivity.
Qed.

Lemma has_char_reversed (c : ascii) (s : string) :
  has_char c (reversed s) = has_char c s.
Proof.
  induction s as [| a s IH]; simpl; [reflexivity |].
  rewrite has_char_app, IH. simpl. rewrite orb_false_r. apply orb_comm.
Qed.

Lemma lstrip_is_suffix (s : string) : exists p, s = p ++ lstrip s.
Proof. apply strip_front_is_suffix. Qed.

Lemma rstrip_is_prefix (s : string) : exists q, s = rstrip s ++ q.
Proof.
  unfold rstrip.
  destruct (strip_front_is_suffix (fun a b => is_space2 b a) (fun a b c => is_space3 c b a)
              (reversed s)) as [p Hp].
  exists (reversed p).
  rewrite <- reversed_app, <- Hp, reversed_twice. reflexivity.
Qed.

Lemma lstrip_keeps_absence (c : ascii) (s : string) :
  has_char c s = false -> has_char c (lstrip s) = false.
Proof.
  intros H. destruct (lstrip_is_suffix s) as [p Hp]. rewrite Hp in H.
  rewrite has_char_app in H. apply orb_false_iff in H. exact (proj2 H).
Qed.

Lemma rstrip_keeps_absence (c : ascii) (s : string) :
  has_char c s = false -> has_char c (rstrip s) = false.
Proof.
  intros H. destruct (rstrip_is_prefix s) as [q Hq]. rewrite Hq in H.
  rewrite has_char_app in H. apply orb_false_iff in H. exact (proj1 H).
Qed.

Lemma strip_keeps_absence (c : ascii) (s : string) :
  has_char c s = false -> has_char c (strip s) = false.
Proof.
  intros H. unfold strip. apply rstrip_keeps_absence, lstrip_keeps_absence. exact H.
Qed.

Lemma rstrip_twice (s : string) : rstrip (rstrip s) = rstrip s.
Proof. unfold rstrip. rewrite reversed_twice, strip_front_twice. reflexivity. Qed.

Lemma strip_twice (s : string) : strip (strip s) = strip s.
Proof.
  unfold strip.
  assert (H : lstrip (rstrip (lstrip s)) = rstrip (lstrip s)).
  { apply strip_front_of_clean.
    destruct (rstrip_is_prefix (lstrip s)) as [q Hq].
    apply (front_clean_prefix _ _ _ q). rewrite <- Hq.
    apply strip_front_clean. }
  rewrite H. apply rstrip_twice.
Qed.

Lemma parse_without_comma (s : string) :
  has_char comma s = false -> parse_city_country s = (strip s, None).
Proof.
  intros H. unfold parse_city_country.
  rewrite (split_without_separator comma s H). reflexivity.
Qed.

(** X5: a city taken from the CITIES variable never carries a country
    code.  The variable is split at every comma, so each configured city is
    a trimmed text without a comma, [parse_city_country] finds no country
    in it, and the query sent for it is the city alone. *)
Theorem env_cities_have_no_country (value city : string) :
  value <> "" ->
  In city (Config.cities (Some value)) ->
  has_char comma city = false
  /\ parse_city_country city = (city, None)
  /\ query_for (fst (parse_city_country city)) (snd (parse_city_country city)) = city.
Proof.
  intros Hvalue Hin. unfold Config.cities in Hin.
  destruct (String.eqb value "") eqn:E; [apply String.eqb_eq in E; contradiction |].
  apply in_map_iff in Hin. destruct Hin as [part [<- Hpart]].
  pose proof (split_parts_have_no_separator comma value part Hpart) as Hno.
  assert (Hclean : has_char comma (strip part) = false)
    by (apply strip_keeps_absence; exact Hno).
  assert (Hparse : parse_city_country (strip part) = (strip part, None)).
  { rewrite (parse_without_comma _ Hclean), strip_twice. reflexivity. }
  split; [exact Hclean |]. split; [exact Hparse |].
  rewrite Hparse. reflexivity.
Qed.

Lemma env_cities_have_no_country_witness :
  "Chicago,US" <> ""
  /\ In "US" (Config.cities (Some "Chicago,US"))
  /\ has_char comma "US" = false
  /\ parse_city_country "US" = ("US", None)
  /\ query_for (fst (parse_city_country "US")) (snd (parse_city_country "US")) = "US".
Proof.
  assert (H1 : "Chicago,US" <> "") by discriminate.
  assert (H2 : In "US" (Config.cities (Some "Chicago,US")))
    by (right; left; reflexivity).
  split; [exact H1 |]. split; [exact H2 |].
  exact (env_cities_have_no_country "Chicago,US" "US" H1 H2).
Defined.

(** X6: a key "City,CC" made of two trimmed, comma-free parts with a
    non-empty country is taken apart and put together again unchanged: the
    query sent to OpenWeatherMap is the key itself. *)
Theorem city_key_round_trip (city country : string) :
  strip city = city ->
  strip country = country ->
  has_char comma city = false ->
  has_char comma country = false ->
  country <> "" ->
  parse_city_country (city ++ "," ++ country) = (city, Some country)
  /\ query_for city (Some country) = city ++ "," ++ country.
Proof.
  intros Hc Hk Hnc Hnk Hne. split.
  - unfold parse_city_country.
    change (city ++ "," ++ country) with (city ++ String comma country).
    rewrite (split_at_separator comma city country Hnc).
    rewrite (split_without_separator comma country Hnk).
    cbn [hd]. rewrite Hc, Hk. reflexivity.
  - unfold query_for.
    destruct (String.eqb country "") eqn:E;
      [apply String.eqb_eq in E; contradiction | reflexivity].
Qed.

Lemma city_key_round_trip_witness :
  strip "Los Angeles" = "Los Angeles"
  /\ strip "US" = "US"
  /\ has_char comma "Los Angeles" = false
  /\ has_char comma "US" = false
  /\ "US" <> ""
  /\ parse_city_country ("Los Angeles" ++ "," ++ "US") = ("Los Angeles", Some "US")
  /\ query_for "Los Angeles" (Some "US") = "Los Angeles" ++ "," ++ "US".
Proof.
  assert (H5 : "US" <> "") by discriminate.
  repeat (split; [reflexivity |]). split; [exact H5 |].
  exact (city_key_round_trip "Los Angeles" "US" eq_refl eq_refl eq_refl eq_refl H5).
Defined.

End CityKeys.

(** ** What the fetches spend *)

Module Spending.
Import Py World FetchNotions RequestNotions.

Lemma spends_refl (w : world) : spends 0 0 w w.
Proof. unfold spends. repeat split; lia. Qed.

Lemma spends_trans (n m n' m' : nat) (w w1 w2 : world) :
  spends n m w w1 -> spends n' m' w1 w2 -> spends (n + n') (m + m') w w2.
Proof.
  unfold spends.
  intros [Hc [Ha [Hd [Ht Hn]]]] [Hc' [Ha' [Hd' [Ht' Hn']]]].
  repeat split; try lia; congruence.
Qed.

Lemma spends_weaken (n m n' m' : nat) (w w' : world) :
  (n <= n')%nat -> (m <= m')%nat -> spends n m w w' -> spends n' m' w w'.
Proof.
  unfold spends. intros Hn Hm [Hc [Ha Hrest]]. repeat split; try lia; apply Hrest.
Qed.

Lemma costs_weaken {A} (n m n' m' : nat) (c : M A) :
  (n <= n')%nat -> (m <= m')%nat -> costs n m c -> costs n' m' c.
Proof. intros Hn Hm H w. exact (spends_weaken _ _ _ _ _ _ Hn Hm (H w)). Qed.

Lemma costs_ret {A} (a : A) : costs 0 0 (ret a : M A).
Proof. intros w. apply spends_refl. Qed.

Lemma costs_raise {A} (e : exn) : costs 0 0 (raise e : M A).
Proof. intros w. apply spends_refl. Qed.

Lemma costs_lift {A} (r : res A) : costs 0 0 (lift r : M A).
Proof. intros w. apply spends_refl. Qed.

Lemma costs_bind {A B} (n m n' m' : nat) (c : M A) (k : A -> M B) :
  costs n m c -> (forall a, costs n' m' (k a)) -> costs (n + n') (m + m') (bind c k).
Proof.
  intros Hc Hk w. unfold bind. specialize (Hc w).
  destruct (c w) as [[a | e] w1]; cbn [snd] in *.
  - exact (spends_trans _ _ _ _ _ _ _ Hc (Hk a w1)).
  - apply (spends_weaken n m); try lia. exact Hc.
Qed.

Lemma costs_try {A} (n m n' m' : nat) (c : M A) (h : exn -> M A) :
  costs n m c -> (forall e, costs n' m' (h e)) ->
  costs (n + n') (m + m') (try_except c h).
Proof.
  intros Hc Hh w. unfold try_except. specialize (Hc w).
  destruct (c w) as [[a | e] w1]; cbn [snd] in *.
  - apply (spends_weaken n m); try lia. exact Hc.
  - exact (spends_trans _ _ _ _ _ _ _ Hc (Hh e w1)).
Qed.

Section Clients.
Variable E : Env.

Lemma costs_now : costs 0 0 (now E).
Proof. intros w. unfold spends. cbn. repeat split; lia. Qed.

Lemma costs_now_iso : costs 0 0 (now_iso E).
Proof.
  unfold now_iso. apply (costs_bind 0 0 0 0); [apply costs_now | intros t; apply costs_ret].
Qed.

Lemma costs_make_request (query : string) (retries : nat) :
  costs retries 0 (WeatherClient._make_request E query retries).
Proof.
  intros w. pose proof (Requests.attempts_calls E query retries retries w) as H.
  change (WeatherClient.attempts E query retries retries w)
    with (WeatherClient._make_request E query retries w) in H.
  unfold only_calls in H. destruct H as [Hc [_ [Ha [Hd [Ht Hn]]]]].
  unfold spends. rewrite Ha. repeat split; try lia; assumption.
Qed.

Lemma costs_weather_envelope (e : exn) (query : string) :
  costs 0 0 (WeatherClient.error_envelope E e query).
Proof.
  unfold WeatherClient.error_envelope.
  apply (costs_bind 0 0 0 0); [apply costs_now_iso | intros ts; apply costs_ret].
Qed.

Lemma costs_fetch (city : string) (country_code : option string) :
  costs 3 0 (WeatherClient.get_current_weather_by_city E city country_code).
Proof.
  unfold WeatherClient.get_current_weather_by_city.
  apply (costs_try 3 0 0 0); [| intros e; apply costs_weather_envelope].
  apply (costs_bind 3 0 0 0); [apply costs_make_request | intros data].
  apply (costs_bind 0 0 0 0); [apply costs_lift | intros cod].
  apply (costs_bind 0 0 0 0).
  { destruct (negb (py_eq cod (JInt 200))); [| apply costs_ret].
    apply (costs_bind 0 0 0 0); [apply costs_lift | intros msg; apply costs_raise]. }
  intros _.
  apply (costs_bind 0 0 0 0); [apply costs_now_iso | intros ts].
  apply (costs_bind 0 0 0 0); [apply costs_lift | intros d1].
  apply (costs_bind 0 0 0 0); [apply costs_lift | intros d2].
  apply costs_ret.
Qed.

Lemma costs_fetch_city (results : dict json) (city_input : string) :
  costs 3 0 (WeatherClient.fetch_city E results city_input).
Proof.
  unfold WeatherClient.fetch_city.
  apply (costs_try 3 0 0 0).
  - destruct (WeatherClient.parse_city_country city_input) as [city country].
    apply (costs_bind 3 0 0 0); [apply costs_fetch | intros j; apply costs_ret].
  - intros e.
    apply (costs_bind 0 0 0 0); [apply costs_weather_envelope | intros j; apply costs_ret].
Qed.

Lemma costs_weather_loop (cities : list string) (results : dict json) :
  costs (3 * List.length cities) 0
        (WeatherClient.get_weather_for_cities_from E results cities).
Proof.
  revert results. induction cities as [| city rest IH]; intros results.
  - apply costs_ret.
  - cbn [WeatherClient.get_weather_for_cities_from].
    apply (costs_weaken (3 + 3 * List.length rest) (0 + 0)); [cbn; lia | lia |].
    apply costs_bind; [apply costs_fetch_city | intros r; apply IH].
Qed.

End Clients.
End Spending.

(** ** The weather of a list of cities *)

Module CityWeather.
Import Py World WeatherClient FetchNotions EnvelopeNotions RunNotions DictFacts.

Section Loop.
Variable E : Env.

Lemma fetch_city_shape (results : dict json) (city_input : string) (w : world) :
  exists j w',
    fetch_city E results city_input w = (Ok (dict_set city_input j results), w')
    /\ (envelope_for (query_of city_input) j \/ reading_for (query_of city_input) j).
Proof.
  unfold fetch_city, try_except, bind, query_of.
  destruct (parse_city_country city_input) as [city country]. cbn [fst snd].
  destruct (Envelopes.fetch_returns E city country w) as [j [w' [Hj Hshape]]].
  rewrite Hj. exists j, w'. split; [reflexivity | exact Hshape].
Qed.

Lemma weather_loop_covers (cities : list string) (results : dict json) (w : world) :
  exists d w',
    get_weather_for_cities_from E results cities w = (Ok d, w')
    /\ (forall city, In city cities ->
          exists j, dict_get city d = Some j
                    /\ (envelope_for (query_of city) j \/ reading_for (query_of city) j))
    /\ (forall k, ~ In k cities -> dict_get k d = dict_get k results).
Proof.
  revert results w. induction cities as [| city rest IH]; intros results w.
  - exists results, w. split; [reflexivity |]. split; [intros ? [] | reflexivity].
  - cbn [get_weather_for_cities_from]. unfold bind.
    destruct (fetch_city_shape results city w) as [j [w1 [Hj Hshape]]].
    rewrite Hj.
    destruct (IH (dict_set city j results) w1) as [d [w' [Hrun [Hcov Hout]]]].
    exists d, w'. split; [exact Hrun |]. split.
    + intros c [<- | Hin].
      * destruct (in_dec string_dec city rest) as [Hr | Hr]; [exact (Hcov city Hr) |].
        exists j. split; [| exact Hshape].
        rewrite (Hout city Hr). apply dict_get_set_same.
      * exact (Hcov c Hin).
    + intros k Hk. rewrite Hout by (intros Hin; apply Hk; right; exact Hin).
      apply dict_get_set_other. intros ->. apply Hk. left. reflexivity.
Qed.

End Loop.

(** X7: [get_weather_for_cities] never raises and leaves no city
    out: the dict it returns holds, under every city key of the list and
    under no other key, either the reading or the error envelope for that
    city's query; it costs at most three calls per listed city and touches
    neither AirNow nor the store. *)
Theorem every_city_gets_an_entry (E : Env) (cities : list string) (w : world) :
  exists d w',
    get_weather_for_cities E cities w = (Ok d, w')
    /\ (forall city, In city cities ->
          exists j, dict_get city d = Some j
                    /\ (envelope_for (query_of city) j \/ reading_for (query_of city) j))
    /\ (forall k, ~ In k cities -> dict_get k d = None)
    /\ spends (3 * List.length cities) 0 w w'.
Proof.
  destruct (weather_loop_covers E cities [] w) as [d [w' [Hrun [Hcov Hout]]]].
  exists d, w'. split; [exact Hrun |]. split; [exact Hcov |]. split.
  - intros k Hk. rewrite (Hout k Hk). reflexivity.
  - pose proof (Spending.costs_weather_loop E cities [] w) as Hcost.
    unfold get_weather_for_cities in Hrun. rewrite Hrun in Hcost. exact Hcost.
Qed.

Lemma key_metrics_keys (E : Env) (weather_data m : json) :
  key_metrics E weather_data = Ok m ->
  exists d, m = JObj d /\ dict_keys d = metric_keys.
Proof.
  unfold key_metrics.
  repeat match goal with
         | |- rbind ?c _ = Ok _ -> _ =>
             destruct c; cbn [rbind]; [| intros Hc; discriminate Hc]
         end.
  intros H. injection H as <-. eexists. split; reflexivity.
Qed.

(** X8: on a dict, [extract_key_metrics] never raises, hands an
    input that carries 'error' back unchanged, and otherwise returns
    either the eighteen metrics or an error dict; so its result carries
    'error' exactly when the input did or the extraction failed. *)
Theorem metrics_or_error (E : Env) (d : dict json) :
  exists r,
    extract_key_metrics E (JObj d) = Ok (JObj r)
    /\ (dict_has "error" d = true -> r = d)
    /\ (dict_has "error" r = false -> dict_keys r = metric_keys)
    /\ (dict_has "error" r = true
        <-> dict_has "error" d = true \/ exists e, key_metrics E (JObj d) = Raise e).
Proof.
  rewrite Envelopes.extract_returns.
  destruct (dict_has "error" d) eqn:Herr.
  - exists d. split; [reflexivity |]. split; [intros _; reflexivity |].
    split; [intros Hc; rewrite Herr in Hc; discriminate Hc |].
    rewrite Herr. split; [intros _; left; reflexivity | intros _; reflexivity].
  - destruct (key_metrics E (JObj d)) as [m | e] eqn:Hm.
    + destruct (key_metrics_keys E (JObj d) m Hm) as [r [-> Hkeys]].
      exists r. split; [reflexivity |]. split; [intros Hc; discriminate Hc |].
      split; [intros _; exact Hkeys |].
      assert (Hno : dict_has "error" r = false).
      { destruct (dict_has "error" r) eqn:Hr; [| reflexivity].
        apply dict_has_in_keys in Hr. rewrite Hkeys in Hr.
        repeat (destruct Hr as [Hr | Hr]; [discriminate Hr |]). destruct Hr. }
      rewrite Hno. split; [intros Hc; discriminate Hc |].
      intros [Hc | [e He]]; discriminate.
    + eexists. split; [reflexivity |]. split; [intros Hc; discriminate Hc |].
      split; [intros Hc; discriminate Hc |].
      split; [intros _; right; exists e; reflexivity | intros _; reflexivity].
Qed.

End CityWeather.

(** ** The AirNow client *)

Module AirNow.
Import Py World AirQualityClient FetchNotions AirNotions.

Lemma envelope_run (E : Env) (cause : string) (latitude longitude : json) (w : world) :
  error_envelope E cause latitude longitude w
  = (Ok (JObj [("error", JStr cause);
               ("api_timestamp", JStr (isoformat E (utcnow E (clock_reads w))));
               ("coordinates", coordinates latitude longitude)]),
     snd (now E w)).
Proof. reflexivity. Qed.

Lemma short_envelope_run (E : Env) (cause : string) (w : world) :
  short_envelope E cause w
  = (Ok (JObj [("error", JStr cause);
               ("api_timestamp", JStr (isoformat E (utcnow E (clock_reads w))))]),
     snd (now E w)).
Proof. reflexivity. Qed.

(** What the [try] block of [get_current_aqi_by_coordinates] leaves: one
    more call, whatever its outcome, and a stamped object when it returns. *)
Lemma current_aqi_run (E : Env) (latitude longitude : json) (w : world) :
  let w' := snd (current_aqi E latitude longitude w) in
  airnow_calls w' = (latitude, longitude) :: airnow_calls w
  /\ weather_calls w' = weather_calls w
  /\ db_txns w' = db_txns w /\ table w' = table w /\ next_id w' = next_id w
  /\ forall j, fst (current_aqi E latitude longitude w) = Ok j ->
       exists r, j = JObj r
                 /\ dict_has "api_timestamp" r = true
                 /\ dict_has "error" r
                    = match airnow E (List.length (airnow_calls w)) latitude longitude with
                      | Response _ (JsonBody (JObj data)) _ => dict_has "error" data
                      | _ => false
                      end
                 /\ dict_get "coordinates" r = Some (coordinates latitude longitude).
Proof.
  unfold current_aqi, bind, get_airnow. cbn [fst snd].
  destruct (airnow E (List.length (airnow_calls w)) latitude longitude)
    as [status b err | msg | msg]; cbn [raise fst snd airnow_calls weather_calls db_txns table next_id].
  2,3: repeat split; intros j Hj; discriminate Hj.
  destruct (is_error_status status);
    cbn [raise fst snd airnow_calls weather_calls db_txns table next_id].
  { repeat split. intros j Hj. discriminate Hj. }
  destruct b as [data | why];
    cbn [raise fst snd airnow_calls weather_calls db_txns table next_id].
  2:{ repeat split. intros j Hj. discriminate Hj. }
  destruct data; cbn; repeat split; intros j Hj; try discriminate Hj;
    injection Hj as <-; eexists; (split; [reflexivity |]).
  - repeat split.
  - rewrite DictFacts.dict_get_set_same. split; [| split; [| reflexivity]].
    + apply DictFacts.dict_has_in_keys. rewrite DictFacts.dict_keys_set.
      assert (Hin : In "api_timestamp"
                       (dict_keys (dict_set "api_timestamp"
                          (JStr (isoformat E (utcnow E (clock_reads w)))) d))).
      { apply DictFacts.dict_get_in_keys. rewrite DictFacts.dict_get_set_same. discriminate. }
      destruct (dict_has "coordinates" _); [exact Hin | apply in_or_app; left; exact Hin].
    + unfold dict_has. rewrite !DictFacts.dict_get_set_other by discriminate. reflexivity.
Qed.

(** What a look-up by coordinates does, with and without a key. *)
Lemma lookup_run (E : Env) (latitude longitude : json) (w : world) :
  exists r w',
    get_current_aqi_by_coordinates E latitude longitude w = (Ok (JObj r), w')
    /\ dict_has "api_timestamp" r = true
    /\ dict_get "coordinates" r = Some (coordinates latitude longitude)
    /\ airnow_calls w'
       = (if airnow_api_key E then (latitude, longitude) :: airnow_calls w
          else airnow_calls w)
    /\ (airnow_api_key E = false ->
        dict_get "error" r = Some (JStr "AirNow API key not configured"))
    /\ weather_calls w' = weather_calls w
    /\ db_txns w' = db_txns w /\ table w' = table w.
Proof.
  unfold get_current_aqi_by_coordinates.
  destruct (airnow_api_key E) eqn:Hkey; cbn [negb].
  - unfold try_except.
    pose proof (current_aqi_run E latitude longitude w) as Hrun. cbn zeta in Hrun.
    destruct (current_aqi E latitude longitude w) as [[j | e] w1]; cbn [fst snd] in Hrun.
    + destruct Hrun as [Hc [Hw [Hd [Ht [_ Hj]]]]].
      destruct (Hj j eq_refl) as [r [-> [Hts [_ Hco]]]].
      exists r, w1. repeat split; try assumption. intros Hc'. discriminate Hc'.
    + destruct Hrun as [Hc [Hw [Hd [Ht _]]]].
      destruct (is_RequestException e); rewrite envelope_run;
        (eexists; eexists; split; [reflexivity |]);
        cbn; repeat split; try assumption; intros Hc'; discriminate Hc'.
  - rewrite envelope_run. eexists. eexists. split; [reflexivity |].
    cbn. repeat split.
Qed.

(** X9: a look-up by coordinates never raises and always returns an
    object stamped with the time and the coordinates asked for.  Without an
    API key it sends nothing and reports 'AirNow API key not configured';
    with a key it sends exactly one request -- a failure is not retried --
    and it touches neither OpenWeatherMap nor the store. *)
Theorem one_request_per_lookup (E : Env) (latitude longitude : json) (w : world) :
  exists r w',
    get_current_aqi_by_coordinates E latitude longitude w = (Ok (JObj r), w')
    /\ dict_has "api_timestamp" r = true
    /\ dict_get "coordinates" r = Some (coordinates latitude longitude)
    /\ airnow_calls w'
       = (if airnow_api_key E then (latitude, longitude) :: airnow_calls w
          else airnow_calls w)
    /\ (airnow_api_key E = false ->
        dict_get "error" r = Some (JStr "AirNow API key not configured"))
    /\ weather_calls w' = weather_calls w
    /\ db_txns w' = db_txns w /\ table w' = table w.
Proof. apply lookup_run. Qed.

(** X10: with a key configured, the 'error' of a look-up tells how the
    request went: the text of a time-out or connection failure, the HTTP
    error of a 4xx or 5xx answer, the decoder's complaint about a body that
    is not JSON, and 'Unexpected error: ...' for a JSON body that is neither
    a list nor an object.  A list of observations gives no 'error'; an
    object keeps the 'error' it came with. *)
Theorem lookup_error_tells_the_failure
        (E : Env) (latitude longitude : json) (w : world) :
  airnow_api_key E = true ->
  exists r w',
    get_current_aqi_by_coordinates E latitude longitude w = (Ok (JObj r), w')
    /\ dict_get "error" r
       = match airnow E (List.length (airnow_calls w)) latitude longitude with
         | TimedOut msg | Failed msg => Some (JStr msg)
         | Response status b http_error =>
             if is_error_status status then Some (JStr http_error)
             else match b with
                  | BadBody why => Some (JStr why)
                  | JsonBody (JArr _) => None
                  | JsonBody (JObj data) => dict_get "error" data
                  | JsonBody v =>
                      Some (JStr ("Unexpected error: '" ++ type_name v
                                  ++ "' object does not support item assignment"))
                  end
         end.
Proof.
  intros Hkey. unfold get_current_aqi_by_coordinates, try_except.
  rewrite Hkey. cbn [negb]. unfold current_aqi, bind, get_airnow.
  destruct (airnow E (List.length (airnow_calls w)) latitude longitude)
    as [status b err | msg | msg].
  2,3: eexists; eexists; split; reflexivity.
  destruct (is_error_status status).
  { eexists. eexists. split; reflexivity. }
  destruct b as [data | why].
  2:{ eexists. eexists. split; reflexivity. }
  destruct data; try (eexists; eexists; split; reflexivity).
  eexists. eexists. split; [reflexivity |].
  rewrite !DictFacts.dict_get_set_other by discriminate. reflexivity.
Qed.

(** Chicago's coordinates time out at AirNow. *)
Lemma lookup_error_tells_the_failure_witness :
  exists r w',
    get_current_aqi_by_coordinates
      (Samples.env Samples.weather_ok airnow_down Samples.store_up)
      (JFloat (4185 # 100)) (JFloat (-8765 # 100)) Samples.fresh = (Ok (JObj r), w')
    /\ dict_get "error" r = Some (JStr "Read timed out. (read timeout=30)").
Proof.
  exact (lookup_error_tells_the_failure
           (Samples.env Samples.weather_ok airnow_down Samples.store_up)
           (JFloat (4185 # 100)) (JFloat (-8765 # 100)) Samples.fresh eq_refl).
Defined.

(** X11: the AirNow look-up of a weather payload never raises.  A
    payload holding 'error', or one without 'coord', or whose 'coord' lacks
    a latitude or a longitude (absent or null), is answered with an error
    and no request; otherwise the request, sent when a key is configured,
    carries exactly the payload's latitude and longitude. *)
Theorem lookup_needs_coordinates (E : Env) (d : dict json) (w : world) :
  exists r w',
    get_aqi_for_weather_data E (JObj d) w = (Ok (JObj r), w')
    /\ (dict_has "error" d = true ->
        dict_get "error" r = Some (JStr "Cannot fetch AQI: Weather data contains error")
        /\ airnow_calls w' = airnow_calls w)
    /\ (dict_has "error" d = false -> dict_get "coord" d = None ->
        dict_get "error" r = Some (JStr "Weather data missing coordinates")
        /\ airnow_calls w' = airnow_calls w)
    /\ (forall c,
          dict_has "error" d = false -> dict_get "coord" d = Some (JObj c) ->
          dict_get "lat" c = None \/ dict_get "lat" c = Some JNull
          \/ dict_get "lon" c = None \/ dict_get "lon" c = Some JNull ->
          dict_get "error" r = Some (JStr "Weather data missing coordinates")
          /\ airnow_calls w' = airnow_calls w)
    /\ (forall c lat lon,
          dict_has "error" d = false -> dict_get "coord" d = Some (JObj c) ->
          dict_get "lat" c = Some lat -> lat <> JNull ->
          dict_get "lon" c = Some lon -> lon <> JNull ->
          airnow_calls w'
          = if airnow_api_key E then (lat, lon) :: airnow_calls w else airnow_calls w).
Proof.
  unfold get_aqi_for_weather_data, bind at 1, lift at 1. cbn [py_in].
  destruct (dict_has "error" d) eqn:Herr.
  { rewrite short_envelope_run. eexists. eexists. split; [reflexivity |].
    split; [intros _; split; reflexivity |].
    split; [intros Hc; discriminate Hc |].
    split; intros; discriminate. }
  unfold try_except, bind, lift. cbn [py_get_default].
  destruct (dict_get "coord" d) as [coord |] eqn:Hcoord.
  2:{ cbn. eexists. eexists. split; [reflexivity |].
      split; [intros Hc; discriminate Hc |].
      split; [intros _ _; split; reflexivity |].
      split; intros; discriminate. }
  destruct coord as [| b | z | q | s | l | c];
    try (cbn; eexists; eexists; split; [reflexivity |];
         split; [intros Hc; discriminate Hc |];
         split; [intros _ Hc; discriminate Hc |];
         split; intros; discriminate).
  cbn [py_get py_get_default].
  destruct (dict_get "lat" c) as [lat |] eqn:Hlat.
  2:{ cbn. eexists. eexists. split; [reflexivity |].
      split; [intros Hc; discriminate Hc |].
      split; [intros _ Hc; discriminate Hc |].
      split.
      - intros c' _ Hc' _. split; reflexivity.
      - intros c' lat lon _ Hc' Hlat'. injection Hc' as <-.
        rewrite Hlat in Hlat'. discriminate Hlat'. }
  destruct (dict_get "lon" c) as [lon |] eqn:Hlon.
  2:{ replace (is_None lat || is_None JNull) with true
        by (destruct (is_None lat); reflexivity).
      rewrite short_envelope_run. eexists. eexists. split; [reflexivity |].
      split; [intros Hc; discriminate Hc |].
      split; [intros _ Hc; discriminate Hc |].
      split.
      - intros c' _ Hc' _. split; reflexivity.
      - intros c' lat' lon' _ Hc' _ _ Hlon'. injection Hc' as <-.
        rewrite Hlon in Hlon'. discriminate Hlon'. }
  destruct (is_None lat || is_None lon) eqn:Hnone.
  { rewrite short_envelope_run. eexists. eexists. split; [reflexivity |].
    split; [intros Hc; discriminate Hc |].
    split; [intros _ Hc; discriminate Hc |].
    split.
    - intros c' _ Hc' _. split; reflexivity.
    - intros c' lat' lon' _ Hc' Hlat' Hnl Hlon' Hnn. injection Hc' as <-.
      rewrite Hlat in Hlat'. rewrite Hlon in Hlon'.
      injection Hlat' as <-. injection Hlon' as <-.
      destruct lat; try (exfalso; apply Hnl; reflexivity);
        destruct lon; try (exfalso; apply Hnn; reflexivity); discriminate Hnone. }
  destruct (lookup_run E lat lon w) as [r [w' [Hrun [_ [_ [Hcalls _]]]]]].
  rewrite Hrun. exists r, w'. split; [reflexivity |].
  split; [intros Hc; discriminate Hc |].
  split; [intros _ Hc; discriminate Hc |].
  split.
  - intros c' _ Hc' Hmiss. injection Hc' as <-. exfalso.
    rewrite Hlat, Hlon in Hmiss.
    destruct Hmiss as [H | [H | [H | H]]]; try discriminate H;
      injection H as ->; cbn in Hnone; try discriminate Hnone.
    destruct (is_None lat); discriminate Hnone.
  - intros c' lat' lon' _ Hc' Hlat' _ Hlon' _. injection Hc' as <-.
    rewrite Hlat in Hlat'. rewrite Hlon in Hlon'.
    injection Hlat' as <-. injection Hlon' as <-. exact Hcalls.
Qed.

End AirNow.

(** ** Air-quality metrics *)

Module AirMetrics.
Import Py World AirQualityClient AirNotions.

Lemma in_range_int (m lo hi : Z) :
  in_range (JInt m) lo hi = (lo <=? m) && (m <? hi).
Proof.
  unfold in_range. cbn [num_of]. rewrite Qfloor_Z.
  assert (H : Qeq_bool (inject_Z m) (inject_Z m) = true)
    by (apply Qeq_bool_iff; reflexivity).
  rewrite H. reflexivity.
Qed.

Ltac decide_cmp :=
  repeat match goal with
         | |- context [?a <=? ?b] =>
             first [ rewrite (proj2 (Z.leb_le a b)) by lia
                   | rewrite (proj2 (Z.leb_gt a b)) by lia ]
         | |- context [?a <? ?b] =>
             first [ rewrite (proj2 (Z.ltb_lt a b)) by lia
                   | rewrite (proj2 (Z.ltb_ge a b)) by lia ]
         end.

Lemma find_category_int (m : Z) :
  find_category (JInt m) category_mapping = band_of m.
Proof.
  unfold category_mapping, find_category. rewrite !in_range_int. unfold band_of.
  destruct (Z.ltb_spec m 0); [decide_cmp; reflexivity |].
  destruct (Z.leb_spec m 50); [decide_cmp; reflexivity |].
  destruct (Z.leb_spec m 100); [decide_cmp; reflexivity |].
  destruct (Z.leb_spec m 150); [decide_cmp; reflexivity |].
  destruct (Z.leb_spec m 200); [decide_cmp; reflexivity |].
  destruct (Z.leb_spec m 300); [decide_cmp; reflexivity |].
  destruct (Z.leb_spec m 500); decide_cmp; reflexivity.
Qed.

Ltac run H :=
  match type of H with
  | rbind ?c _ = Ok _ =>
      let x := fresh "x" in
      let Hx := fresh "Hx" in
      destruct c as [x | ?] eqn:Hx; cbn [rbind] in H; [| discriminate H]
  end.

(** The metrics the [try] block returns begin with the overall AQI and the
    category and colour found for it. *)
Lemma air_metrics_shape (j m : json) :
  air_metrics j = Ok m ->
  (exists ts, m = JObj [("error", JStr "No air quality observations found");
                        ("api_timestamp", ts)])
  \/ exists v rest,
       m = JObj (("overall_aqi", v)
                 :: ("overall_category", JStr (fst (find_category v category_mapping)))
                 :: ("overall_color", JStr (snd (find_category v category_mapping)))
                 :: rest).
Proof.
  unfold air_metrics. intros H. run H.
  destruct (negb (py_truthy x)).
  - run H. injection H as <-. left. eexists. reflexivity.
  - run H. run H. destruct x1 as [pm25_obs ozone_obs]. run H. run H.
    destruct (find_category x2 category_mapping) as [category color] eqn:Hcat.
    repeat run H. injection H as <-. right. exists x2. eexists.
    rewrite Hcat. reflexivity.
Qed.

(** X12: the category and colour reported with an integer overall AQI
    are those of its band: Good up to 50, Moderate up to 100, Unhealthy for
    Sensitive Groups up to 150, Unhealthy up to 200, Very Unhealthy up to
    300, Hazardous up to 500, and Unknown (Gray) below 0 and above 500. *)
Theorem category_follows_the_bands (d : dict json) :
  dict_has "error" d = false ->
  exists r,
    extract_key_metrics (JObj d) = Ok (JObj r)
    /\ forall m, dict_get "overall_aqi" r = Some (JInt m) ->
                 dict_get "overall_category" r = Some (JStr (fst (band_of m)))
                 /\ dict_get "overall_color" r = Some (JStr (snd (band_of m))).
Proof.
  intros Herr. unfold extract_key_metrics. cbn [py_in rbind]. rewrite Herr.
  destruct (air_metrics (JObj d)) as [m | e] eqn:Hm.
  - destruct (air_metrics_shape _ _ Hm) as [[ts ->] | [v [rest ->]]].
    + eexists. split; [reflexivity |]. intros m Hc. discriminate Hc.
    + eexists. split; [reflexivity |]. intros m Hc. cbn in Hc. injection Hc as ->.
      rewrite find_category_int. split; reflexivity.
  - eexists. split; [reflexivity |]. intros m Hc. discriminate Hc.
Qed.


(** Chicago with a PM2.5 reading of 57 and an ozone reading of 101. *)
Lemma category_follows_the_bands_witness :
  exists r,
    extract_key_metrics
      (JObj [("observations", JArr [pm25_reading 57; ozone_reading 101]);
             ("api_timestamp", JStr "2023-11-14T22:13:20")]) = Ok (JObj r)
    /\ forall m, dict_get "overall_aqi" r = Some (JInt m) ->
                 dict_get "overall_category" r = Some (JStr (fst (band_of m)))
                 /\ dict_get "overall_color" r = Some (JStr (snd (band_of m))).
Proof.
  exact (category_follows_the_bands
           [("observations", JArr [pm25_reading 57; ozone_reading 101]);
            ("api_timestamp", JStr "2023-11-14T22:13:20")] eq_refl).
Defined.

(** *** The overall AQI *)

Lemma py_max_from_ints (c : Z) (zs : list Z) :
  py_max_from (JInt c) (map JInt zs) = Ok (JInt (fold_left Z.max zs c)).
Proof.
  revert c. induction zs as [| a zs IH]; intros c; cbn [map py_max_from fold_left].
  - reflexivity.
  - unfold py_gt. cbn [py_order num_of rbind]. unfold Qcompare.
    cbn [Qnum Qden inject_Z]. rewrite !Z.mul_1_r.
    destruct (Z.compare_spec a c) as [Heq | Hlt | Hgt]; cbn [holds]; rewrite IH.
    + subst. rewrite Z.max_id. reflexivity.
    + rewrite Z.max_l by lia. reflexivity.
    + rewrite Z.max_r by lia. reflexivity.
Qed.

Lemma fold_max_bounds (zs : list Z) (c : Z) :
  c <= fold_left Z.max zs c
  /\ (forall a, In a zs -> a <= fold_left Z.max zs c)
  /\ (fold_left Z.max zs c = c \/ In (fold_left Z.max zs c) zs).
Proof.
  revert c. induction zs as [| a zs IH]; intros c; cbn [fold_left].
  - split; [lia |]. split; [intros a [] | left; reflexivity].
  - destruct (IH (Z.max c a)) as [Hge [Hall Hin]].
    split; [lia |]. split.
    + intros b [<- | Hb]; [lia | apply Hall; exact Hb].
    + destruct Hin as [Heq | Hin]; [| right; right; exact Hin].
      rewrite Heq. destruct (Z.max_spec c a) as [[_ ->] | [_ ->]];
        [right; left; reflexivity | left; reflexivity].
Qed.

Lemma find_parameters_total (items : list json) (pm25_obs ozone_obs : option json) :
  forallb well_formed items = true ->
  found_ok pm25_obs -> found_ok ozone_obs ->
  exists p o, find_parameters items pm25_obs ozone_obs = Ok (p, o)
              /\ found_ok p /\ found_ok o.
Proof.
  revert pm25_obs ozone_obs.
  induction items as [| obs rest IH]; intros pm25_obs ozone_obs Hwf Hp Ho.
  - eexists. eexists. split; [reflexivity |]. split; assumption.
  - cbn [forallb] in Hwf. apply andb_prop in Hwf. destruct Hwf as [Hobs Hrest].
    cbn [find_parameters].
    destruct obs as [| b | z | q | s | l | o]; try discriminate Hobs.
    cbn [py_get_default rbind]. unfold well_formed in Hobs.
    destruct (dict_get "ParameterName" o) as [[| b | z | q | s | l | o'] |];
      try discriminate Hobs; cbn [py_upper rbind].
    + destruct (is_substring "PM2.5" (upper s) && negb (held pm25_obs)).
      { apply IH; [exact Hrest | eexists; reflexivity | exact Ho]. }
      destruct (is_substring "OZONE" (upper s) && negb (held ozone_obs)).
      { apply IH; [exact Hrest | exact Hp | eexists; reflexivity]. }
      apply IH; assumption.
    + cbn [upper is_substring is_prefix orb andb]. apply IH; assumption.
Qed.

Lemma aqis_of_well_formed (items : list json) :
  forallb well_formed items = true ->
  rmap (fun obs => py_get_default obs "AQI" (JInt 0)) items
  = Ok (map JInt (map counted items))
  /\ forall obs, In obs items -> aqi_of obs = Some (counted obs).
Proof.
  induction items as [| obs rest IH]; intros Hwf.
  - split; [reflexivity | intros obs []].
  - cbn [forallb] in Hwf. apply andb_prop in Hwf. destruct Hwf as [Hobs Hrest].
    destruct (IH Hrest) as [Hrun Hall].
    assert (Hone : py_get_default obs "AQI" (JInt 0) = Ok (JInt (counted obs))
                   /\ aqi_of obs = Some (counted obs)).
    { destruct obs as [| b | z | q | s | l | o]; try discriminate Hobs.
      unfold well_formed in Hobs. apply andb_prop in Hobs. destruct Hobs as [_ Hobs].
      unfold counted, aqi_of in *. cbn [py_get_default].
      destruct (dict_get "AQI" o) as [[| b | z | q | s | l | o'] |];
        try discriminate Hobs; split; reflexivity. }
    destruct Hone as [Hget Haqi]. split.
    + cbn [rmap map rbind]. rewrite Hget. cbn [rbind]. rewrite Hrun. reflexivity.
    + intros x [<- | Hx]; [exact Haqi | apply Hall; exact Hx].
Qed.

Lemma get_if_total (found : option json) (k : string) :
  found_ok found -> exists v, get_if found k = Ok v.
Proof.
  unfold get_if. destruct found as [obs |]; cbn [held found_ok].
  - intros [o ->]. destruct (py_truthy (JObj o)); eexists; reflexivity.
  - intros _. eexists. reflexivity.
Qed.

(** X13: for observations that are objects with an integer 'AQI' (or
    none, which counts as 0) the metrics are extracted without error, the
    overall AQI is the highest AQI among the observations, and every
    observation is counted. *)
Theorem overall_aqi_is_the_highest (d : dict json) (first : json) (rest : list json) :
  dict_has "error" d = false ->
  dict_get "observations" d = Some (JArr (first :: rest)) ->
  forallb well_formed (first :: rest) = true ->
  exists r m,
    extract_key_metrics (JObj d) = Ok (JObj r)
    /\ dict_has "error" r = false
    /\ dict_get "overall_aqi" r = Some (JInt m)
    /\ (exists obs, In obs (first :: rest) /\ aqi_of obs = Some m)
    /\ (forall obs a, In obs (first :: rest) -> aqi_of obs = Some a -> a <= m)
    /\ dict_get "total_observations" r
       = Some (JInt (Z.of_nat (List.length (first :: rest)))).
Proof.
  intros Herr Hobs Hwf.
  destruct (find_parameters_total (first :: rest) None None Hwf I I)
    as [p [o [Hfind [Hp Ho]]]].
  destruct (aqis_of_well_formed _ Hwf) as [Haqis Hall].
  pose proof (fold_max_bounds (map counted rest) (counted first)) as [Hge [Hle Hin]].
  assert (Hfirst : exists fo, first = JObj fo).
  { cbn [forallb] in Hwf. apply andb_prop in Hwf. destruct Hwf as [Hf _].
    destruct first; try discriminate Hf. eexists. reflexivity. }
  destruct Hfirst as [fo ->].
  destruct (get_if_total p "AQI" Hp) as [v1 H1].
  destruct (get_if_total p "Value" Hp) as [v2 H2].
  destruct (get_if_total p "Unit" Hp) as [v3 H3].
  destruct (get_if_total o "AQI" Ho) as [v4 H4].
  destruct (get_if_total o "Value" Ho) as [v5 H5].
  destruct (get_if_total o "Unit" Ho) as [v6 H6].
  unfold extract_key_metrics. cbn [py_in rbind]. rewrite Herr.
  unfold air_metrics. cbn [py_get_default rbind]. rewrite Hobs.
  cbn [py_truthy negb py_iter rbind]. rewrite Hfind. cbn [rbind].
  rewrite Haqis. cbn [rbind map py_max]. rewrite py_max_from_ints. cbn [rbind].
  destruct (find_category (JInt (fold_left Z.max (map counted rest) (counted (JObj fo))))
                          category_mapping) as [category color].
  rewrite H1, H2, H3, H4, H5, H6.
  cbn [rbind py_item0 py_get py_get_default py_len].
  eexists. eexists. split; [reflexivity |]. split; [reflexivity |].
  split; [reflexivity |]. split; [| split; [| reflexivity]].
  - destruct Hin as [Heq | Hin].
    + exists (JObj fo). split; [left; reflexivity |]. rewrite Heq.
      apply Hall. left. reflexivity.
    + apply in_map_iff in Hin. destruct Hin as [obs [Hc Hobs']].
      exists obs. split; [right; exact Hobs' |]. rewrite <- Hc.
      apply Hall. right. exact Hobs'.
  - intros obs a [<- | Hrest] Ha.
    + rewrite (Hall (JObj fo) (or_introl eq_refl)) in Ha. injection Ha as <-. exact Hge.
    + rewrite (Hall obs (or_intror Hrest)) in Ha. injection Ha as <-.
      apply Hle. apply in_map. exact Hrest.
Qed.

Lemma overall_aqi_is_the_highest_witness :
  exists r m,
    extract_key_metrics
      (JObj [("observations", JArr [pm25_reading 57; ozone_reading 101]);
             ("api_timestamp", JStr "2023-11-14T22:13:20")]) = Ok (JObj r)
    /\ dict_has "error" r = false
    /\ dict_get "overall_aqi" r = Some (JInt m)
    /\ (exists obs, In obs [pm25_reading 57; ozone_reading 101] /\ aqi_of obs = Some m)
    /\ (forall obs a, In obs [pm25_reading 57; ozone_reading 101] ->
                      aqi_of obs = Some a -> a <= m)
    /\ dict_get "total_observations" r = Some (JInt 2).
Proof.
  exact (overall_aqi_is_the_highest
           [("observations", JArr [pm25_reading 57; ozone_reading 101]);
            ("api_timestamp", JStr "2023-11-14T22:13:20")]
           (pm25_reading 57) [ozone_reading 101] eq_refl eq_refl eq_refl).
Defined.

End AirMetrics.

(** ** Loading a batch *)

Module Loading.
Import Py World WeatherETL StoreNotions LoadNotions.
Import Db (key_of).

Lemma present_key (o : observation) (t : Db.table) :
  In (natural_key o) (map key_of t) -> existsb (same_key o) t = true.
Proof.
  intros Hin. destruct (existsb (same_key o) t) eqn:H; [reflexivity |].
  exfalso. exact (Store.absent_key _ _ H Hin).
Qed.

Lemma upsert_identity (ts new_id : Z) (o : observation) (t : Db.table) :
  In (natural_key o) (map key_of t) ->
  map identity_of (upsert ts new_id o t) = map identity_of t.
Proof.
  induction t as [| r t IH]; cbn [map upsert]; [intros [] |].
  intros Hin. destruct (same_key o r) eqn:Hk; cbn [map].
  - reflexivity.
  - f_equal. apply IH. destruct Hin as [Hr | Hin]; [| exact Hin].
    exfalso. rewrite Store.same_key_has_key in Hk.
    assert (Ht : has_key (natural_key o) r = true)
      by (apply Store.has_key_iff; symmetry; exact Hr).
    rewrite Ht in Hk. discriminate Hk.
Qed.

Lemma upsert_keeps_keys (ts new_id : Z) (o : observation) (t : Db.table) (k : json * Z) :
  In k (map key_of t) -> In k (map key_of (upsert ts new_id o t)).
Proof.
  intros Hin. rewrite Store.upsert_keys.
  destruct (existsb (same_key o) t); [exact Hin | apply in_or_app; left; exact Hin].
Qed.

Lemma upsert_has_key (ts new_id : Z) (o : observation) (t : Db.table) :
  In (natural_key o) (map key_of (upsert ts new_id o t)).
Proof.
  rewrite Store.upsert_keys. destruct (existsb (same_key o) t) eqn:Hex.
  - apply existsb_exists in Hex. destruct Hex as [r [Hin Hk]].
    rewrite Store.same_key_has_key in Hk. apply Store.has_key_iff in Hk.
    rewrite Hk. apply in_map. exact Hin.
  - apply in_or_app. right. left. reflexivity.
Qed.

Lemma upsert_length (ts new_id : Z) (o : observation) (t : Db.table) :
  (List.length t <= List.length (upsert ts new_id o t) <= S (List.length t))%nat.
Proof.
  induction t as [| r t IH]; cbn [upsert List.length]; [lia |].
  destruct (same_key o r); cbn [List.length]; lia.
Qed.

Lemma executemany_keys (ts : Z) (observations : list observation)
      (t : Db.table) (seq : Z) :
  (forall k, In k (map key_of t) ->
             In k (map key_of (fst (executemany ts observations t seq))))
  /\ (forall o, In o observations ->
                In (natural_key o) (map key_of (fst (executemany ts observations t seq))))
  /\ (List.length t <= List.length (fst (executemany ts observations t seq))
      <= List.length t + List.length observations)%nat.
Proof.
  revert t seq. induction observations as [| o rest IH]; intros t seq;
    cbn [executemany fst List.length].
  - split; [intros k Hk; exact Hk |]. split; [intros o [] | lia].
  - destruct (IH (upsert ts seq o t) (seq + 1)) as [Hkeep [Hcover Hlen]].
    pose proof (upsert_length ts seq o t) as Hup.
    split; [| split; [| lia]].
    + intros k Hk. apply Hkeep. apply upsert_keeps_keys. exact Hk.
    + intros x [<- | Hx]; [apply Hkeep; apply upsert_has_key | apply Hcover; exact Hx].
Qed.

Lemma executemany_identity (ts : Z) (observations : list observation)
      (t : Db.table) (seq : Z) :
  (forall o, In o observations -> In (natural_key o) (map key_of t)) ->
  map identity_of (fst (executemany ts observations t seq)) = map identity_of t.
Proof.
  revert t seq. induction observations as [| o rest IH]; intros t seq Hall;
    cbn [executemany fst]; [reflexivity |].
  rewrite IH.
  - apply upsert_identity. apply Hall. left. reflexivity.
  - intros x Hx. apply upsert_keeps_keys. apply Hall. right. exact Hx.
Qed.

(** X14: a load is one transaction, all or nothing.  It does nothing
    outside the store; an empty batch does not even open a transaction;
    a fault of the store raises a database error and leaves the table as
    it was; otherwise the count returned is the size
    of the batch, every record of the batch and every key stored before has
    a row, and the table grew by at most the size of the batch. *)
Theorem load_is_all_or_nothing (E : Env) (observations : list observation) (w : world) :
  exists result w',
    load_observations_to_db E observations w = (result, w')
    /\ only_store w w'
    /\ (observations = [] -> result = Ok 0 /\ w' = w)
    /\ match result with
       | Raise e =>
           exn_cls e = DatabaseError /\ table w' = table w
       | Ok n =>
           n = Z.of_nat (List.length observations)
           /\ (forall o, In o observations ->
                         In (natural_key o) (map key_of (table w')))
           /\ (forall k, In k (map key_of (table w)) -> In k (map key_of (table w')))
           /\ (List.length (table w) <= List.length (table w')
               <= List.length (table w) + List.length observations)%nat
       end.
Proof.
  unfold load_observations_to_db. destruct observations as [| o rest].
  { exists (Ok 0), w. split; [reflexivity |]. split; [repeat split |].
    split; [intros _; split; reflexivity |].
    split; [reflexivity |]. split; [intros o [] |]. split; [intros k Hk; exact Hk |].
    cbn. lia. }
  destruct (db_fault E (db_txns w)) as [msg |].
  { eexists. eexists. split; [reflexivity |]. split; [repeat split |].
    split; [intros Hc; discriminate Hc |]. repeat split. }
  destruct (Db.conflict_fault (db_indexes E) conflict_target) as [msg |].
  { eexists. eexists. split; [reflexivity |]. split; [repeat split |].
    split; [intros Hc; discriminate Hc |]. repeat split. }
  pose proof (executemany_keys (db_now E (db_txns w)) (o :: rest) (table w) (next_id w))
    as [Hkeep [Hcover Hlen]].
  destruct (executemany (db_now E (db_txns w)) (o :: rest) (table w) (next_id w))
    as [t' seq'].
  cbn [fst] in *.
  eexists. eexists. split; [reflexivity |]. split; [repeat split |].
  split; [intros Hc; discriminate Hc |].
  cbn [table]. split; [reflexivity |]. split; [exact Hcover |]. split; [exact Hkeep |].
  exact Hlen.
Qed.

(** X15: loading the same batch again is harmless: if the store is up,
    the second load returns the same count and adds no row, and every row
    keeps its id, its key and its creation time. *)
Theorem second_load_adds_nothing
        (E : Env) (observations : list observation) (w w1 : world) (n : Z) :
  load_observations_to_db E observations w = (Ok n, w1) ->
  db_fault E (db_txns w1) = None ->
  exists w2,
    load_observations_to_db E observations w1 = (Ok n, w2)
    /\ map identity_of (table w2) = map identity_of (table w1)
    /\ List.length (table w2) = List.length (table w1).
Proof.
  unfold load_observations_to_db. destruct observations as [| o rest].
  { intros H _. injection H as <- <-. exists w. repeat split. }
  destruct (db_fault E (db_txns w)) as [msg |]; [intros H; discriminate H |].
  destruct (Db.conflict_fault (db_indexes E) conflict_target) as [msg |];
    [intros H; discriminate H |].
  pose proof (executemany_keys (db_now E (db_txns w)) (o :: rest) (table w) (next_id w))
    as [_ [Hcover _]].
  destruct (executemany (db_now E (db_txns w)) (o :: rest) (table w) (next_id w))
    as [t1 seq1].
  cbn [fst] in Hcover. intros H Hup. injection H as <- <-.
  cbn [db_txns table next_id] in *. rewrite Hup.
  pose proof (executemany_identity (db_now E (S (db_txns w))) (o :: rest) t1 seq1 Hcover)
    as Hid.
  destruct (executemany (db_now E (S (db_txns w))) (o :: rest) t1 seq1) as [t2 seq2].
  cbn [fst] in Hid. eexists. split; [reflexivity |]. cbn [table].
  split; [exact Hid |].
  rewrite <- (length_map identity_of t2), <- (length_map identity_of t1), Hid.
  reflexivity.
Qed.

(** Chicago's record loaded twice into an empty table. *)
Lemma second_load_adds_nothing_witness :
  exists w2,
    load_observations_to_db
      (Samples.env Samples.weather_ok Samples.airnow_ok Samples.store_up)
      [first_write]
      (snd (load_observations_to_db
              (Samples.env Samples.weather_ok Samples.airnow_ok Samples.store_up)
              [first_write] Samples.fresh))
    = (Ok 1, w2)
    /\ map identity_of (table w2)
       = map identity_of
           (table (snd (load_observations_to_db
                          (Samples.env Samples.weather_ok Samples.airnow_ok Samples.store_up)
                          [first_write] Samples.fresh)))
    /\ List.length (table w2)
       = List.length
           (table (snd (load_observations_to_db
                          (Samples.env Samples.weather_ok Samples.airnow_ok Samples.store_up)
                          [first_write] Samples.fresh))).
Proof.
  exact (second_load_adds_nothing
           (Samples.env Samples.weather_ok Samples.airnow_ok Samples.store_up)
           [first_write] Samples.fresh
           (snd (load_observations_to_db
                   (Samples.env Samples.weather_ok Samples.airnow_ok Samples.store_up)
                   [first_write] Samples.fresh))
           1 eq_refl eq_refl).
Defined.

End Loading.

(** ** A whole run *)

Module Runs.
Import Py World WeatherETL RunNotions FetchNotions BudgetNotions Spending.

Section Run.
Variable E : Env.

(** *** What the air-quality phase spends *)

Lemma costs_get_airnow (lat lon : json) : costs 0 1 (get_airnow E lat lon).
Proof. intros w. unfold spends. cbn. repeat split; lia. Qed.

Lemma costs_air_envelope (cause : string) (lat lon : json) :
  costs 0 0 (AirQualityClient.error_envelope E cause lat lon).
Proof.
  unfold AirQualityClient.error_envelope.
  apply (costs_bind 0 0 0 0); [apply costs_now_iso | intros ts; apply costs_ret].
Qed.

Lemma costs_short_envelope (cause : string) :
  costs 0 0 (AirQualityClient.short_envelope E cause).
Proof.
  unfold AirQualityClient.short_envelope.
  apply (costs_bind 0 0 0 0); [apply costs_now_iso | intros ts; apply costs_ret].
Qed.

Lemma costs_current_aqi (lat lon : json) :
  costs 0 1 (AirQualityClient.current_aqi E lat lon).
Proof.
  unfold AirQualityClient.current_aqi.
  apply (costs_bind 0 1 0 0); [apply costs_get_airnow | intros o].
  destruct o as [status b err | msg | msg]; try apply costs_raise.
  destruct (is_error_status status); [apply costs_raise |].
  destruct b as [data | why]; [| apply costs_raise].
  destruct data;
    try (apply (costs_bind 0 0 0 0); [apply costs_now_iso | intros ts];
         apply (costs_bind 0 0 0 0); [apply costs_lift | intros r; apply costs_lift]).
  apply (costs_bind 0 0 0 0); [apply costs_now_iso | intros ts; apply costs_ret].
Qed.

Lemma costs_lookup (lat lon : json) :
  costs 0 1 (AirQualityClient.get_current_aqi_by_coordinates E lat lon).
Proof.
  unfold AirQualityClient.get_current_aqi_by_coordinates.
  destruct (negb (airnow_api_key E)).
  - apply (costs_weaken 0 0); try lia. apply costs_air_envelope.
  - apply (costs_try 0 1 0 0); [apply costs_current_aqi | intros e].
    destruct (is_RequestException e); apply costs_air_envelope.
Qed.

Lemma costs_weather_lookup (weather_data : json) :
  costs 0 1 (AirQualityClient.get_aqi_for_weather_data E weather_data).
Proof.
  unfold AirQualityClient.get_aqi_for_weather_data.
  apply (costs_bind 0 0 0 1); [apply costs_lift | intros has_error].
  destruct has_error.
  - apply (costs_weaken 0 0); try lia. apply costs_short_envelope.
  - apply (costs_try 0 1 0 0); [| intros e; apply costs_short_envelope].
    apply (costs_bind 0 0 0 1); [apply costs_lift | intros coord].
    apply (costs_bind 0 0 0 1); [apply costs_lift | intros lat].
    apply (costs_bind 0 0 0 1); [apply costs_lift | intros lon].
    destruct (is_None lat || is_None lon).
    + apply (costs_weaken 0 0); try lia. apply costs_short_envelope.
    + apply costs_lookup.
Qed.

Lemma costs_fetch_aqi (aqi_data : dict json) (item : string * json) :
  costs 0 1 (fetch_aqi E aqi_data item).
Proof.
  unfold fetch_aqi. destruct item as [city weather].
  apply (costs_bind 0 0 0 1); [apply costs_lift | intros has_error].
  destruct (negb has_error).
  - apply (costs_bind 0 1 0 0); [apply costs_weather_lookup | intros aqi; apply costs_ret].
  - apply (costs_weaken 0 0); try lia.
    apply (costs_bind 0 0 0 0); [| intros aqi; apply costs_ret].
    unfold unavailable.
    apply (costs_bind 0 0 0 0); [apply costs_now_iso | intros ts; apply costs_ret].
Qed.

Lemma costs_aqi_loop (items : list (string * json)) (aqi_data : dict json) :
  costs 0 (List.length items) (fetch_air_quality_data_from E aqi_data items).
Proof.
  revert aqi_data. induction items as [| item rest IH]; intros aqi_data.
  - apply costs_ret.
  - cbn [fetch_air_quality_data_from List.length].
    apply (costs_bind 0 1 0 (List.length rest)); [apply costs_fetch_aqi | intros a; apply IH].
Qed.

(** *** What the air-quality phase returns *)

Lemma weather_lookup_object (d : dict json) (w : world) :
  exists r w', AirQualityClient.get_aqi_for_weather_data E (JObj d) w = (Ok (JObj r), w').
Proof.
  unfold AirQualityClient.get_aqi_for_weather_data, bind at 1, lift at 1. cbn [py_in].
  destruct (dict_has "error" d).
  { rewrite AirNow.short_envelope_run. eexists. eexists. reflexivity. }
  unfold try_except, bind, lift.
  destruct (py_get_default (JObj d) "coord" (JObj [])) as [coord | e].
  2:{ rewrite AirNow.short_envelope_run. eexists. eexists. reflexivity. }
  destruct (py_get coord "lat") as [lat | e].
  2:{ rewrite AirNow.short_envelope_run. eexists. eexists. reflexivity. }
  destruct (py_get coord "lon") as [lon | e].
  2:{ rewrite AirNow.short_envelope_run. eexists. eexists. reflexivity. }
  destruct (is_None lat || is_None lon).
  { rewrite AirNow.short_envelope_run. eexists. eexists. reflexivity. }
  destruct (AirNow.lookup_run E lat lon w) as [r [w' [Hrun _]]].
  rewrite Hrun. eexists. eexists. reflexivity.
Qed.

Lemma aqi_loop_objects (items acc : dict json) (w : world) :
  objects items -> objects acc ->
  exists aqi w',
    fetch_air_quality_data_from E acc items w = (Ok aqi, w') /\ objects aqi.
Proof.
  revert acc w. induction items as [| [city weather] rest IH]; intros acc w Hitems Hacc.
  - exists acc, w. split; [reflexivity | exact Hacc].
  - inversion Hitems as [| kv l Hkv Hrest]; subst. cbn [snd] in Hkv.
    destruct weather as [| b | z | q | s | l | d]; try (exfalso; exact Hkv).
    cbn [fetch_air_quality_data_from]. unfold bind at 1.
    unfold fetch_aqi, bind at 1, lift. cbn [py_in].
    destruct (dict_has "error" d); cbn [negb].
    + cbn. apply IH; [exact Hrest |]. apply EtlFacts.objects_set; [exact I | exact Hacc].
    + unfold bind at 1.
      destruct (weather_lookup_object d w) as [r [w' Hrun]]. rewrite Hrun.
      cbn [ret]. apply IH; [exact Hrest |].
      apply EtlFacts.objects_set; [exact I | exact Hacc].
Qed.

(** *** The other phases *)

Lemma weather_loop_length (cities : list string) (results d : dict json) (w w' : world) :
  WeatherClient.get_weather_for_cities_from E results cities w = (Ok d, w') ->
  (List.length d <= List.length results + List.length cities)%nat.
Proof.
  revert results w. induction cities as [| city rest IH]; intros results w.
  - cbn. intros H. injection H as <- _. lia.
  - cbn [WeatherClient.get_weather_for_cities_from]. unfold bind.
    destruct (EtlFacts.fetch_city_returns E results city w) as [j [w1 [Hj _]]].
    rewrite Hj. intros H. apply IH in H.
    assert (Hset : (List.length (dict_set city j results) <= S (List.length results))%nat).
    { clear. induction results as [| [k v] results IHr]; cbn [dict_set List.length]; [lia |].
      destruct (String.eqb city k); cbn [List.length]; lia. }
    cbn [List.length]. lia.
Qed.

Lemma costs_prepare (city : string) (weather_data aqi_data : json) :
  costs 0 0 (prepare_observation_record E city weather_data aqi_data).
Proof.
  unfold prepare_observation_record.
  apply (costs_bind 0 0 0 0); [apply costs_lift | intros has_error].
  apply (costs_bind 0 0 0 0).
  - destruct (negb has_error).
    + repeat (apply (costs_bind 0 0 0 0); [apply costs_lift | intros ?]).
      apply costs_ret.
    + apply (costs_bind 0 0 0 0); [apply costs_now | intros t; apply costs_ret].
  - intros [[[[lat lon] city_name] country] observation_time]. apply costs_ret.
Qed.

Lemma costs_prepare_all (todo : list string) (weather_data aqi_data : dict json) :
  costs 0 0 (prepare_all E todo weather_data aqi_data).
Proof.
  induction todo as [| city rest IH]; cbn [prepare_all].
  - apply costs_ret.
  - apply (costs_bind 0 0 0 0); [apply costs_prepare | intros record].
    apply (costs_bind 0 0 0 0); [apply IH | intros records; apply costs_ret].
Qed.

Lemma load_run (observations : list observation) (w : world) :
  LoadNotions.only_store w (snd (load_observations_to_db E observations w))
  /\ (db_txns (snd (load_observations_to_db E observations w)) <= S (db_txns w))%nat
  /\ forall e, fst (load_observations_to_db E observations w) = Raise e ->
               table (snd (load_observations_to_db E observations w)) = table w.
Proof.
  unfold load_observations_to_db, LoadNotions.only_store.
  destruct observations as [| o rest].
  { cbn. repeat split. lia. }
  destruct (db_fault E (db_txns w)).
  { cbn. repeat split. lia. }
  destruct (Db.conflict_fault (db_indexes E) conflict_target).
  { cbn. repeat split. lia. }
  destruct (executemany _ _ _ _). cbn. repeat split; try lia.
  intros e H. discriminate H.
Qed.

Lemma flags_of_objects (d : dict json) :
  objects d -> exists flags, rmap (py_in "error") (dict_values d) = Ok flags.
Proof.
  induction 1 as [| [k v] d Hkv Hd [flags IH]]; cbn [dict_values map rmap].
  - eexists. reflexivity.
  - cbn [snd] in Hkv. destruct v; try (exfalso; exact Hkv).
    cbn [py_in rbind]. unfold dict_values in IH. rewrite IH. eexists. reflexivity.
Qed.

Lemma counts_of_objects (d : dict json) :
  objects d ->
  exists successes errors, count_successes d = Ok successes /\ count_errors d = Ok errors.
Proof.
  intros H. destruct (flags_of_objects d H) as [flags Hflags].
  unfold count_successes, count_errors. rewrite Hflags.
  eexists. eexists. split; reflexivity.
Qed.

End Run.

(** Every way a run can end: within its budget, with the summary of a
    completed run or with that of an aborted run and the table as it was. *)
Lemma run_outcome (E : Env) (cities : list string) (w : world) :
  exists summary final,
    run_etl E cities w = (Ok (JObj summary), final)
    /\ within_budget cities w final
    /\ ((exists end_time loaded ws we qs qe,
           summary = success_summary E cities (utcnow E (clock_reads w)) end_time
                                     loaded ws we qs qe)
        \/ (exists end_time cause,
              summary = error_summary E (utcnow E (clock_reads w)) end_time cause
              /\ table final = table w)).
Proof.
  assert (Habort : forall (w_e : world) (n m : nat),
             spends n m w w_e ->
             (n <= 3 * List.length cities)%nat -> (m <= List.length cities)%nat ->
             within_budget cities w (snd (now E w_e))
             /\ table (snd (now E w_e)) = table w).
  { intros w_e n m [Hc [Ha [Hd [Ht _]]]] Hn Hm. unfold within_budget.
    cbn. repeat split; try lia. exact Ht. }
  unfold run_etl, bind at 1.
  change (now E w) with (Ok (utcnow E (clock_reads w)), snd (now E w)).
  cbv iota beta.
  set (start_time := utcnow E (clock_reads w)).
  pose proof (costs_now E w) as S0.
  set (w0 := snd (now E w)) in *.
  unfold try_except, bind at 1.
  pose proof (costs_weather_loop E cities [] w0) as S1.
  pose proof (EtlFacts.get_weather_from_total E cities [] w0 (Forall_nil _))
    as [weather [w1 [H1 Hobj]]].
  pose proof (weather_loop_length E cities [] weather w0 w1 H1) as Hlen.
  unfold fetch_weather_data, WeatherClient.get_weather_for_cities.
  rewrite H1 in *. cbn [snd] in S1.
  pose proof (spends_trans _ _ _ _ _ _ _ S0 S1) as S01.
  unfold bind at 1.
  pose proof (costs_aqi_loop E weather [] w1) as S2.
  destruct (aqi_loop_objects E weather [] w1 Hobj (Forall_nil _))
    as [aqi [w2 [H2 Hobj2]]].
  unfold fetch_air_quality_data. rewrite H2 in *. cbn [snd] in S2.
  pose proof (spends_trans _ _ _ _ _ _ _ S01 S2) as S012.
  unfold bind at 1.
  pose proof (costs_prepare_all E cities weather aqi w2) as S3.
  destruct (prepare_all E cities weather aqi w2) as [[observations | e] w3];
    cbn [snd] in S3;
    pose proof (spends_trans _ _ _ _ _ _ _ S012 S3) as S0123.
  2:{ eexists. eexists. split; [reflexivity |].
      destruct (Habort w3 _ _ S0123) as [Hb Ht]; [lia | cbn in *; lia |].
      split; [exact Hb |]. right. eexists. eexists. split; [reflexivity | exact Ht]. }
  unfold bind at 1.
  destruct (load_run E observations w3) as [[Hcl [Hwc [Hac Hsl]]] [Htx Hres]].
  destruct (load_observations_to_db E observations w3) as [result w4].
  cbn [fst snd] in *.
  destruct S0123 as [Hc [Ha [Hd _]]].
  assert (Hbudget : forall w5, w5 = snd (now E w4) -> within_budget cities w w5).
  { intros w5 ->. unfold within_budget. cbn. rewrite Hwc, Hac.
    cbn in Hlen. repeat split; lia. }
  destruct result as [loaded | e].
  2:{ eexists. eexists. split; [reflexivity |]. split; [apply Hbudget; reflexivity |].
      right. eexists. eexists. split; [reflexivity |]. cbn. rewrite (Hres e eq_refl).
      destruct S3 as [_ [_ [_ [Ht3 _]]]]. destruct S2 as [_ [_ [_ [Ht2 _]]]].
      destruct S01 as [_ [_ [_ [Ht1 _]]]]. congruence. }
  unfold bind at 1.
  change (now E w4) with (Ok (utcnow E (clock_reads w4)), snd (now E w4)).
  cbv iota beta. unfold bind, lift.
  destruct (counts_of_objects weather Hobj) as [ws [we [Hws Hwe]]].
  destruct (counts_of_objects aqi Hobj2) as [qs [qe [Hqs Hqe]]].
  rewrite Hws, Hwe, Hqs, Hqe.
  eexists. eexists. split; [reflexivity |]. split; [apply Hbudget; reflexivity |].
  left. exists (utcnow E (clock_reads w4)), loaded, ws, we, qs, qe. reflexivity.
Qed.

(** X16: a run never raises and stays within its budget: at most three
    calls to OpenWeatherMap and one to AirNow per configured city, and at
    most one transaction.  Its summary has status 'success' or 'error', and
    a run that ends in 'error' has left the table as it found it. *)
Theorem run_is_bounded_and_atomic (E : Env) (cities : list string) (w : world) :
  exists summary final,
    run_etl E cities w = (Ok (JObj summary), final)
    /\ within_budget cities w final
    /\ (dict_get "status" summary = Some (JStr "success")
        \/ (dict_get "status" summary = Some (JStr "error")
            /\ table final = table w)).
Proof.
  destruct (run_outcome E cities w) as [summary [final [Hrun [Hb Hcase]]]].
  exists summary, final. split; [exact Hrun |]. split; [exact Hb |].
  destruct Hcase as [[en [loaded [ws [we [qs [qe ->]]]]]] | [en [cause [-> Ht]]]].
  - left. reflexivity.
  - right. split; [reflexivity | exact Ht].
Qed.

End Runs.

(** ** The record of a city *)

Module Records.
Import Py World WeatherETL BudgetNotions.

(** X17: the record prepared for a city never has a null city: it is the
    payload's name when that is set and non-empty, else the part of the
    city key before the first comma.  The weather payload is stored as it
    is, the air-quality payload only when it is non-empty.  For a failed
    weather fetch the country and the coordinates are null and the
    observation time is the current time; otherwise the observation time is
    the payload's 'dt' (0 when absent) and the clock is not read. *)
Theorem record_of_a_city
        (E : Env) (city_key : string) (d : dict json) (aqi : json)
        (w w' : world) (o : observation) :
  prepare_observation_record E city_key (JObj d) aqi w = (Ok o, w') ->
  city o <> JNull
  /\ weather_data o = json_dumps (JObj d)
  /\ air_quality_data o = (if py_truthy aqi then Some (json_dumps aqi) else None)
  /\ (dict_has "error" d = true ->
      city o = JStr (first_part city_key)
      /\ country o = JNull /\ latitude o = JNull /\ longitude o = JNull
      /\ observation_time o = utcnow E (clock_reads w))
  /\ (dict_has "error" d = false ->
      city o = match dict_get "name" d with
               | Some name => if py_truthy name then name else JStr (first_part city_key)
               | None => JStr (first_part city_key)
               end
      /\ utcfromtimestamp E (match dict_get "dt" d with Some dt => dt | None => JInt 0 end)
         = Ok (observation_time o)
      /\ w' = w).
Proof.
  unfold prepare_observation_record, bind at 1, lift at 1. cbn [py_in].
  destruct (dict_has "error" d) eqn:Herr; cbn [negb].
  - cbn. intros H. injection H as <- <-. cbn.
    split; [discriminate |]. split; [reflexivity |]. split; [reflexivity |].
    split; [intros _; repeat split | intros Hc; discriminate Hc].
  - unfold bind, lift, ret. cbn [py_get_default].
    destruct (py_get _ "lat") as [lat | e]; [| intros H; discriminate H].
    destruct (py_get _ "lon") as [lon | e]; [| intros H; discriminate H].
    destruct (py_get _ "country") as [country | e]; [| intros H; discriminate H].
    destruct (utcfromtimestamp E _) as [t | e]; [| intros H; discriminate H].
    intros H. injection H as <- <-. cbn [city weather_data air_quality_data].
    split.
    { destruct (dict_get "name" d) as [name |].
      - destruct (py_truthy name) eqn:Hn; [| discriminate].
        intros ->. discriminate Hn.
      - destruct (py_truthy (JStr (first_part city_key))); discriminate. }
    split; [reflexivity |]. split; [reflexivity |].
    split; [intros Hc; discriminate Hc |]. intros _.
    split; [| split; [reflexivity | reflexivity]].
    destruct (dict_get "name" d) as [name |]; [reflexivity |].
    destruct (py_truthy (JStr (first_part city_key))); reflexivity.
Qed.

(** The record of Atlantis, whose weather could not be fetched. *)
Lemma record_of_a_city_witness :
  prepare_observation_record
    (Samples.env Samples.weather_ok Samples.airnow_ok Samples.store_up)
    "Atlantis,GR" (JObj atlantis) (JObj []) Samples.fresh
  = (Ok atlantis_record,
     snd (now (Samples.env Samples.weather_ok Samples.airnow_ok Samples.store_up)
              Samples.fresh))
  /\ city atlantis_record <> JNull
  /\ weather_data atlantis_record = json_dumps (JObj atlantis)
  /\ air_quality_data atlantis_record = None
  /\ city atlantis_record = JStr "Atlantis"
  /\ country atlantis_record = JNull
  /\ latitude atlantis_record = JNull
  /\ longitude atlantis_record = JNull
  /\ observation_time atlantis_record = 1700000000000000.
Proof.
  split; [reflexivity |].
  destruct (record_of_a_city
              (Samples.env Samples.weather_ok Samples.airnow_ok Samples.store_up)
              "Atlantis,GR" atlantis (JObj []) Samples.fresh
              (snd (now (Samples.env Samples.weather_ok Samples.airnow_ok Samples.store_up)
                        Samples.fresh))
              atlantis_record eq_refl) as [H1 [H2 [H3 [H4 _]]]].
  split; [exact H1 |]. split; [exact H2 |]. split; [exact H3 |]. exact (H4 eq_refl).
Defined.

End Records.

(** ** What the validator writes *)

Module Validator.
Import Py Transformer IssueNotions.

Section Invariant.
Variable P : validation_results -> Prop.
Hypothesis P_append : forall issue s, tagged issue -> P s -> P (snd (append_issue issue s)).
Hypothesis P_invalid : forall s, P s -> P (snd (set_invalid s)).
Hypothesis P_weather : forall c s, P s -> P (snd (set_cleaned_weather c s)).
Hypothesis P_aqi : forall c s, P s -> P (snd (set_cleaned_aqi c s)).

Lemma preserves_ret {A} (a : A) : preserves P (ret a).
Proof. intros s H. exact H. Qed.

Lemma preserves_lift {A} (r : res A) : preserves P (lift r).
Proof. intros s H. exact H. Qed.

Lemma preserves_bind {A B} (c : V A) (k : A -> V B) :
  preserves P c -> (forall a, preserves P (k a)) -> preserves P (bind c k).
Proof.
  intros Hc Hk s Hs. unfold bind. specialize (Hc s Hs).
  destruct (c s) as [[a | e] s']; cbn [snd] in *; [apply Hk |]; exact Hc.
Qed.

Lemma preserves_each {A} (f : A -> V unit) (l : list A) :
  (forall a, preserves P (f a)) -> preserves P (each f l).
Proof.
  intros Hf. induction l as [| a l IH]; cbn [each].
  - apply preserves_ret.
  - apply preserves_bind; [apply Hf | intros _; exact IH].
Qed.

Lemma preserves_append (label detail : string) :
  In label known_categories -> preserves P (append_issue (label ++ ": " ++ detail)).
Proof. intros Hl s Hs. apply P_append; [exists label, detail; split; [exact Hl | reflexivity] | exact Hs]. Qed.

Lemma preserves_check_required (weather_data : json) (field : string) :
  preserves P (check_required weather_data field).
Proof.
  unfold check_required. apply preserves_bind; [apply preserves_lift | intros present].
  destruct (negb present); [| apply preserves_ret].
  apply preserves_bind; [| intros _; exact P_invalid].
  apply (preserves_append "Missing weather field" field). cbn. tauto.
Qed.

Variable repr : json -> string.

Lemma preserves_check_range (label suffix : string) (lo hi : Z) (v : json) :
  In label known_categories -> preserves P (check_range repr label suffix lo hi v).
Proof.
  intros Hl. unfold check_range. destruct (negb (is_None v)); [| apply preserves_ret].
  apply preserves_bind; [apply preserves_lift | intros low].
  apply preserves_bind.
  - destruct low; [apply preserves_ret | apply preserves_lift].
  - intros [|]; [apply preserves_append; exact Hl | apply preserves_ret].
Qed.

Lemma preserves_check_weather (weather_data : json) :
  preserves P (check_weather repr weather_data).
Proof.
  unfold check_weather. apply preserves_bind; [apply preserves_lift | intros [|]].
  - apply preserves_bind; [apply preserves_lift | intros cause].
    apply preserves_bind; [| intros _; exact P_invalid].
    apply (preserves_append "Weather API error"). cbn. tauto.
  - apply preserves_bind; [apply preserves_each; intros f; apply preserves_check_required |].
    intros _. apply preserves_bind; [apply preserves_lift | intros main_data].
    apply preserves_bind; [apply preserves_lift | intros temp].
    apply preserves_bind; [apply preserves_check_range; cbn; tauto | intros _].
    apply preserves_bind; [apply preserves_lift | intros humidity].
    apply preserves_check_range. cbn. tauto.
Qed.

Lemma preserves_check_aqi (aqi_data : json) : preserves P (check_aqi repr aqi_data).
Proof.
  unfold check_aqi. destruct (py_truthy aqi_data); [| apply preserves_ret].
  apply preserves_bind; [apply preserves_lift | intros has_error].
  destruct (negb has_error); [| apply preserves_ret].
  apply preserves_bind; [apply preserves_lift | intros observations].
  destruct (py_truthy observations); [| apply preserves_ret].
  apply preserves_bind; [apply preserves_lift | intros items].
  apply preserves_each. intros obs. unfold check_observation.
  apply preserves_bind; [apply preserves_lift | intros a].
  apply preserves_check_range. cbn. tauto.
Qed.

(** The steps of the [try] block after the weather checks. *)
Lemma preserves_rest (weather_data aqi_data : json) :
  preserves P (_ <- check_aqi repr aqi_data ;;
               cleaned_weather <- lift (_clean_weather_data weather_data) ;;
               _ <- set_cleaned_weather cleaned_weather ;;
               cleaned_aqi <- lift (_clean_aqi_data aqi_data) ;;
               set_cleaned_aqi cleaned_aqi).
Proof.
  apply preserves_bind; [apply preserves_check_aqi | intros _].
  apply preserves_bind; [apply preserves_lift | intros cw].
  apply preserves_bind; [intros s; apply P_weather | intros _].
  apply preserves_bind; [apply preserves_lift | intros ca].
  intros s. apply P_aqi.
Qed.

Lemma preserves_body (record : Db.row) : preserves P (validation_body repr record).
Proof.
  unfold validation_body.
  apply preserves_bind; [apply preserves_lift | intros weather_data].
  apply preserves_bind.
  { destruct (Db.air_quality_data record) as [text |]; [| apply preserves_ret].
    destruct (text_truthy text); [apply preserves_lift | apply preserves_ret]. }
  intros aqi_data.
  apply preserves_bind; [apply preserves_check_weather | intros _].
  apply preserves_rest.
Qed.

Lemma preserves_failed (e : exn) : preserves P (validation_failed e).
Proof.
  unfold validation_failed. apply preserves_bind; [| intros _; exact P_invalid].
  destruct (is_JSONDecodeError e).
  - apply (preserves_append "JSON parsing error"). cbn. tauto.
  - apply (preserves_append "Validation error"). cbn. tauto.
Qed.

Lemma preserves_validation (record : Db.row) (start : validation_results) :
  P start ->
  P (snd (try_except (validation_body repr record) validation_failed start)).
Proof.
  intros Hs. unfold try_except.
  pose proof (preserves_body record start Hs) as Hb.
  destruct (validation_body repr record start) as [[a | e] s]; cbn [snd] in *.
  - exact Hb.
  - apply preserves_failed. exact Hb.
Qed.

End Invariant.

Lemma category_of_tagged (issue : string) :
  tagged issue -> In (category_of issue) known_categories.
Proof.
  intros [label [detail [Hl ->]]]. unfold known_categories in *.
  cbn [In] in Hl.
  repeat (destruct Hl as [<- | Hl]; [cbn; tauto |]).
  destruct Hl.
Qed.

(** Every issue of a validation is tagged with a known label. *)
Lemma issues_are_tagged (repr : json -> string) (record : Db.row) :
  Forall tagged (issues (validate_weather_data repr record)).
Proof.
  unfold validate_weather_data.
  apply (preserves_validation (fun s => Forall tagged (issues s))).
  - intros issue s Ht Hs. cbn. apply Forall_app. split; [exact Hs |].
    constructor; [exact Ht | constructor].
  - intros s Hs. exact Hs.
  - intros c s Hs. exact Hs.
  - intros c s Hs. exact Hs.
  - constructor.
Qed.

End Validator.

(** ** The quality report's issue categories *)

Module Reports.
Import Py Transformer IssueNotions QualityNotions RoundingFacts.

Lemma occurrences_cons (k c : string) (l : list string) :
  occurrences k (c :: l) = (if String.eqb k c then 1 else 0) + occurrences k l.
Proof.
  unfold occurrences. cbn [filter]. destruct (String.eqb k c); cbn [List.length]; lia.
Qed.

Lemma occurrences_nonneg (k : string) (l : list string) : 0 <= occurrences k l.
Proof. unfold occurrences. lia. Qed.

Lemma occurrences_pos (k : string) (l : list string) :
  0 < occurrences k l -> In k l.
Proof.
  unfold occurrences. induction l as [| c l IH]; cbn [filter List.length]; [lia |].
  destruct (String.eqb k c) eqn:Hk.
  - intros _. left. symmetry. apply String.eqb_eq. exact Hk.
  - intros H. right. apply IH. exact H.
Qed.

(** The count [categorize] leaves under a key: what was there plus the
    number of issues of that category, or nothing at all. *)
Lemma categorize_get (k : string) (l : list string) (d : dict Z) :
  dict_get k (categorize l d)
  = if occurrences k (map category_of l) =? 0 then dict_get k d
    else Some (match dict_get k d with Some n => n | None => 0 end
               + occurrences k (map category_of l)).
Proof.
  revert d. induction l as [| issue rest IH]; intros d.
  - reflexivity.
  - cbn [categorize map]. rewrite IH, occurrences_cons.
    pose proof (occurrences_nonneg k (map category_of rest)) as Hn.
    destruct (String.eqb k (category_of issue)) eqn:Hk.
    + apply String.eqb_eq in Hk. subst k.
      rewrite DictFacts.dict_get_set_same.
      destruct (Z.eqb_spec (occurrences (category_of issue) (map category_of rest)) 0)
        as [H0 | H0];
        destruct (Z.eqb_spec (1 + occurrences (category_of issue) (map category_of rest)) 0);
        try lia; f_equal; lia.
    + assert (Hne : k <> category_of issue)
        by (intros ->; rewrite String.eqb_refl in Hk; discriminate Hk).
      rewrite (DictFacts.dict_get_set_other _ _ _ _ Hne). reflexivity.
Qed.

Lemma total_set (k : string) (d : dict Z) :
  total (dict_set k (match dict_get k d with Some n => n | None => 0 end + 1) d)
  = total d + 1.
Proof.
  unfold total, dict_values. induction d as [| [k' v] d IH]; cbn [dict_set dict_get map fold_right snd].
  - lia.
  - destruct (String.eqb k k'); cbn [map fold_right snd]; [lia |]. rewrite IH. lia.
Qed.

Lemma total_categorize (l : list string) (d : dict Z) :
  total (categorize l d) = total d + Z.of_nat (List.length l).
Proof.
  revert d. induction l as [| issue rest IH]; intros d; cbn [categorize List.length].
  - lia.
  - rewrite IH, total_set. lia.
Qed.

Section Report.
Variable repr : json -> string.

Lemma issues_of_invalid_tagged (records : list Db.row) :
  Forall tagged (issues_of_invalid repr records).
Proof.
  unfold issues_of_invalid. induction records as [| record rest IH]; cbn [flat_map].
  - constructor.
  - apply Forall_app. split; [| exact IH].
    destruct (is_valid (validate_weather_data repr record)); [constructor |].
    apply Validator.issues_are_tagged.
Qed.

(** Every invalid record brings at least one issue. *)
Lemma invalid_bring_issues (records : list Db.row) :
  (List.length records
   <= List.length (valid_in repr records) + List.length (issues_of_invalid repr records))%nat.
Proof.
  unfold valid_in, issues_of_invalid.
  induction records as [| record rest IH]; cbn [filter flat_map List.length]; [lia |].
  destruct (is_valid (validate_weather_data repr record)) eqn:Hv.
  - cbn [List.length app]. lia.
  - rewrite length_app.
    destruct (issues (validate_weather_data repr record)) as [| i l] eqn:Hi.
    + rewrite (ValidationFacts.no_issue_is_valid repr record Hi) in Hv. discriminate Hv.
    + cbn [List.length]. lia.
Qed.

Lemma valid_at_most_all (records : list Db.row) :
  (List.length (valid_in repr records) <= List.length records)%nat.
Proof. apply filter_length_le. Qed.

End Report.

Lemma quality_score_bounds (v n : Z) :
  0 <= v <= n -> (0 <= quality_score v n <= 100)%Q.
Proof.
  intros Hv. destruct (Z.ltb_spec 0 n) as [Hn | Hn].
  - exact (proj1 (QualityFacts.quality_score_steps v n Hn Hv)).
  - unfold quality_score. destruct (Z.ltb_spec 0 n) as [Hc | _]; [lia | lra].
Qed.

(** X18: the categories of a quality report are labels of the validator:
    every key of its issue counts is one of the seven labels issues start
    with -- 'Other' never shows up -- and its count is the number of issues
    of the invalid records that carry the label, at least one. *)
Theorem issue_categories_are_known
        (repr : json -> string) (records : list Db.row) (now_text : string) :
  exists r,
    run_data_quality_check repr (Ok records) now_text = Report r
    /\ forall k n,
         dict_get k (issue_categories r) = Some n ->
         In k known_categories
         /\ 0 < n
         /\ n = occurrences k (map category_of (issues_of_invalid repr records)).
Proof.
  unfold run_data_quality_check. rewrite QualityFacts.tally_spec. cbn [app].
  eexists. split; [reflexivity |]. cbn [issue_categories].
  intros k n. rewrite categorize_get. cbn [dict_get].
  pose proof (occurrences_nonneg k (map category_of (issues_of_invalid repr records))) as Hn.
  destruct (Z.eqb_spec (occurrences k (map category_of (issues_of_invalid repr records))) 0)
    as [H0 | H0]; [intros H; discriminate H |].
  intros H. injection H as <-. split; [| split; [lia | lia]].
  assert (Hin : In k (map category_of (issues_of_invalid repr records)))
    by (apply occurrences_pos; lia).
  apply in_map_iff in Hin. destruct Hin as [issue [<- Hin]].
  apply Validator.category_of_tagged.
  pose proof (issues_of_invalid_tagged repr records) as Hall.
  rewrite Forall_forall in Hall. apply Hall. exact Hin.
Qed.

(** X19: the figures of a quality report hang together: the score lies
    between 0 and 100, the issue counts add up to the number of issues
    collected from the invalid records, which is at least the number of
    invalid records, and a report without invalid records has no issue
    category. *)
Theorem report_figures_are_consistent
        (repr : json -> string) (records : list Db.row) (now_text : string) :
  exists r,
    run_data_quality_check repr (Ok records) now_text = Report r
    /\ (0 <= data_quality_score r <= 100)%Q
    /\ 0 <= valid_records r <= total_records_checked r
    /\ total (issue_categories r)
       = Z.of_nat (List.length (issues_of_invalid repr records))
    /\ invalid_records r <= total (issue_categories r)
    /\ (invalid_records r = 0 -> issue_categories r = []).
Proof.
  unfold run_data_quality_check. rewrite QualityFacts.tally_spec. cbn [app].
  eexists. split; [reflexivity |].
  cbn [data_quality_score valid_records total_records_checked invalid_records
       issue_categories].
  pose proof (valid_at_most_all repr records) as Hle.
  pose proof (invalid_bring_issues repr records) as Hiss.
  rewrite Z.add_0_l, !total_categorize. unfold total. cbn [dict_values map fold_right].
  split; [apply quality_score_bounds; lia |].
  split; [lia |]. split; [lia |]. split; [lia |].
  intros Hzero.
  assert (Hall : List.length (valid_in repr records) = List.length records) by lia.
  assert (Hnone : issues_of_invalid repr records = []).
  { clear Hle Hiss Hzero. unfold valid_in, issues_of_invalid in *.
    induction records as [| record rest IH]; [reflexivity |].
    cbn [filter flat_map List.length] in *.
    destruct (is_valid (validate_weather_data repr record)).
    - cbn [List.length] in Hall. cbn [app]. apply IH. lia.
    - pose proof (filter_length_le
                    (fun record => is_valid (validate_weather_data repr record)) rest).
      lia. }
  rewrite Hnone. reflexivity.
Qed.

End Reports.

(** ** The rows of a trend window *)

Module Window.
Import Py Transformer IssueNotions.

Lemma undecodable_row_raises (row : Db.row) (acc : series) :
  decodes row = false ->
  exists e, extract_row row acc = Raise e /\ is_JSONDecodeError e = true.
Proof.
  unfold decodes, extract_row.
  destruct (Db.weather_data row) as [j | raw why]; cbn [json_loads rbind].
  - destruct (Db.air_quality_data row) as [[j' | raw why] |]; try discriminate.
    intros H. cbn [text_truthy]. rewrite H. cbn [negb json_loads rbind].
    eexists. split; reflexivity.
  - intros _. eexists. split; reflexivity.
Qed.

(** X20: rows whose stored text is not JSON do not count: the
    temperature, humidity and AQI series of a window are those of the
    window without these rows, and so is the exception that ends the
    extraction, if any. *)
Theorem undecodable_rows_are_skipped (rows : list Db.row) (acc : series) :
  extract_series rows acc = extract_series (filter decodes rows) acc.
Proof.
  revert acc. induction rows as [| row rest IH]; intros acc; [reflexivity |].
  cbn [filter]. destruct (decodes row) eqn:Hd; cbn [extract_series].
  - destruct (extract_row row acc) as [acc' | e]; [apply IH |].
    destruct (is_JSONDecodeError e); [apply IH | reflexivity].
  - destruct (undecodable_row_raises row acc Hd) as [e [-> ->]]. apply IH.
Qed.

End Window.

(** ** Valid records *)

Module ValidRecords.
Import Py Transformer IssueNotions.

Section Checks.
Variable repr : json -> string.

Lemma fallen_append (issue : string) (s : validation_results) :
  tagged issue -> fallen s -> fallen (snd (append_issue issue s)).
Proof. intros _ H. exact H. Qed.

Lemma fallen_invalid (s : validation_results) : fallen s -> fallen (snd (set_invalid s)).
Proof. intros _. reflexivity. Qed.

Lemma fallen_weather (c : json) (s : validation_results) :
  fallen s -> fallen (snd (set_cleaned_weather c s)).
Proof. intros H. exact H. Qed.

Lemma fallen_aqi (c : json) (s : validation_results) :
  fallen s -> fallen (snd (set_cleaned_aqi c s)).
Proof. intros H. exact H. Qed.

Lemma still_valid {A} (c : V A) (s s' : validation_results) (a : res A) :
  preserves fallen c -> c s = (a, s') -> is_valid s' = true -> is_valid s = true.
Proof.
  intros Hc Hrun Hv. destruct (is_valid s) eqn:Hs; [reflexivity |].
  pose proof (Hc s Hs) as H. rewrite Hrun in H. cbn [snd] in H.
  unfold fallen in H. rewrite H in Hv. discriminate Hv.
Qed.

Lemma check_required_cases (weather_data : json) (field : string)
      (s s' : validation_results) :
  check_required weather_data field s = (Ok tt, s') ->
  (py_in field weather_data = Ok true /\ s' = s) \/ is_valid s' = false.
Proof.
  unfold check_required, bind, lift.
  destruct (py_in field weather_data) as [[|] | e]; cbn.
  - intros H. injection H as <-. left. split; reflexivity.
  - intros H. injection H as <-. right. reflexivity.
  - intros H. discriminate H.
Qed.

Lemma required_fields_present (weather_data : json) (fields : list string)
      (s s' : validation_results) :
  each (check_required weather_data) fields s = (Ok tt, s') ->
  is_valid s' = true ->
  Forall (fun field => py_in field weather_data = Ok true) fields /\ s' = s.
Proof.
  revert s. induction fields as [| field rest IH]; intros s; cbn [each].
  - intros H _. injection H as <-. split; [constructor | reflexivity].
  - unfold bind at 1.
    destruct (check_required weather_data field s) as [[[] | e] s1] eqn:H1;
      [| intros H; discriminate H].
    intros Hrest Hv.
    assert (Hv1 : is_valid s1 = true).
    { apply (still_valid (each (check_required weather_data) rest) s1 s' (Ok tt));
        [| exact Hrest | exact Hv].
      apply Validator.preserves_each. intros f.
      exact (Validator.preserves_check_required fallen fallen_append fallen_invalid
               weather_data f). }
    destruct (check_required_cases _ _ _ _ H1) as [[Hin ->] | Hbad];
      [| rewrite Hbad in Hv1; discriminate Hv1].
    destruct (IH s Hrest Hv) as [Hall ->].
    split; [constructor; assumption | reflexivity].
Qed.

Lemma check_weather_valid (weather_data : json) (s s' : validation_results) :
  check_weather repr weather_data s = (Ok tt, s') ->
  is_valid s' = true ->
  exists d,
    weather_data = JObj d
    /\ dict_has "error" d = false
    /\ dict_has "main" d = true
    /\ dict_has "weather" d = true
    /\ dict_has "coord" d = true.
Proof.
  unfold check_weather, bind at 1, lift at 1.
  destruct (py_in "error" weather_data) as [[|] | e] eqn:Herr.
  - unfold bind, lift. destruct (py_item weather_data "error"); cbn.
    + intros H. injection H as <-. cbn. intros Hc. discriminate Hc.
    + intros H. discriminate H.
  - unfold bind at 1.
    destruct (each (check_required weather_data) ["main"; "weather"; "coord"] s)
      as [[[] | e] s1] eqn:Hreq; [| intros H; discriminate H].
    intros Hrest Hv.
    assert (Hv1 : is_valid s1 = true).
    { refine (still_valid _ s1 s' (Ok tt) _ Hrest Hv).
      apply Validator.preserves_bind; [apply Validator.preserves_lift | intros main_data].
      apply Validator.preserves_bind; [apply Validator.preserves_lift | intros temp].
      apply Validator.preserves_bind;
        [apply (Validator.preserves_check_range fallen fallen_append); cbn; tauto | intros _].
      apply Validator.preserves_bind; [apply Validator.preserves_lift | intros humidity].
      apply (Validator.preserves_check_range fallen fallen_append). cbn. tauto. }
    destruct (required_fields_present _ _ _ _ Hreq Hv1) as [Hall _].
    inversion Hall as [| f1 l1 Hmain Hall1]; subst.
    inversion Hall1 as [| f2 l2 Hweather Hall2]; subst.
    inversion Hall2 as [| f3 l3 Hcoord _]; subst.
    revert Hrest. unfold bind at 1, lift at 1.
    destruct weather_data as [| b | z | q | t | l | d]; cbn [py_get_default];
      try (intros H; discriminate H).
    intros _. cbn [py_in] in *. exists d.
    injection Herr as Herr. injection Hmain as Hmain.
    injection Hweather as Hweather. injection Hcoord as Hcoord.
    repeat split; assumption.
  - intros H. discriminate H.
Qed.

End Checks.

(** X21: what a valid record is sure to have.  If the validator marks a
    record valid, its weather text decoded to an object without 'error'
    that has the fields 'main', 'weather' and 'coord', no step of the
    validation raised, and the record comes with both cleaned payloads,
    the weather one being the cleaning of the stored payload. *)
Theorem valid_record_is_complete (repr : json -> string) (record : Db.row) :
  is_valid (validate_weather_data repr record) = true ->
  exists d cleaned_weather cleaned_aqi,
    json_loads (Db.weather_data record) = Ok (JObj d)
    /\ dict_has "error" d = false
    /\ dict_has "main" d = true
    /\ dict_has "weather" d = true
    /\ dict_has "coord" d = true
    /\ _clean_weather_data (JObj d) = Ok cleaned_weather
    /\ cleaned_weather_data (validate_weather_data repr record) = Some cleaned_weather
    /\ cleaned_aqi_data (validate_weather_data repr record) = Some cleaned_aqi.
Proof.
  unfold validate_weather_data, try_except.
  set (start := mkValidation (Db.id record) (Db.city record) true [] None None).
  destruct (validation_body repr record start) as [[[] | e] r] eqn:Hbody; cbn [snd].
  2:{ intros H. exfalso. revert H. unfold validation_failed, bind. cbn.
      intros H. discriminate H. }
  intros Hv. revert Hbody. unfold validation_body, bind at 1, lift at 1.
  destruct (json_loads (Db.weather_data record)) as [weather_data | e];
    [| intros H; discriminate H].
  unfold bind at 1.
  assert (Haqi : exists a,
             match Db.air_quality_data record with
             | Some text =>
                 if text_truthy text then lift (json_loads text) else ret (JObj [])
             | None => ret (JObj [])
             end start = (a, start)).
  { destruct (Db.air_quality_data record) as [text |]; [| eexists; reflexivity].
    destruct (text_truthy text); eexists; reflexivity. }
  destruct Haqi as [a ->]. destruct a as [aqi_data | e]; [| intros H; discriminate H].
  unfold bind at 1.
  destruct (check_weather repr weather_data start) as [[[] | e] s1] eqn:Hcw;
    [| intros H; discriminate H].
  intros Hrest.
  assert (Hv1 : is_valid s1 = true).
  { refine (still_valid _ s1 r (Ok tt) _ Hrest Hv).
    exact (Validator.preserves_rest fallen fallen_append fallen_weather fallen_aqi
             repr weather_data aqi_data). }
  destruct (check_weather_valid repr _ _ _ Hcw Hv1) as [d [-> [He [Hm [Hw Hc]]]]].
  revert Hrest. unfold bind at 1.
  destruct (check_aqi repr aqi_data s1) as [[[] | e] s2]; [| intros H; discriminate H].
  unfold bind at 1, lift at 1.
  destruct (_clean_weather_data (JObj d)) as [cw | e] eqn:Hclean;
    [| intros H; discriminate H].
  unfold bind at 1. cbn [set_cleaned_weather]. unfold bind at 1, lift at 1.
  destruct (_clean_aqi_data aqi_data) as [ca | e]; [| intros H; discriminate H].
  cbn [set_cleaned_aqi]. intros H. injection H as <-.
  exists d, cw, ca. cbn [cleaned_weather_data cleaned_aqi_data].
  repeat split; assumption.
Qed.

(** The stored Chicago report is valid. *)
Lemma valid_record_is_complete_witness :
  exists d cleaned_weather cleaned_aqi,
    json_loads (Db.weather_data (Samples.stored 1 (Samples.chicago 45) None)) = Ok (JObj d)
    /\ dict_has "error" d = false
    /\ dict_has "main" d = true
    /\ dict_has "weather" d = true
    /\ dict_has "coord" d = true
    /\ _clean_weather_data (JObj d) = Ok cleaned_weather
    /\ cleaned_weather_data
         (validate_weather_data Samples.plain_repr
            (Samples.stored 1 (Samples.chicago 45) None)) = Some cleaned_weather
    /\ cleaned_aqi_data
         (validate_weather_data Samples.plain_repr
            (Samples.stored 1 (Samples.chicago 45) None)) = Some cleaned_aqi.
Proof.
  exact (valid_record_is_complete Samples.plain_repr
           (Samples.stored 1 (Samples.chicago 45) None) eq_refl).
Defined.

End ValidRecords.

(** ** The scheduled task *)

Module Task.
Import Py World WeatherETL RunNotions BudgetNotions Scheduling.

(** X22: the scheduled load task raises only when the OpenWeatherMap
    key is missing: [WeatherETL()] then raises its [ValueError] before
    anything is fetched or stored.  With the key set the task raises nothing
    but its own failure: it returns the summary of a run that completed, in
    which case the status is 'success', or it fails with 'ETL process
    failed: ' and the run's error.  A failed task has left the table as it
    found it, so running it again, as the scheduler does, loads nothing
    twice; in every case the run's budget of calls and transactions
    holds. *)
Theorem failed_task_wrote_nothing (E : Env) (cities : list string) (w : world) :
  exists result final,
    fetch_and_load_weather_data E cities w = (result, final)
    /\ within_budget cities w final
    /\ match result with
       | Raise e =>
           openweather_api_key E = false
           /\ e = mkExn ValueError
                         "OpenWeatherMap API key is required. Set OPENWEATHER_API_KEY environment variable."
           /\ final = w
       | Ok (Returned summary) =>
           openweather_api_key E = true
           /\ exists fields, summary = JObj fields
                             /\ dict_get "status" fields = Some (JStr "success")
       | Ok (Failed message) =>
           openweather_api_key E = true
           /\ table final = table w
           /\ exists cause, message = "ETL process failed: " ++ cause
       end.
Proof.
  unfold fetch_and_load_weather_data, WeatherETL.__init__, WeatherClient.__init__.
  destruct (openweather_api_key E) eqn:Hkey.
  - unfold bind at 1, lift at 1. unfold bind at 1.
    destruct (Runs.run_outcome E cities w) as [summary [final [Hrun [Hb Hcase]]]].
    rewrite Hrun.
    destruct Hcase as [[en [loaded [ws [we [qs [qe ->]]]]]] | [en [cause [-> Ht]]]].
    + eexists. eexists. split; [reflexivity |]. split; [exact Hb |].
      split; [reflexivity |]. eexists. split; reflexivity.
    + eexists. eexists. split; [reflexivity |]. split; [exact Hb |].
      split; [reflexivity |]. split; [exact Ht |]. exists cause. reflexivity.
  - eexists. eexists. split; [reflexivity |].
    split; [unfold within_budget; lia |]. repeat split.
Qed.

End Task.

(** ** Cleaning *)

Module Cleaning.
Import Py Transformer CleanNotions.

Lemma set_present {V} (k : string) (v : V) (d : dict V) :
  dict_has k d = true -> dict_keys (dict_set k v d) = dict_keys d.
Proof. intros H. rewrite DictFacts.dict_keys_set, H. reflexivity. Qed.

(** Rounding a field of an object keeps its keys and its other fields. *)
Lemma round_field_other (scale : option positive) (m : dict json) (field : string)
      (v' : json) :
  round_field scale (JObj m) field = Ok v' ->
  exists m', v' = JObj m'
             /\ dict_keys m' = dict_keys m
             /\ forall k, k <> field -> dict_get k m' = dict_get k m.
Proof.
  unfold round_field. cbn [py_in rbind].
  destruct (dict_has field m) eqn:Hhas.
  2:{ intros H. injection H as <-. exists m. repeat split. }
  cbn [py_item]. destruct (dict_get field m) as [v |]; [| intros H; discriminate H].
  cbn [rbind]. destruct (negb (is_None v)).
  2:{ intros H. injection H as <-. exists m. repeat split. }
  destruct (match scale with Some s => py_round_to s v | None => py_round v end)
    as [r | e]; [| intros H; discriminate H].
  cbn [rbind py_setitem]. intros H. injection H as <-.
  eexists. split; [reflexivity |]. split; [apply set_present; exact Hhas |].
  intros k Hk. apply DictFacts.dict_get_set_other. exact Hk.
Qed.

Lemma round_fields_other (scale : option positive) (fields : list string)
      (m : dict json) (v' : json) :
  round_fields scale (JObj m) fields = Ok v' ->
  exists m', v' = JObj m'
             /\ dict_keys m' = dict_keys m
             /\ forall k, ~ In k fields -> dict_get k m' = dict_get k m.
Proof.
  revert m. induction fields as [| f rest IH]; intros m; cbn [round_fields].
  - intros H. injection H as <-. exists m. repeat split.
  - destruct (round_field scale (JObj m) f) as [v1 | e] eqn:H1;
      [| intros H; discriminate H].
    cbn [rbind]. destruct (round_field_other _ _ _ _ H1) as [m1 [-> [Hk1 Hg1]]].
    intros H. destruct (IH _ H) as [m' [-> [Hk Hg]]].
    exists m'. split; [reflexivity |]. split; [congruence |].
    intros k Hn. rewrite Hg, Hg1; [reflexivity | |].
    + intros ->. apply Hn. left. reflexivity.
    + intros Hin. apply Hn. right. exact Hin.
Qed.

Lemma put_back_shape (d : dict json) (k : string) (v : json) :
  exists d', put_back (JObj d) k v = JObj d'
             /\ dict_keys d' = dict_keys d
             /\ (forall k', k' <> k -> dict_get k' d' = dict_get k' d)
             /\ (dict_has k d = true -> dict_get k d' = Some v).
Proof.
  unfold put_back. destruct (dict_has k d) eqn:Hhas.
  - eexists. split; [reflexivity |]. split; [apply set_present; exact Hhas |].
    split; [intros k' Hk; apply DictFacts.dict_get_set_other; exact Hk |].
    intros _. apply DictFacts.dict_get_set_same.
  - exists d. repeat split. intros H. discriminate H.
Qed.

(** X23: cleaning a weather payload never adds or drops a field and
    touches only 'main' and 'wind'; a payload that holds 'error' comes back
    as it is; and a temperature given as a float comes back rounded to one
    decimal, in a 'main' that kept its keys. *)
Theorem cleaning_touches_main_and_wind (d : dict json) (cleaned : json) :
  _clean_weather_data (JObj d) = Ok cleaned ->
  exists d',
    cleaned = JObj d'
    /\ dict_keys d' = dict_keys d
    /\ (forall k, k <> "main" -> k <> "wind" -> dict_get k d' = dict_get k d)
    /\ (dict_has "error" d = true -> d' = d)
    /\ (forall m q,
          dict_has "error" d = false ->
          dict_get "main" d = Some (JObj m) ->
          dict_get "temp" m = Some (JFloat q) ->
          exists m',
            dict_get "main" d' = Some (JObj m')
            /\ dict_keys m' = dict_keys m
            /\ dict_get "temp" m' = Some (JFloat (round_to 10 q))).
Proof.
  unfold _clean_weather_data. cbn [py_in rbind].
  destruct (dict_has "error" d) eqn:Herr.
  { intros H. injection H as <-. exists d. repeat split.
    intros m q Hc. discriminate Hc. }
  cbn [py_copy rbind py_get_default].
  set (main_data := match dict_get "main" d with Some x => x | None => JObj [] end).
  destruct (round_fields (Some 10%positive) main_data
              ["temp"; "feels_like"; "temp_min"; "temp_max"]) as [md1 | e] eqn:H1;
    [| intros H; discriminate H].
  cbn [rbind].
  destruct (round_field None md1 "pressure") as [md2 | e] eqn:H2;
    [| intros H; discriminate H].
  cbn [rbind].
  destruct (put_back_shape d "main" md2) as [d1 [-> [Hk1 [Hg1 Hm1]]]].
  cbn [py_get_default rbind].
  destruct (round_field (Some 10%positive) _ "speed") as [wd1 | e];
    [| intros H; discriminate H].
  cbn [rbind].
  destruct (round_field None wd1 "deg") as [wd2 | e]; [| intros H; discriminate H].
  cbn [rbind].
  destruct (put_back_shape d1 "wind" wd2) as [d2 [-> [Hk2 [Hg2 _]]]].
  intros H. injection H as <-. exists d2. split; [reflexivity |].
  split; [congruence |].
  split; [intros k Hm Hw; rewrite Hg2, Hg1 by assumption; reflexivity |].
  split; [intros Hc; discriminate Hc |].
  intros m q _ Hmain Htemp. subst main_data. rewrite Hmain in H1.
  assert (Hhas : dict_has "main" d = true) by (unfold dict_has; rewrite Hmain; reflexivity).
  rewrite Hg2 by discriminate. rewrite (Hm1 Hhas).
  (* the first of the four fields is the temperature *)
  cbn [round_fields] in H1.
  assert (Hfirst : round_field (Some 10%positive) (JObj m) "temp"
                   = Ok (JObj (dict_set "temp" (JFloat (round_to 10 q)) m))).
  { unfold round_field. cbn [py_in rbind py_item]. unfold dict_has. rewrite Htemp.
    reflexivity. }
  rewrite Hfirst in H1. cbn [rbind] in H1.
  change (round_fields (Some 10%positive)
            (JObj (dict_set "temp" (JFloat (round_to 10 q)) m))
            ["feels_like"; "temp_min"; "temp_max"] = Ok md1) in H1.
  destruct (round_fields_other _ _ _ _ H1) as [m1 [-> [Hkm1 Hgm1]]].
  destruct (round_field_other _ _ _ _ H2) as [m2 [-> [Hkm2 Hgm2]]].
  exists m2. split; [reflexivity |]. split.
  - rewrite Hkm2, Hkm1. apply set_present. unfold dict_has. rewrite Htemp. reflexivity.
  - rewrite Hgm2 by discriminate. rewrite Hgm1.
    + apply DictFacts.dict_get_set_same.
    + cbn. intros [H | [H | [H | []]]]; discriminate H.
Qed.

(** The stored Chicago report. *)
Lemma cleaning_touches_main_and_wind_witness :
  _clean_weather_data (Samples.chicago 45) = Ok cleaned_chicago
  /\ dict_keys (fields_of cleaned_chicago) = dict_keys (fields_of (Samples.chicago 45))
  /\ dict_get "name" (fields_of cleaned_chicago) = Some (JStr "Chicago")
  /\ exists m',
       dict_get "main" (fields_of cleaned_chicago) = Some (JObj m')
       /\ dict_get "temp" m' = Some (JFloat (107 # 5)).
Proof.
  split; [reflexivity |].
  destruct (cleaning_touches_main_and_wind
              (fields_of (Samples.chicago 45)) cleaned_chicago eq_refl)
    as [d' [Hd [Hkeys [Hother [_ Htemp]]]]].
  injection Hd as <-.
  split; [exact Hkeys |]. split; [reflexivity |].
  destruct (Htemp [("temp", JFloat (2137 # 100)); ("humidity", JInt 45)] (2137 # 100)
              eq_refl eq_refl eq_refl) as [m' [Hm [_ Ht]]].
  exists m'. split; [exact Hm | exact Ht].
Defined.

End Cleaning.

(** ** Cleaning the air-quality payload *)

Module CleaningAir.
Import Py Transformer CleanNotions.

Lemma clean_observation_shape (obs cleaned_obs : json) :
  clean_observation obs = Ok cleaned_obs -> same_but_rounded obs cleaned_obs.
Proof.
  unfold clean_observation. intros H m ->. cbn [py_copy rbind] in H.
  destruct (round_field None (JObj m) "AQI") as [v1 | e] eqn:H1; [| discriminate H].
  cbn [rbind] in H.
  destruct (Cleaning.round_field_other _ _ _ _ H1) as [m1 [-> [Hk1 Hg1]]].
  destruct (Cleaning.round_field_other _ _ _ _ H) as [m2 [-> [Hk2 Hg2]]].
  exists m2. split; [reflexivity |]. split; [congruence |].
  intros k Ha Hv. rewrite Hg2, Hg1 by assumption. reflexivity.
Qed.

Lemma rmap_Forall2 {A B} (f : A -> res B) (l : list A) (l' : list B) :
  rmap f l = Ok l' -> Forall2 (fun a b => f a = Ok b) l l'.
Proof.
  revert l'. induction l as [| a l IH]; intros l'; cbn [rmap].
  - intros H. injection H as <-. constructor.
  - destruct (f a) as [b |] eqn:Hb; [| intros H; discriminate H]. cbn [rbind].
    destruct (rmap f l) as [bs |]; [| intros H; discriminate H]. cbn [rbind].
    intros H. injection H as <-. constructor; [exact Hb | apply IH; reflexivity].
Qed.

(** X24: cleaning an air-quality payload.  A payload that holds 'error',
    and the empty payload, come back as they are.  Any other payload comes
    back with its 'observations' replaced by the cleaned observations --
    one for each observation, in order, with the same keys and the same
    values but for 'AQI' and 'Value' -- and a payload that had no
    'observations' gains an empty list of them. *)
Theorem cleaning_keeps_every_observation (d : dict json) (cleaned : json) :
  _clean_aqi_data (JObj d) = Ok cleaned ->
  (dict_has "error" d = true \/ d = [] -> cleaned = JObj d)
  /\ (dict_has "error" d = false -> d <> [] ->
      exists cleaned_observations,
        cleaned = JObj (dict_set "observations" (JArr cleaned_observations) d)
        /\ (dict_get "observations" d = None -> cleaned_observations = [])
        /\ (forall observations,
              dict_get "observations" d = Some (JArr observations) ->
              Forall2 same_but_rounded observations cleaned_observations)).
Proof.
  unfold _clean_aqi_data. cbn [py_in rbind].
  destruct (dict_has "error" d) eqn:Herr; cbn [orb].
  { intros H. injection H as <-. split; [intros _; reflexivity |].
    intros Hc. discriminate Hc. }
  destruct d as [| kv d].
  { cbn. intros H. injection H as <-. split; [intros _; reflexivity |].
    intros _ Hc. exfalso. apply Hc. reflexivity. }
  cbn [py_truthy negb py_copy rbind py_get_default].
  set (payload := kv :: d) in *.
  destruct (py_iter _) as [items | e] eqn:Hiter; [| intros H; discriminate H].
  cbn [rbind].
  destruct (rmap clean_observation items) as [cleaned_observations | e] eqn:Hmap;
    [| intros H; discriminate H].
  cbn [rbind py_setitem]. intros H. injection H as <-.
  split.
  { intros [Hc | Hc]; discriminate Hc. }
  intros _ _. exists cleaned_observations. split; [reflexivity |]. split.
  - intros Hnone. rewrite Hnone in Hiter. cbn in Hiter. injection Hiter as <-.
    cbn in Hmap. injection Hmap as <-. reflexivity.
  - intros observations Hobs. rewrite Hobs in Hiter. cbn in Hiter.
    injection Hiter as <-.
    pose proof (rmap_Forall2 _ _ _ Hmap) as Hall.
    clear Hmap Hobs. induction Hall as [| o o' l l' Ho Hl IH]; constructor.
    + apply clean_observation_shape. exact Ho.
    + exact IH.
Qed.

(** One PM2.5 observation whose concentration 1.2345 becomes 1.234. *)
Lemma cleaning_keeps_every_observation_witness :
  _clean_aqi_data (JObj pm25_payload) = Ok cleaned_pm25_payload
  /\ exists cleaned_observations,
       cleaned_pm25_payload
       = JObj (dict_set "observations" (JArr cleaned_observations) pm25_payload)
       /\ List.length cleaned_observations = 1%nat.
Proof.
  split; [reflexivity |].
  destruct (cleaning_keeps_every_observation pm25_payload cleaned_pm25_payload eq_refl)
    as [_ H].
  destruct (H eq_refl) as [cleaned_observations [Hc [_ Hall]]]; [discriminate |].
  exists cleaned_observations. split; [exact Hc |].
  specialize (Hall _ eq_refl). inversion Hall as [| o o' l l' _ Hrest]; subst.
  inversion Hrest. reflexivity.
Defined.

End CleaningAir.

(** ** The range checks *)

Module Ranges.
Import Py Transformer.

Lemma numbers_compare (op : order_op) (v : json) (q : Q) (bound : Z) :
  num_of v = Some q ->
  py_order op v (JInt bound) = Ok (holds op (Qcompare q (inject_Z bound))).
Proof.
  destruct v; cbn [num_of]; intros H; try discriminate H;
    injection H as <-; reflexivity.
Qed.

(** X26: a range check only warns.  On a number it never raises and
    never touches the validity flag or the cleaned payloads; it appends one
    issue, made of the label, the value and the unit, exactly when the
    number lies below the lower or above the upper bound -- both bounds are
    allowed values -- and nothing otherwise. *)
Theorem range_check_only_warns
        (repr : json -> string) (label suffix : string) (lo hi : Z)
        (v : json) (q : Q) (s : validation_results) :
  num_of v = Some q ->
  exists s',
    check_range repr label suffix lo hi v s = (Ok tt, s')
    /\ is_valid s' = is_valid s
    /\ cleaned_weather_data s' = cleaned_weather_data s
    /\ cleaned_aqi_data s' = cleaned_aqi_data s
    /\ ((inject_Z lo <= q <= inject_Z hi)%Q -> issues s' = issues s)
    /\ ((q < inject_Z lo \/ inject_Z hi < q)%Q ->
        let issue := label ++ ": " ++ py_str repr v ++ suffix in
        issues s' = (issues s ++ [issue])%list).
Proof.
  intros Hq. unfold check_range.
  assert (Hnone : is_None v = false) by (destruct v; try discriminate Hq; reflexivity).
  rewrite Hnone. cbn [negb]. unfold bind at 1, lift at 1, py_lt.
  rewrite (numbers_compare OpLt v q lo Hq). unfold bind at 1.
  destruct (Qcompare_spec q (inject_Z lo)) as [Heq | Hlt | Hgt]; cbn [holds ret].
  - unfold lift, py_gt. rewrite (numbers_compare OpGt v q hi Hq).
    destruct (Qcompare_spec q (inject_Z hi)) as [Heq' | Hlt' | Hgt']; cbn [holds ret].
    + eexists. split; [reflexivity |]. repeat split.
      intros [H | H]; exfalso; lra.
    + eexists. split; [reflexivity |]. repeat split.
      intros [H | H]; exfalso; lra.
    + eexists. split; [reflexivity |]. cbn. repeat split.
      intros [_ H]. exfalso. lra.
  - eexists. split; [reflexivity |]. cbn. repeat split.
    intros [H _]. exfalso. lra.
  - unfold lift, py_gt. rewrite (numbers_compare OpGt v q hi Hq).
    destruct (Qcompare_spec q (inject_Z hi)) as [Heq' | Hlt' | Hgt']; cbn [holds ret].
    + eexists. split; [reflexivity |]. repeat split.
      intros [H | H]; exfalso; lra.
    + eexists. split; [reflexivity |]. repeat split.
      intros [H | H]; exfalso; lra.
    + eexists. split; [reflexivity |]. cbn. repeat split.
      intros [_ H]. exfalso. lra.
Qed.

(** A humidity of 150 against the bounds 0 and 100. *)
Lemma range_check_only_warns_witness :
  exists s',
    check_range Samples.plain_repr "Humidity out of range" "%" 0 100 (JInt 150)
                (mkValidation 1 (JStr "Chicago") true [] None None) = (Ok tt, s')
    /\ is_valid s' = true
    /\ issues s' = ["Humidity out of range: 150%"].
Proof.
  destruct (range_check_only_warns Samples.plain_repr "Humidity out of range" "%" 0 100
              (JInt 150) 150 (mkValidation 1 (JStr "Chicago") true [] None None) eq_refl)
    as [s' [Hrun [Hvalid [_ [_ [_ Hout]]]]]].
  exists s'. split; [exact Hrun |]. split; [exact Hvalid |].
  apply Hout. right. reflexivity.
Defined.

End Ranges.
